(* ===== verification/_CoqProject ===== *)
-Q . S2P
Prelude.v
Json.v
Task.v
Http.v
DataService.v
Concurrency.v
DetectionModel.v
Lifecycle.v
Statistics.v
ErrorHandler.v
UserModel.v
UploadModel.v
DetectionRoutes.v
Auth.v
AuthRoutes.v
UserRoutes.v
UploadRoutes.v
Server.v
AuthContext.v
Pages.v
EndToEnd.v
