(* ===== verification/Prelude.v ===== *)
(** * Vehicle Occlusion: a verification development

    ** The program

    The repository is a Node.js/Express backend with a React frontend.  The
    backend keeps three collections (users, uploads, detections), each one JSON
    file holding an array of records, and rewrites the whole file on every
    change.  The parts, leaves first:

    - [backend/src/services/dataService.js] (class [DataService]): the record
      store.  [readData]/[writeData] load and replace a whole collection and
      swallow I/O errors; [createX]/[updateX]/[deleteX]/[getXById]/... are
      read-modify-write sequences on one collection; [getStats] and the two
      [calculate...Stats] helpers aggregate over uploads and detections.
    - the model classes [User] ([backend/src/models/User.js]), [Upload]
      ([backend/src/models/Upload.js]) and [Detection]
      ([src/unnamed/part_001]): typed views of a record, built by a
      constructor that fills defaults with [||], saved through the record
      store.  [Detection.save] recomputes the derived fields
      ([processingDuration], [occludedVehicles], [occlusionPercentage]);
      [Detection.updateStatus] is the job state machine; [User.create] hashes
      the password with bcrypt.
    - [backend/src/middleware/errorHandler.js]: the error middleware, the
      wrapper [asyncHandler] of the route handlers and [AppError];
      [backend/src/middleware/auth.js]: authentication by JSON web token,
      roles, ownership and a per-user rate limiter.
    - [backend/src/routes/detectionRoutes.js]: the HTTP handlers for
      detections and the background job [processVehicleDetection], scheduled
      with [setTimeout] by the analyse handler.
    - [backend/src/routes/authRoutes.js], [backend/src/routes/userRoutes.js]
      and the upload routes (second part of [src/unnamed/part_000]): the
      handlers for registration and login, for the profile and the
      administration of users, and for the files multer has stored.
    - the server ([src/unnamed/part_000], first part) mounts the routers
      behind [authenticateToken] and the error middleware after them.
    - the front end: the authentication context
      ([frontend/src/context/AuthContext.js], first part), which keeps the
      signed-in user and the token and talks to [/auth] and [/users], and
      the pages (Dashboard in the second part of that file,
      [frontend/src/pages], [src/unnamed/part_002]), which load their data
      from the API with the header the context maintains.

    ** The model, file by file

    Every file of the development is on stdpp (finite maps for JS objects,
    list lookup and insert for arrays).  Each file models one part, in a
    module of its own, and opens with a comment on how its definitions
    correspond to the code.

    - [Prelude] (this file): the tactics, hint databases and the generic
      lemmas on lists that the components share.
    - [Json] (module [Js]): JavaScript values as the backend uses them
      (undefined, null, booleans, numbers, strings, instants, arrays, objects
      as [gmap string value]), with truthiness, [||], [===], property access,
      spread, [JSON.parse(JSON.stringify(v))] ([Js.jsonify]), arithmetic and
      the string methods the code calls.  What the host decides (printing and
      parsing numbers and dates, [parseInt], the order of the keys of an
      object) is the interface [Js.Coercions], with the laws the proofs use.
    - [Task]: the effects.  A program is a finite tree ([Task.task]) whose
      nodes are events answered by the environment (read or write a JSON
      file, read the clock, draw a uuid, sleep, set a timer, bcrypt, sign or
      verify a token) and whose leaves return or throw.  [Task.run] executes
      a program sequentially against a [Task.world] (file system, clock,
      counters, pending timers); [Task.step] executes one awaited event.  The
      sources of uuids, elapsed time, salts, hashes and tokens are the
      interface [Task.Runtime].
    - [Http]: requests and responses, what a middleware does with a request
      ([Http.passed]), calls of static methods by name ([Http.call]: a
      [TypeError] when the class has no such static), and the array methods
      whose callback reads a property.
    - [DataService]: one definition per method of the class [DataService]
      that reads or changes a collection, the invariant of the store
      ([store_inv]) and the reachable worlds.
    - [Concurrency]: pools of programs interleaved at their awaits, as the
      event loop runs them ([interleave], the relation [sched]).
    - [DetectionModel] (module [Detection]): the class [Detection]:
      constructor, virtual properties, statics, [save], [remove],
      [addAnnotation], [updateStatus], [createSampleDetection].
    - [Lifecycle]: the job state machine of the specification (spec.md,
      section 4.3) and the abstraction from an instance to a state of it.
    - [Statistics]: [getStats], [calculateVehicleStats],
      [calculateOcclusionStats] of the data service.
    - [ErrorHandler]: [errorHandler], [notFound], [asyncHandler], [AppError],
      and a route as the server mounts it ([route]).
    - [UserModel] (module [User]) and [UploadModel] (module [Upload]): the
      two other model classes, every method but [Upload.sizeFormatted].
    - [DetectionRoutes]: the six handlers and [processVehicleDetection].
    - [Auth]: [authenticateToken], [authorizeRoles],
      [checkResourceOwnership], [userRateLimit], [generateToken],
      [optionalAuth].
    - [AuthRoutes], [UserRoutes], [UploadRoutes]: the handlers of the three
      routers, named after their routes, and the file filter of multer.
      What a Joi schema makes of a body is the interface [Http.Joi];
      [fs.unlink] is the event [Task.Unlink].
    - [Server]: a router behind [authenticateToken] and in front of
      [errorHandler] ([Server.protected]), the health and root endpoints.
    - [AuthContext]: the provider of the front end as a [client] (the
      state of [useReducer], the token item of [localStorage], the
      [Authorization] header of the API client, the toasts): the reducer
      on the actions the file dispatches, the effect on the token, and
      [checkAuth], [login], [register], [logout], [updateUser],
      [clearError], [continueAsGuest] as functions on the client, for a
      server that is the argument [api].
    - [Pages]: the effects and handlers of Dashboard, History,
      DetectionResults, Profile and Upload, each a function on the
      [useState] state of its page.
    - [EndToEnd]: the front end with the routes of the server as its
      [api]: the request a handler receives and the answer as the API
      client delivers it ([EndToEnd.axios]).

    An instance of a class is the object [this], a [Js.value]; a method that
    assigns to [this] returns the instance it leaves, and a method that
    throws loses it.  State that lives in a closure (the [Map] of
    [userRateLimit]) is passed in and returned.

    ** What the theorems show

    - [DataService]: the functional behaviour of create, update and delete
      on the detections (what is returned, what is stored, what is left
      alone), the round trip create-then-get, the invariant of the store
      along every sequence of requests, and the error paths the code
      swallows (a corrupt file reads as empty, a failed write is not
      reported, one upload may get several detections).
    - [Concurrency]: two creations whose reads come before the first write
      lose a record; the serial schedule agrees with sequential execution;
      every program scheduled alone terminates with the result of [run], and
      every pool has a schedule that finishes all its programs.
    - [DetectionModel]: [save] recomputes the derived counters and the
      duration, and trusts [totalVehicles]; [updateStatus] accepts every
      transition, stamps start and end once, and reopens finished jobs; the
      virtual properties; the round trip of [create] and [findById].
    - [Lifecycle]: [updateStatus] implements every transition the machine of
      the specification allows (a forward simulation), and the converse
      fails.
    - [ErrorHandler], [DetectionRoutes], [Server]: the statuses the error
      middleware assigns; every detection route answers 500, alone and
      behind authentication, because the handlers call statics the model
      classes do not define; [processVehicleDetection] completes a stored
      detection with the recomputed counters, and terminates.
    - [Auth]: authentication is sound; the log of the rate limiter is
      bounded; [optionalAuth] never signs anyone in; the limiter throws for
      the users of the application.
    - [UserModel], [Statistics]: passwords are stored hashed and compare
      back; the e-mail test decides the language of its pattern; the
      statistics do not see the vehicles the models store.
    - [AuthRoutes], [UserRoutes], [UploadRoutes]: a login with the right
      password answers the token and stamps the last login; the user
      routes that go to the store answer 500, as the detection routes do;
      an upload is stored without its owner and its kind; a file of
      another type is refused with 400.
    - [AuthContext], [Pages]: along every sequence of logins, logouts,
      updates and guest sessions the stored token and the header are those
      of the state (an invariant of the step relation [AuthContext.step]);
      what a login that is accepted or refused leaves; the demo result of
      a guest is within its ranges.
    - [EndToEnd]: a login of the front end against the login route ends
      with the token the server signed in the state, in [localStorage] and
      in the header; a guest is refused by every protected router; the
      profile form always ends with the message of a [TypeError].

    Theorems with hypotheses are applied to a concrete input at the end of
    their file.

    ** Bounds and fuel

    No definition uses fuel: programs are finite trees, every run is by
    structural recursion, and the schedules of [Concurrency] are lists.
    Numbers are exact rationals kept in lowest terms, with [NaN] apart and
    without infinities: a quotient by zero is [NaN], and the code divides
    by what it has tested.  Where floating point rounds, the model does not
    ([toFixed(2)] is taken on the exact value).  A string is a sequence of
    code units below 256; case conversion is that of ASCII.  An ISO-8601
    timestamp and the [Date] it parses to are both the instant they denote
    ([Js.VTime]).  Objects have no key order of their own: where the code
    depends on it ([Object.keys]), the order is the host's
    ([Js.key_order]).  Properties inherited from [Object.prototype] are not
    modelled.

    The front end is run one call at a time: a function of the context or
    of a page is followed to its end before the next starts, and the
    effect on the token runs with the dispatch that changes it.  The
    numbers [Math.random] returns and the readings of the clock of the
    browser are arguments.

    ** Not modelled

    - [Upload.sizeFormatted]: a floor of a quotient of floating-point
      logarithms.
    - The storage callback of multer (the name of a stored file, by
      [path.extname]) and multer itself: a handler starts with [req.file]
      or [req.files] as multer left them.
    - The libraries the server configures (helmet, cors, morgan, the
      express rate limiter, the body parsers) and [app.listen]; how
      Express matches a path to a route.
    - The JSX of the components, the navigation and the [FileReader]; the
      API client ([services/api.js] is not among the sources), so that the
      path a page requests is not matched against the routes of the
      server.
    - Console logging, the JSON text on disk (a file is the value it parses
      to, or [Corrupt]) and partial writes (a write succeeds as a whole or
      leaves the file as it was).
    - A [find] or [filter] callback of the record store that meets a [null]
      element of a collection throws in the code; the store never writes
      one, and [DataService] answers as if the element had no id. *)

From stdpp Require Export base tactics option list strings pretty gmap.
From Stdlib Require Export ZArith QArith Qabs.
Close Scope Q_scope.

(** ** Scopes *)

Declare Scope js_scope.
Delimit Scope js_scope with js.
Declare Scope task_scope.
Delimit Scope task_scope with task.

(** ** Tactics *)

(** Case analysis on the scrutinee of the first [match] or [if] of the goal,
    keeping the equation. *)
Ltac break_goal :=
  match goal with
  | |- context [match ?x with _ => _ end] => destruct x eqn:?
  | |- context [if ?b then _ else _] => destruct b eqn:?
  end.

(** The same in a hypothesis. *)
Ltac break_hyp H :=
  match type of H with
  | context [match ?x with _ => _ end] => destruct x eqn:?
  | context [if ?b then _ else _] => destruct b eqn:?
  end.

(** [x ∉ [a; b; ...]] for closed, distinct terms. *)
Ltac not_in_list :=
  solve [ repeat (apply not_elem_of_cons; split; [done|]); apply not_elem_of_nil ].

(** Membership of a literal in a list of literals, or a goal that [done]
    closes (two literals differ). *)
Ltac in_list :=
  solve [ repeat first [apply list_elem_of_here | apply list_elem_of_further]
        | done ].

(** ** Hint databases

    [vo] holds the resolution hints of the development, [vo_rw] the rewrite
    rules that evaluate the model's operations. *)

Create HintDb vo.
Create Rewrite HintDb vo_rw.

(** ** Generic lemmas on lists

    JavaScript's [find]/[findIndex] are stdpp's [list_find], [filter] is
    [filter], an assignment [a[i] = x] within bounds is [<[i:=x]> a] and
    [push] is [++ [x]]. *)

Section list_lemmas.
Context {A : Type}.
Implicit Types (l : list A) (x y : A) (i j : nat).

Lemma list_find_lt (P : A → Prop) `{!∀ x, Decision (P x)} l i x :
  list_find P l = Some (i, x) → i < length l.
Proof. intros [Hi _]%list_find_Some. by eapply lookup_lt_Some. Qed.

Lemma list_find_holds (P : A → Prop) `{!∀ x, Decision (P x)} l i x :
  list_find P l = Some (i, x) → P x.
Proof. by intros (_ & HP & _)%list_find_Some. Qed.

Lemma list_find_lookup (P : A → Prop) `{!∀ x, Decision (P x)} l i x :
  list_find P l = Some (i, x) → l !! i = Some x.
Proof. by intros [Hi _]%list_find_Some. Qed.

Lemma list_find_snoc_None (P : A → Prop) `{!∀ x, Decision (P x)} l x :
  list_find P l = None → P x →
  list_find P (l ++ [x]) = Some (length l, x).
Proof.
  intros Hl HP. rewrite list_find_app_r by done. simpl.
  rewrite decide_True by done. done.
Qed.

Lemma list_find_snoc_Some (P : A → Prop) `{!∀ x, Decision (P x)} l x i y :
  list_find P l = Some (i, y) → list_find P (l ++ [x]) = Some (i, y).
Proof. apply list_find_app_l. Qed.

(** [filter] keeps a list's length exactly when it drops nothing. *)
Lemma filter_length_eq (P : A → Prop) `{!∀ x, Decision (P x)} l :
  length (filter P l) = length l ↔ Forall P l.
Proof.
  induction l as [|x l IH]; simpl; [by split|].
  rewrite filter_cons. pose proof (length_filter P l) as Hle.
  destruct (decide (P x)) as [HP|HP]; simpl.
  - rewrite Forall_cons. split; [intros ?|intros [_ ?]].
    + split; [done|]. apply IH. lia.
    + f_equal. by apply IH.
  - split; [lia|]. by intros [? _]%Forall_cons.
Qed.

Lemma filter_length_lt (P : A → Prop) `{!∀ x, Decision (P x)} l :
  length (filter P l) < length l ↔ Exists (λ x, ¬ P x) l.
Proof.
  pose proof (length_filter P l) as Hle.
  pose proof (filter_length_eq P l) as Heq.
  split.
  - intros Hlt. apply (not_Forall_Exists P). intros ?%Heq. lia.
  - intros Hex%(Exists_not_Forall P).
    destruct (decide (length (filter P l) = length l)) as [?%Heq|]; [done|lia].
Qed.

(** What holds of every element holds of those [filter] keeps. *)
Lemma Forall_filter_keep (P Q : A → Prop) `{!∀ x, Decision (P x)} l :
  Forall Q l → Forall Q (filter P l).
Proof.
  rewrite !Forall_forall. intros Hl x [_ Hx]%list_elem_of_filter. by apply Hl.
Qed.

Lemma list_insert_snoc_lt l i x y :
  i < length l → <[i:=x]> (l ++ [y]) = <[i:=x]> l ++ [y].
Proof. intros. by rewrite insert_app_l. Qed.

(** Replacing the element [find] finds by one that passes the test keeps
    it the element found. *)
Lemma list_find_insert_same (P : A → Prop) `{!∀ x, Decision (P x)} l i x y :
  list_find P l = Some (i, x) → P y → list_find P (<[i:=y]> l) = Some (i, y).
Proof.
  intros (Hi & HP & Hlt)%list_find_Some Hy. apply list_find_Some.
  split; [|split; [done|]].
  - apply list_lookup_insert_eq. by eapply lookup_lt_Some.
  - intros j z Hj Hji. rewrite list_lookup_insert_ne in Hj by lia. by eapply Hlt.
Qed.

(** [some] finds nothing exactly when the test fails everywhere. *)
Lemma existsb_false_Forall (f : A → bool) l :
  existsb f l = false ↔ Forall (λ x, f x = false) l.
Proof.
  induction l as [|x l IH]; simpl; [by split|].
  rewrite orb_false_iff, Forall_cons. by rewrite IH.
Qed.

End list_lemmas.

#[export] Hint Resolve list_find_lt list_find_lookup : vo.
