(* ===== verification/Json.v ===== *)
(** * JavaScript values

    The values the backend stores and passes around: what [JSON.parse]
    returns, plus [undefined], [NaN] and instants.  An object is a finite map
    from property names to values; the order of its keys is not modelled.  A
    number is an exact rational in lowest terms (so that two equal numbers
    are the same term) or [NaN].  [VTime t] is both the [Date] for the
    instant [t] (milliseconds since the epoch) and the ISO-8601 string
    [toISOString] prints for it: the two are inverse to each other and the
    code only ever converts between them.

    Property access on [null] or [undefined] raises a [TypeError] in
    JavaScript; [get] below is total and answers [VUndefined] there, and
    the callers that can meet such a receiver test it first
    ([Http.property]).

    A string is a sequence of code units below 256, and [toUpperCase] and
    [toLowerCase] are those of ASCII.  How a number or an instant prints,
    what a string parses to, [parseInt] and the order of the keys of an
    object are the host's: the interface [Coercions], with
    [sample_coercions] the instance the examples run on. *)

From S2P Require Import Prelude.

Module Js.

#[local] Set Warnings "-register-all".

Inductive value : Type :=
| VUndefined
| VNull
| VBool (b : bool)
| VNum (q : Q)
| VNaN
| VStr (s : string)
| VTime (t : Z)
| VArr (l : list value)
| VObj (o : gmap string value).

#[export] Instance value_inhabited : Inhabited value := populate VUndefined.

#[export] Instance Q_eq_dec : EqDecision Q.
Proof. solve_decision. Defined.

(** Equality of values is decidable, so that facts about concrete records
    are settled by evaluation. *)
#[export] Instance value_eq_dec : EqDecision value.
Proof.
  refine (fix go (x y : value) {struct x} : Decision (x = y) :=
    match x, y with
    | VUndefined, VUndefined | VNull, VNull | VNaN, VNaN => left _
    | VBool a, VBool b => cast_if (decide (a = b))
    | VNum a, VNum b => cast_if (decide (a = b))
    | VStr a, VStr b => cast_if (decide (a = b))
    | VTime a, VTime b => cast_if (decide (a = b))
    | VArr a, VArr b => cast_if (@decide (a = b) (@list_eq_dec _ go a b))
    | VObj a, VObj b => cast_if (@decide (a = b) (@gmap_eq_dec _ _ _ _ go a b))
    | _, _ => right _
    end); abstract congruence.
Defined.

(** The size of a value, the measure of the induction below. *)
Fixpoint vsize (v : value) : nat :=
  match v with
  | VArr l => S (foldr (λ x n, vsize x + n) 0 l)
  | VObj o => S (map_fold (λ _ x n, vsize x + n) 0 o)
  | _ => 1
  end.

(** ** Numbers *)

Definition of_Z (z : Z) : value := VNum (inject_Z z).
Definition of_nat (n : nat) : value := of_Z (Z.of_nat n).

(** [a / b] on numbers: [NaN] for [0 / 0]; a non-zero number over zero is an
    infinity, which the model does not have, and is [NaN] here too. *)
Definition num_div (a b : Q) : value :=
  if Qeq_bool b 0 then VNaN else VNum (Qred (a / b)).

Definition num_mul (a b : Q) : Q := Qred (a * b).
Definition num_add (a b : Q) : Q := Qred (a + b).
Definition num_sub (a b : Q) : Q := Qred (a - b).

(** [Math.floor] and [Math.ceil] *)
Definition floor (q : Q) : Z := (Qnum q / Z.pos (Qden q))%Z.
Definition ceil (q : Q) : Z := (- ((- Qnum q) / Z.pos (Qden q)))%Z.

(** ** Truthiness, [||], [===] *)

Definition truthy (v : value) : bool :=
  match v with
  | VUndefined | VNull | VNaN => false
  | VBool b => b
  | VNum q => negb (Qeq_bool q 0)
  | VStr s => negb (String.eqb s "")
  | VTime _ | VArr _ | VObj _ => true
  end.

(** [a || b] *)
Definition or_else (a b : value) : value := if truthy a then a else b.

(** [a === b].  Two arrays or two objects are equal when they are the same
    reference; the operands the code compares are never the same reference
    (one side comes out of a freshly parsed file), hence [false]. *)
Definition strict_eq (a b : value) : bool :=
  match a, b with
  | VUndefined, VUndefined | VNull, VNull => true
  | VBool x, VBool y => Bool.eqb x y
  | VNum x, VNum y => Qeq_bool x y
  | VStr x, VStr y => String.eqb x y
  | VTime x, VTime y => Z.eqb x y
  | _, _ => false
  end.

(** ** Objects *)

(** The own properties of a value, as [{...v}] and [Object.assign] see them
    (arrays and strings, whose indices are properties too, are not spread
    anywhere in the code). *)
Definition props (v : value) : gmap string value :=
  match v with VObj o => o | _ => ∅ end.

(** [v.k] *)
Definition get (k : string) (v : value) : value :=
  default VUndefined (props v !! k).

(** [{...a, ...b}]: the properties of [b] win. *)
Definition spread (a b : gmap string value) : gmap string value := b ∪ a.

(** [v.length] of an array *)
Definition elements (v : value) : list value :=
  match v with VArr l => l | _ => [] end.

Definition is_array (v : value) : bool :=
  match v with VArr _ => true | _ => false end.

Definition is_object (v : value) : bool :=
  match v with VObj _ => true | _ => false end.

(** [a.includes(x)] *)
Definition includes (x : value) (l : list value) : bool :=
  existsb (strict_eq x) l.

(** ** What a file keeps of a value

    [jsonify v] is [JSON.parse(JSON.stringify(v))]: a property whose value is
    [undefined] is dropped, [undefined] and [NaN] inside an array become
    [null] (as does a [NaN] property), a [Date] becomes its ISO string (the
    same [VTime] here). *)
Fixpoint jsonify (v : value) : value :=
  match v with
  | VUndefined | VNaN => VNull
  | VArr l => VArr (jsonify <$> l)
  | VObj o =>
      VObj (omap (λ x, match x with
                       | VUndefined => None
                       | _ => Some (jsonify x)
                       end) o)
  | _ => v
  end.

(** ** Errors

    An exception is the value thrown.  [Error] objects are objects with a
    [name] and a [message]; the HTTP layer reads [status], [statusCode] and
    [code] off them. *)

Definition error (name message : string) : value :=
  VObj {[ "name" := VStr name; "message" := VStr message ]}.

Definition type_error (message : string) : value := error "TypeError" message.

(** A failed system call, as Node reports it: an [Error] with a [code]. *)
Definition errno (code : string) : value :=
  VObj {[ "name" := VStr "Error"; "message" := VStr code; "code" := VStr code ]}.

(** A value that a file can hold: serialising it changes nothing. *)
Definition is_json (v : value) : Prop := jsonify v = v.

#[export] Instance is_json_dec v : Decision (is_json v).
Proof. unfold is_json. apply _. Defined.

(** ** Object literals and assignment *)

(** [{k1: v1, ..., kn: vn}], the keys distinct *)
Definition obj (l : list (string * value)) : value := VObj (list_to_map l).

(** [this.k = v] on an object *)
Definition set (k : string) (v : value) (this : value) : value :=
  VObj (<[k := v]> (props this)).

(** [Object.assign(this, source)] *)
Definition assign (this source : value) : value :=
  VObj (spread (props this) (props source)).

(** [v === null || v === undefined]: property access on such a [v] raises *)
Definition nullish (v : value) : bool :=
  match v with VUndefined | VNull => true | _ => false end.

(** ** Coercions

    How the host prints a number, reads a number or a date off a string
    and prints an instant is an interface, and so is the order in which it
    lists the keys of an object (the order of insertion, which a finite
    map does not keep): the development holds for every host that prints
    integers in decimal and lists each key once.  [parse_int] is
    [parseInt] on a string, [None] for [NaN]. *)

Class Coercions := {
  number_to_string : Q → string;
  string_to_number : string → option Q;
  time_to_string : Z → string;
  string_to_time : string → option Z;
  parse_int : string → option Z;
  key_order : gmap string value → list string;
  number_to_string_int z : number_to_string (inject_Z z) = pretty z;
  key_order_perm o : key_order o ≡ₚ (map_to_list o).*1
}.

(** A host for the examples: integers in decimal, other numbers as a
    fraction, instants as their number of milliseconds; no string reads as
    a number or as a date. *)
Definition fraction_to_string (q : Q) : string :=
  if decide (Qden q = 1%positive) then pretty (Qnum q)
  else pretty (Qnum q) +:+ "/" +:+ pretty (Z.pos (Qden q)).

#[export] Instance sample_coercions : Coercions := {|
  number_to_string := fraction_to_string;
  string_to_number := λ _, None;
  time_to_string := pretty;
  string_to_time := λ _, None;
  parse_int := λ _, None;
  key_order := λ o, (map_to_list o).*1;
  number_to_string_int := λ _, eq_refl;
  key_order_perm := λ _, reflexivity _
|}.

(** [String(v)], as template literals and property keys apply it *)
Fixpoint to_string `{Coercions} (v : value) : string :=
  match v with
  | VUndefined => "undefined"
  | VNull => "null"
  | VBool b => if b then "true" else "false"
  | VNum q => number_to_string q
  | VNaN => "NaN"
  | VStr s => s
  | VTime t => time_to_string t
  | VArr l =>
      String.concat ","
        ((λ x, match x with VUndefined | VNull => "" | _ => to_string x end) <$> l)
  | VObj _ => "[object Object]"
  end.

(** [Number(v)]; [None] is [NaN] *)
Definition to_number `{Coercions} (v : value) : option Q :=
  match v with
  | VUndefined | VNaN => None
  | VNull => Some 0%Q
  | VBool b => Some (if b then 1%Q else 0%Q)
  | VNum q => Some q
  | _ => string_to_number (to_string v)
  end.

(** [a > q] for a number literal [q] *)
Definition gt `{Coercions} (a : value) (q : Q) : bool :=
  match to_number a with
  | Some x => negb (Qle_bool x q)
  | None => false
  end.

(** [v.length] *)
Definition length_of `{Coercions} (v : value) : value :=
  match v with
  | VArr l => of_nat (length l)
  | VStr s => of_nat (String.length s)
  | VTime t => of_nat (String.length (time_to_string t))
  | _ => get "length" v
  end.

(** The largest time value of a [Date], in milliseconds. *)
Definition max_time : Z := 8640000000000000.

(** The time value of [new Date(v)]; [None] is an invalid date. *)
Definition to_date `{Coercions} (v : value) : option Z :=
  match v with
  | VTime t => Some t
  | VUndefined | VNaN => None
  | VNull => Some 0%Z
  | VBool b => Some (if b then 1 else 0)%Z
  | VNum q =>
      let t := (Qnum q ÷ Z.pos (Qden q))%Z in
      if decide (Z.abs t ≤ max_time)%Z then Some t else None
  | _ => string_to_time (to_string v)
  end.

(** [new Date(a) - new Date(b)] *)
Definition date_diff `{Coercions} (a b : value) : value :=
  match to_date a, to_date b with
  | Some x, Some y => of_Z (x - y)
  | _, _ => VNaN
  end.

(** ** Strings, arrays and the rest of arithmetic *)

(** The indices of an array or of a string, as keys, and the characters of
    a string, as values. *)
Definition indices (n : nat) : list string := pretty <$> seq 0 n.

Fixpoint chars (s : string) : list value :=
  match s with
  | EmptyString => []
  | String c s => VStr (String c EmptyString) :: chars s
  end.

(** [Object.keys(v)] and [Object.values(v)], for a [v] that is not [null]
    or [undefined] *)
Definition keys `{Coercions} (v : value) : list string :=
  match v with
  | VObj o => key_order o
  | VArr l => indices (length l)
  | VStr s => indices (String.length s)
  | VTime t => indices (String.length (time_to_string t))
  | _ => []
  end.

Definition values `{Coercions} (v : value) : list value :=
  match v with
  | VObj o => omap (λ k, o !! k) (key_order o)
  | VArr l => l
  | VStr s => chars s
  | VTime t => chars (time_to_string t)
  | _ => []
  end.

(** [l.join(sep)] *)
Definition join `{Coercions} (sep : string) (l : list value) : string :=
  String.concat sep ((λ x, if nullish x then "" else to_string x) <$> l).

(** A value that [+] concatenates: a string, or an array or object, which
    become strings first. *)
Definition stringy (v : value) : bool :=
  match v with VStr _ | VTime _ | VArr _ | VObj _ => true | _ => false end.

(** [a + b] *)
Definition plus `{Coercions} (a b : value) : value :=
  if stringy a || stringy b then VStr (to_string a +:+ to_string b)
  else match to_number a, to_number b with
       | Some x, Some y => VNum (num_add x y)
       | _, _ => VNaN
       end.

(** [a < q] and [a >= q] for a number literal [q] *)
Definition lt `{Coercions} (a : value) (q : Q) : bool :=
  match to_number a with
  | Some x => negb (Qle_bool q x)
  | None => false
  end.

Definition ge `{Coercions} (a : value) (q : Q) : bool :=
  match to_number a with
  | Some x => Qle_bool q x
  | None => false
  end.

(** [s.includes(needle)] and [s.startsWith(p)] on strings *)
Definition str_includes (needle s : string) : bool :=
  bool_decide (is_Some (String.index 0 needle s)).

Definition starts_with (p s : string) : bool := String.prefix p s.

(** [toUpperCase] and [toLowerCase], on the letters of ASCII. *)
Definition upper (c : Ascii.ascii) : Ascii.ascii :=
  let n := Ascii.nat_of_ascii c in
  if (97 <=? n)%nat && (n <=? 122)%nat then Ascii.ascii_of_nat (n - 32) else c.

Definition lower (c : Ascii.ascii) : Ascii.ascii :=
  let n := Ascii.nat_of_ascii c in
  if (65 <=? n)%nat && (n <=? 90)%nat then Ascii.ascii_of_nat (n + 32) else c.

Fixpoint map_string (f : Ascii.ascii → Ascii.ascii) (s : string) : string :=
  match s with
  | EmptyString => EmptyString
  | String c s => String (f c) (map_string f s)
  end.

(** [s.split(c)] for a separator of one character *)
Fixpoint split_on (c : Ascii.ascii) (s : string) : list string :=
  match s with
  | EmptyString => [EmptyString]
  | String a s' =>
      if Ascii.eqb a c then EmptyString :: split_on c s'
      else match split_on c s' with
           | x :: l => String a x :: l
           | [] => [String a EmptyString]
           end
  end.

(** [s.charAt(0).toUpperCase() + s.slice(1)] *)
Definition capitalize (s : string) : string :=
  match s with
  | EmptyString => EmptyString
  | String c s => String (upper c) s
  end.

(** [x.toFixed(2)], below 10^21: the nearest hundredth, the larger one
    of two, in decimal. *)
Definition pad2 (n : Z) : string :=
  if (n <? 10)%Z then "0" +:+ pretty n else pretty n.

Definition to_fixed2 (x : Q) : string :=
  let n := floor (Qabs x * 100 + (1 # 2))%Q in
  (if Qle_bool 0 x then "" else "-") +:+
  pretty (n / 100)%Z +:+ "." +:+ pad2 (n mod 100)%Z.

(** [a - b], [a * b], [a / b] and [Math.ceil(a)].  A quotient by zero is
    an infinity, which the values do not have: it is [NaN] here, and the
    code divides by what it has tested first. *)
Definition arith `{Coercions} (f : Q → Q → value) (a b : value) : value :=
  match to_number a, to_number b with
  | Some x, Some y => f x y
  | _, _ => VNaN
  end.

Definition minus `{Coercions} : value → value → value :=
  arith (λ x y, VNum (num_sub x y)).
Definition times `{Coercions} : value → value → value :=
  arith (λ x y, VNum (num_mul x y)).
Definition divide `{Coercions} : value → value → value := arith num_div.

Definition math_ceil `{Coercions} (a : value) : value :=
  match to_number a with
  | Some x => of_Z (ceil x)
  | None => VNaN
  end.

(** [Math.round(a)], the nearest integer and the larger of two, and
    [Math.floor(a)] *)
Definition math_round `{Coercions} (a : value) : value :=
  match to_number a with
  | Some x => of_Z (floor (x + (1 # 2)))
  | None => VNaN
  end.

Definition math_floor `{Coercions} (a : value) : value :=
  match to_number a with
  | Some x => of_Z (floor x)
  | None => VNaN
  end.

(** [parseInt(v)] *)
Definition parseInt `{Coercions} (v : value) : value :=
  match parse_int (to_string v) with
  | Some z => of_Z z
  | None => VNaN
  end.

(** ** Lemmas *)

Lemma vsize_elem x l : x ∈ l → vsize x < vsize (VArr l).
Proof. simpl. induction 1 as [x l|x y l _ IH]; simpl; lia. Qed.

Lemma vsize_lookup (o : gmap string value) k x :
  o !! k = Some x → vsize x < vsize (VObj o).
Proof.
  intros Hk. simpl.
  rewrite (map_fold_delete_L _ _ k x o); [lia| |done].
  intros. lia.
Qed.

(** Induction on values, through arrays and objects. *)
Lemma value_ind' (P : value → Prop) :
  P VUndefined → P VNull → (∀ b, P (VBool b)) → (∀ q, P (VNum q)) → P VNaN →
  (∀ s, P (VStr s)) → (∀ t, P (VTime t)) →
  (∀ l, Forall P l → P (VArr l)) →
  (∀ o, map_Forall (λ _, P) o → P (VObj o)) →
  ∀ v, P v.
Proof.
  intros ??????? Harr Hobj v.
  remember (vsize v) as n eqn:Hn. revert v Hn.
  induction n as [n IH] using lt_wf_ind. intros v ->.
  destruct v; auto.
  - apply Harr, Forall_forall. intros x Hx.
    apply (IH (vsize x)); [by apply vsize_elem|done].
  - apply Hobj. intros k x Hk.
    apply (IH (vsize x)); [by eapply vsize_lookup|done].
Qed.

Lemma jsonify_defined v : jsonify v ≠ VUndefined.
Proof. by destruct v. Qed.

(** Writing a value that was read back writes the same file. *)
Lemma jsonify_idemp v : jsonify (jsonify v) = jsonify v.
Proof.
  induction v as [| | | | | | |l IH|o IH] using value_ind'; simpl; try done.
  - f_equal. rewrite <- list_fmap_compose. apply Forall_fmap_ext_1.
    by eapply Forall_impl.
  - f_equal. apply map_eq. intros k. rewrite !lookup_omap.
    destruct (o !! k) as [x|] eqn:Hk; simpl; [|done].
    specialize (IH k x Hk). simpl in IH.
    pose proof (jsonify_defined x).
    destruct x; simpl in *; try done;
      by (rewrite ?IH; try done; destruct (jsonify _); congruence).
Qed.

Lemma is_json_jsonify v : is_json (jsonify v).
Proof. apply jsonify_idemp. Qed.

Lemma is_json_arr l : is_json (VArr l) ↔ Forall is_json l.
Proof.
  unfold is_json. simpl. split.
  - intros [= Hl]. apply Forall_forall. intros x Hx.
    apply list_elem_of_lookup in Hx as [i Hi].
    apply (f_equal (.!! i)) in Hl. rewrite list_lookup_fmap, Hi in Hl.
    by injection Hl.
  - intros Hl. f_equal. rewrite <- (list_fmap_id l) at 2.
    by apply Forall_fmap_ext_1.
Qed.

Lemma strict_eq_str s1 s2 : strict_eq (VStr s1) (VStr s2) = true ↔ s1 = s2.
Proof. simpl. apply String.eqb_eq. Qed.

Lemma strict_eq_str_refl s : strict_eq (VStr s) (VStr s) = true.
Proof. by apply strict_eq_str. Qed.

Lemma strict_eq_str_ne s1 s2 : s1 ≠ s2 → strict_eq (VStr s1) (VStr s2) = false.
Proof. intros. by apply not_true_iff_false; intros ?%strict_eq_str. Qed.

Lemma strict_eq_sym a b : strict_eq a b = strict_eq b a.
Proof.
  destruct a, b; simpl; try done.
  - by destruct b, b0.
  - apply eq_true_iff_eq. rewrite !Qeq_bool_iff. split; intros ?; by symmetry.
  - apply String.eqb_sym.
  - apply Z.eqb_sym.
Qed.

Lemma truthy_str s : truthy (VStr s) = true ↔ s ≠ "".
Proof.
  simpl. rewrite negb_true_iff. split.
  - intros H ->. by rewrite String.eqb_refl in H.
  - intros. by apply String.eqb_neq.
Qed.

Lemma or_else_truthy a b : truthy a = true → or_else a b = a.
Proof. unfold or_else. by intros ->. Qed.

Lemma or_else_falsy a b : truthy a = false → or_else a b = b.
Proof. unfold or_else. by intros ->. Qed.

Lemma get_obj k o : get k (VObj o) = default VUndefined (o !! k).
Proof. done. Qed.

Lemma get_insert_eq k v o : get k (VObj (<[k:=v]> o)) = v.
Proof. by rewrite get_obj, lookup_insert_eq. Qed.

Lemma get_insert_ne k k' v o :
  k ≠ k' → get k' (VObj (<[k:=v]> o)) = get k' (VObj o).
Proof. intros. by rewrite !get_obj, lookup_insert_ne. Qed.

(** In [{...a, ...b}] a property of [b] hides the one of [a]. *)
Lemma spread_lookup_r a b k v : b !! k = Some v → spread a b !! k = Some v.
Proof. intros. by apply lookup_union_Some_l. Qed.

Lemma spread_lookup_l a b k : b !! k = None → spread a b !! k = a !! k.
Proof. intros. by apply lookup_union_r. Qed.

(** An object is JSON when none of its properties is [undefined] and each
    is JSON. *)
Lemma is_json_obj o :
  is_json (VObj o) ↔ map_Forall (λ _ x, x ≠ VUndefined ∧ is_json x) o.
Proof.
  unfold is_json. simpl. split.
  - intros [= Ho] k x Hk. apply (f_equal (.!! k)) in Ho.
    rewrite lookup_omap, Hk in Ho. simpl in Ho.
    destruct x; simpl in *; try done; split; try done; congruence.
  - intros Ho. f_equal. apply map_eq. intros k. rewrite lookup_omap.
    destruct (o !! k) as [x|] eqn:Hk; simpl; [|done].
    destruct (Ho k x Hk) as [Hx ->]. by destruct x.
Qed.

Lemma is_json_insert k x o :
  x ≠ VUndefined → is_json x → is_json (VObj o) → is_json (VObj (<[k:=x]> o)).
Proof. rewrite !is_json_obj. intros. by apply map_Forall_insert_2. Qed.

Lemma is_json_spread a b :
  is_json (VObj a) → is_json (VObj b) → is_json (VObj (spread a b)).
Proof. rewrite !is_json_obj. intros. by apply map_Forall_union_2. Qed.

Lemma is_json_props v : is_json v → is_json (VObj (props v)).
Proof. destruct v; try done. Qed.

Lemma is_json_lookup o k x :
  is_json (VObj o) → o !! k = Some x → x ≠ VUndefined ∧ is_json x.
Proof. rewrite is_json_obj. intros Ho Hk. by apply (Ho k). Qed.

Lemma is_json_get k v : is_json v → get k v = VUndefined ∨ is_json (get k v).
Proof.
  intros Hv%is_json_props. unfold get.
  destruct (props v !! k) as [x|] eqn:Hk; [|by left].
  right. by eapply is_json_lookup.
Qed.

Lemma jsonify_obj_lookup o k :
  props (jsonify (VObj o)) !! k =
  match o !! k with
  | Some VUndefined | None => None
  | Some x => Some (jsonify x)
  end.
Proof. simpl. rewrite lookup_omap. by destruct (o !! k) as [[]|]. Qed.

(** Serialisation keeps a property that holds a string, and invents none:
    looking for a record by a string key sees the same thing before and
    after the file. *)
Lemma get_jsonify_str k r s :
  get k r = VStr s → get k (jsonify r) = VStr s.
Proof.
  destruct r; try done. unfold get. rewrite jsonify_obj_lookup. simpl.
  destruct (o !! k) as [[]|]; simpl; congruence.
Qed.

(** Serialisation keeps a property that is defined, serialised. *)
Lemma get_jsonify_undefined k r :
  get k r = VUndefined → get k (jsonify r) = VUndefined.
Proof.
  destruct r; try done. unfold get. rewrite jsonify_obj_lookup. simpl.
  by destruct (o !! k) as [[]|].
Qed.

Lemma get_jsonify k r v :
  get k r = v → v ≠ VUndefined → get k (jsonify r) = jsonify v.
Proof.
  intros <- Hv. destruct r; try done. unfold get in *. rewrite jsonify_obj_lookup.
  simpl in *. by destruct (o !! k) as [[]|].
Qed.

(** What has a property is an object. *)
Lemma get_truthy k r v : get k r = v → v ≠ VUndefined → truthy r = true.
Proof. intros <- Hv. by destruct r. Qed.

Lemma strict_eq_get_jsonify k r s :
  strict_eq (get k (jsonify r)) (VStr s) = strict_eq (get k r) (VStr s).
Proof.
  destruct r; try done. unfold get. rewrite jsonify_obj_lookup. simpl.
  by destruct (o !! k) as [[]|].
Qed.

Lemma spread_empty_r a : spread a ∅ = a.
Proof. unfold spread. by rewrite (left_id_L ∅ (∪)). Qed.

Lemma spread_idemp a : spread a a = a.
Proof. unfold spread. by rewrite (idemp_L (∪)). Qed.

(** Only an object has properties. *)
Lemma get_defined_truthy k v : get k v ≠ VUndefined → truthy v = true.
Proof. by destruct v. Qed.

Lemma truthy_not_nullish v : truthy v = true → nullish v = false.
Proof. by destruct v. Qed.

Lemma get_set_eq k v this : get k (set k v this) = v.
Proof. apply get_insert_eq. Qed.

Lemma get_set_ne k k' v this : k ≠ k' → get k' (set k v this) = get k' this.
Proof. intros. unfold set. rewrite get_insert_ne by done. by destruct this. Qed.

Lemma get_assign k this source :
  get k (assign this source) =
  match props source !! k with Some v => v | None => get k this end.
Proof.
  unfold assign, get. simpl. unfold spread. rewrite lookup_union.
  by destruct (props source !! k), (props this !! k).
Qed.

Lemma get_assign_defined k this source :
  get k source ≠ VUndefined → get k (assign this source) = get k source.
Proof. rewrite get_assign. unfold get. by destruct (props source !! k). Qed.

Lemma get_assign_undefined k this source :
  get k source = VUndefined → get k this = VUndefined →
  get k (assign this source) = VUndefined.
Proof. rewrite get_assign. unfold get at 1. by destruct (props source !! k). Qed.

Lemma props_set k v this : props (set k v this) = <[k := v]> (props this).
Proof. done. Qed.

Lemma floor_bounds q k : (0 <= q)%Q → (q < inject_Z k)%Q → (0 ≤ floor q < k)%Z.
Proof.
  destruct q as [a b]. unfold Qle, Qlt, floor. simpl. intros Ha Hk.
  rewrite Z.mul_1_r in Ha, Hk. split.
  - apply Z.div_pos; lia.
  - apply Z.div_lt_upper_bound; lia.
Qed.

(** [Math.floor(Math.random() * k)] is one of [0], ..., [k - 1]. *)
Lemma floor_draw r k :
  (0 <= r)%Q → (r < 1)%Q → (0 < k)%Z → (0 ≤ floor (r * inject_Z k) < k)%Z.
Proof.
  intros H0 H1 Hk. apply floor_bounds.
  - apply Qmult_le_0_compat; [done|]. unfold Qle. simpl. lia.
  - rewrite <- (Qmult_1_l (inject_Z k)) at 2. apply Qmult_lt_compat_r; [|done].
    unfold Qlt. simpl. lia.
Qed.

Lemma floor_div_pos a (b : positive) :
  floor (inject_Z a / (Z.pos b # 1)) = (a / Z.pos b)%Z.
Proof. unfold floor. simpl. by rewrite Z.mul_1_r. Qed.

Lemma num_add_int a b : num_add (inject_Z a) (inject_Z b) = inject_Z (a + b).
Proof.
  unfold num_add. rewrite <- (inject_Z_Qred (a + b)). apply Qred_complete.
  by rewrite inject_Z_plus.
Qed.

Lemma truthy_of_Z z : truthy (of_Z z) = bool_decide (z ≠ 0%Z).
Proof.
  simpl. unfold Qeq_bool. simpl. rewrite Z.mul_1_r.
  case_bool_decide; [by apply negb_true_iff, Z.eqb_neq|by apply negb_false_iff, Z.eqb_eq].
Qed.

Section coercions.
Context `{Coercions}.

Lemma to_string_int z : to_string (of_Z z) = pretty z.
Proof. apply number_to_string_int. Qed.

Lemma to_number_num q : to_number (VNum q) = Some q.
Proof. done. Qed.

Lemma gt_of_Z z1 z2 : gt (of_Z z1) (inject_Z z2) = bool_decide (z2 < z1)%Z.
Proof.
  unfold gt. simpl. unfold Qle_bool. simpl. rewrite !Z.mul_1_r.
  case_bool_decide; [apply negb_true_iff, Z.leb_gt|apply negb_false_iff, Z.leb_le]; lia.
Qed.

Lemma length_of_arr l : length_of (VArr l) = of_nat (length l).
Proof. done. Qed.

Lemma date_diff_time a b : date_diff (VTime a) (VTime b) = of_Z (a - b).
Proof. done. Qed.

End coercions.

End Js.

#[export] Hint Rewrite Js.get_insert_eq Js.strict_eq_str_refl Js.get_set_eq
  @Js.to_string_int @Js.date_diff_time @Js.length_of_arr : vo_rw.
#[export] Hint Rewrite Js.get_insert_ne Js.strict_eq_str_ne Js.get_set_ne using done : vo_rw.
