(* ===== verification/Task.v ===== *)
(** * Effects: programs, the world they run in, and their executions

    An [async] function of the backend is a [task]: a finite tree whose
    leaves return a value ([Ret]) or throw one ([Throw], a rejected promise)
    and whose nodes ([Vis]) are events answered by the environment.  The
    environment is a [world]: the JSON files, the paths that cannot be
    written, the clock and the pending timers.  [handle] gives each event
    its meaning, [run] executes a whole program, [try_catch] is
    [try]/[catch].

    The events [ReadJson], [WriteJson], [PathExists], [EnsureDir],
    [Unlink], [Sleep] and those of bcrypt ([GenSalt], [Hash], [Compare]) are awaited by the
    code: another program may run between the call and its answer.  [Now],
    [Uuid], [SetTimeout] and those of jsonwebtoken ([JwtVerify], [JwtSign])
    are synchronous.
    [advance] runs a program up to its next awaited event and [step] lets it
    take this event, so that a scheduler can interleave programs exactly at
    their [await]s.

    What the environment decides (the uuid drawn, the time that passes
    between two readings of the clock, salts, hashes, and which tokens
    verify) is the interface [Runtime]; every
    theorem holds for every instance, and [counting_runtime] is the
    instance the examples run on. *)

From S2P Require Import Prelude Json.

Module Task.
Import Js.

(** ** The world *)

(** A file is the value its text parses to, or text that does not parse. *)
Inductive file : Type :=
| Json (v : value)
| Corrupt.

(** A timer set by [setTimeout(job(arg), ms)]: [job] names the function. *)
Record timer : Type := Timer {
  timer_due : Z;
  timer_job : string;
  timer_arg : value;
}.

Record world : Type := World {
  files : gmap string file;
  unwritable : gset string;
  clock : Z;
  ticks : nat;
  drawn : nat;
  timers : list timer;
}.

Definition set_files (f : gmap string file → gmap string file) (w : world) : world :=
  World (f (files w)) (unwritable w) (clock w) (ticks w) (drawn w) (timers w).

Definition set_clock (t : Z) (w : world) : world :=
  World (files w) (unwritable w) t (S (ticks w)) (drawn w) (timers w).

Definition set_drawn (n : nat) (w : world) : world :=
  World (files w) (unwritable w) (clock w) (ticks w) n (timers w).

Definition set_timers (f : list timer → list timer) (w : world) : world :=
  World (files w) (unwritable w) (clock w) (ticks w) (drawn w) (f (timers w)).

(** What a call returns or throws. *)
Inductive outcome (A : Type) : Type :=
| Returned (a : A)
| Thrown (e : value).
Arguments Returned {A} a.
Arguments Thrown {A} e.

(** Sequencing of calls that may throw: the first throw is the result. *)
#[export] Instance outcome_ret : MRet outcome := @Returned.
#[export] Instance outcome_bind : MBind outcome := λ A B f o,
  match o with Returned a => f a | Thrown e => Thrown e end.

(** What the environment chooses.  Uuids do not repeat (a collision of two
    version-4 uuids is not considered); time does not run backwards.  The
    libraries the backend calls for passwords and tokens are here too:
    [bcrypt] ([salt_of], [bcrypt_hash], [bcrypt_check]: a password checks
    against its own hash) and [jsonwebtoken] ([jwt_verify] and [jwt_sign],
    given the token or payload, the secret and the time). *)
Class Runtime : Type := {
  uuid_of : nat → string;
  uuid_of_inj : Inj (=) (=) uuid_of;
  elapsed : nat → Z;
  elapsed_nonneg n : (0 ≤ elapsed n)%Z;
  salt_of : nat → string;
  bcrypt_hash : string → string → string;
  bcrypt_check : string → string → bool;
  bcrypt_check_hash p s : bcrypt_check p (bcrypt_hash p s) = true;
  jwt_verify : value → value → Z → outcome value;
  jwt_sign : value → value → value → Z → outcome string;
}.
#[export] Existing Instance uuid_of_inj.

(** ** Programs *)

Inductive event : Type → Type :=
| ReadJson (path : string) : event value
| WriteJson (path : string) (data : value) : event unit
| PathExists (path : string) : event bool
| EnsureDir (path : string) : event unit
| Unlink (path : value) : event unit
| Sleep (ms : Z) : event unit
| Now : event Z
| Uuid : event string
| SetTimeout (ms : Z) (job : string) (arg : value) : event unit
| GenSalt (rounds : Z) : event string
| Hash (data : value) (salt : string) : event string
| Compare (candidate hash : value) : event bool
| JwtVerify (token secret : value) : event value
| JwtSign (payload secret options : value) : event string.

(** The continuation of an event takes its answer, which may be an
    exception: the [try] around the call decides what happens to it. *)
Inductive task (A : Type) : Type :=
| Ret (a : A)
| Throw (e : value)
| Vis {X : Type} (ev : event X) (k : outcome X → task A).
Arguments Ret {A} a.
Arguments Throw {A} e.
Arguments Vis {A X} ev k.

(** [return] and [throw] of an answer *)
Definition settle {A} (o : outcome A) : task A :=
  match o with
  | Returned a => Ret a
  | Thrown e => Throw e
  end.

Fixpoint bind {A B} (t : task A) (f : A → task B) : task B :=
  match t with
  | Ret a => f a
  | Throw e => Throw e
  | Vis ev k => Vis ev (λ o, bind (k o) f)
  end.

#[export] Instance task_ret : MRet task := @Ret.
#[export] Instance task_bind : MBind task := λ A B f t, bind t f.
#[export] Instance task_fmap : FMap task := λ A B f t, bind t (λ a, Ret (f a)).

(** Perform one event. *)
Definition trigger {X} (ev : event X) : task X := Vis ev settle.

(** [try { t } catch (e) { h e }] *)
Fixpoint try_catch {A} (t : task A) (h : value → task A) : task A :=
  match t with
  | Ret a => Ret a
  | Throw e => h e
  | Vis ev k => Vis ev (λ o, try_catch (k o) h)
  end.

(** ** The meaning of events *)

Definition handle `{Runtime} {X} (ev : event X) (w : world) : outcome X * world :=
  match ev in event X return outcome X * world with
  | ReadJson p =>
      match files w !! p with
      | Some (Json v) => (Returned v, w)
      | Some Corrupt => (Thrown (error "SyntaxError" "Unexpected token in JSON"), w)
      | None => (Thrown (errno "ENOENT"), w)
      end
  | WriteJson p d =>
      if decide (p ∈ unwritable w) then (Thrown (errno "EACCES"), w)
      else (Returned (), set_files <[p := Json (jsonify d)]> w)
  | PathExists p => (Returned (bool_decide (is_Some (files w !! p))), w)
  | EnsureDir _ => (Returned (), w)
  | Unlink p =>
      match p with
      | VStr p =>
          if decide (p ∈ unwritable w) then (Thrown (errno "EACCES"), w)
          else if decide (is_Some (files w !! p))
          then (Returned (), set_files (delete p) w)
          else (Thrown (errno "ENOENT"), w)
      | _ => (Thrown (type_error "The path argument must be of type string"), w)
      end
  | Sleep ms =>
      (Returned (), set_clock (clock w + Z.max 0 ms + elapsed (ticks w)) w)
  | Now =>
      let t := (clock w + elapsed (ticks w))%Z in (Returned t, set_clock t w)
  | Uuid => (Returned (uuid_of (drawn w)), set_drawn (S (drawn w)) w)
  | SetTimeout ms job arg =>
      (Returned (), set_timers (.++ [Timer (clock w + Z.max 0 ms) job arg]) w)
  | GenSalt _ => (Returned (salt_of (drawn w)), set_drawn (S (drawn w)) w)
  | Hash data salt =>
      match data with
      | VStr p => (Returned (bcrypt_hash p salt), w)
      | _ => (Thrown (error "Error" "Illegal arguments"), w)
      end
  | Compare candidate hash =>
      match candidate, hash with
      | VStr p, VStr h => (Returned (bcrypt_check p h), w)
      | _, _ => (Thrown (error "Error" "Illegal arguments"), w)
      end
  | JwtVerify token secret => (jwt_verify token secret (clock w), w)
  | JwtSign payload secret options => (jwt_sign payload secret options (clock w), w)
  end.

(** Sequential execution: every event is answered at once. *)
Fixpoint run `{Runtime} {A} (t : task A) (w : world) : outcome A * world :=
  match t with
  | Ret a => (Returned a, w)
  | Throw e => (Thrown e, w)
  | Vis ev k => let '(o, w') := handle ev w in run (k o) w'
  end.

(** ** Interleaving at [await]s *)

Definition awaited {X} (ev : event X) : bool :=
  match ev with
  | ReadJson _ | WriteJson _ _ | PathExists _ | EnsureDir _ | Unlink _ | Sleep _
  | GenSalt _ | Hash _ _ | Compare _ _ => true
  | Now | Uuid | SetTimeout _ _ _ | JwtVerify _ _ | JwtSign _ _ _ => false
  end.

(** Run the synchronous events at the head of a program: it stops at its
    next [await], or at its end. *)
Fixpoint advance `{Runtime} {A} (t : task A) (w : world) : task A * world :=
  match t with
  | Vis ev k =>
      if awaited ev then (t, w)
      else let '(o, w') := handle ev w in advance (k o) w'
  | _ => (t, w)
  end.

(** Take the awaited event at the head of a program, then run on to the next
    [await].  A finished program does not move. *)
Definition step `{Runtime} {A} (t : task A) (w : world) : task A * world :=
  match t with
  | Vis ev k => let '(o, w') := handle ev w in advance (k o) w'
  | _ => (t, w)
  end.

(** Has the program finished? *)
Definition finished {A} (t : task A) : bool :=
  match t with
  | Vis _ _ => false
  | _ => true
  end.

(** The result of a finished program. *)
Definition result {A} (t : task A) : option (outcome A) :=
  match t with
  | Ret a => Some (Returned a)
  | Throw e => Some (Thrown e)
  | Vis _ _ => None
  end.

(** The number of events on the longest path of a program bounds the steps
    it can take; it is not computable (a continuation has infinitely many
    arguments), so the bound used is the number of steps taken: [steps n]
    iterates [step]. *)
Fixpoint steps `{Runtime} {A} (n : nat) (t : task A) (w : world) : task A * world :=
  match n with
  | 0 => (t, w)
  | S n => let '(t', w') := step t w in steps n t' w'
  end.

(** ** The runtime of the examples: uuids [u0], [u1], ..., one millisecond
    between two readings of the clock. *)

Definition counting_uuid (n : nat) : string := "u" +:+ pretty n.

Lemma counting_uuid_inj : Inj (=) (=) counting_uuid.
Proof.
  intros n m Hnm. unfold counting_uuid in Hnm. simpl in Hnm.
  injection Hnm as Hnm. by apply (inj pretty).
Qed.

(** The token of the examples for a user id is ["token:"] followed by the
    id; the hash of a password is ["$"] followed by the password. *)
Definition sample_verify (token secret : value) (now : Z) : outcome value :=
  match token with
  | VStr s =>
      if String.prefix "token:" s
      then Returned (VObj {[ "userId" := VStr (String.substring 6 (String.length s - 6) s) ]})
      else if String.eqb s "expired"
      then Thrown (error "TokenExpiredError" "jwt expired")
      else Thrown (error "JsonWebTokenError" "jwt malformed")
  | _ => Thrown (error "JsonWebTokenError" "jwt must be a string")
  end.

Definition sample_sign (payload secret options : value) (now : Z) : outcome string :=
  match get "userId" payload with
  | VStr id => Returned ("token:" +:+ id)
  | _ => Returned "token:"
  end.

#[export] Instance counting_runtime : Runtime := {|
  uuid_of := counting_uuid;
  uuid_of_inj := counting_uuid_inj;
  elapsed := λ _, 1%Z;
  elapsed_nonneg := λ _, ltac:(done);
  salt_of := λ n, "salt" +:+ pretty n;
  bcrypt_hash := λ p _, "$" +:+ p;
  bcrypt_check := λ p h, String.eqb h ("$" +:+ p);
  bcrypt_check_hash := λ p _, String.eqb_refl _;
  jwt_verify := sample_verify;
  jwt_sign := sample_sign;
|}.

Definition empty_world : world := World ∅ ∅ 0 0 0 [].

(** A world whose files hold what [JSON.parse] can return.  Every world the
    backend can reach is one: a write stores the serialised value. *)
Definition clean (w : world) : Prop :=
  ∀ f v, files w !! f = Some (Json v) → is_json v.

(** ** Lemmas: the equations of [run] *)

Section run.
Context `{Runtime}.
Context {A B : Type}.
Implicit Types (t : task A) (f : A → task B) (w : world).

Lemma run_ret (a : A) w : run (mret a) w = (Returned a, w).
Proof. done. Qed.

Lemma run_bind t f w :
  run (t ≫= f) w =
  match run t w with
  | (Returned a, w') => run (f a) w'
  | (Thrown e, w') => (Thrown e, w')
  end.
Proof.
  revert w. induction t as [a|e|X ev k IH]; intros w; simpl; try done.
  destruct (handle ev w) as [o w']. apply IH.
Qed.

Lemma run_try_catch t (h : value → task A) w :
  run (try_catch t h) w =
  match run t w with
  | (Returned a, w') => (Returned a, w')
  | (Thrown e, w') => run (h e) w'
  end.
Proof.
  revert w. induction t as [a|e|X ev k IH]; intros w; simpl; try done.
  destruct (handle ev w) as [o w']. apply IH.
Qed.

Lemma run_trigger {X} (ev : event X) w : run (trigger ev) w = handle ev w.
Proof. simpl. by destruct (handle ev w) as [[] ?]. Qed.

End run.

Lemma run_fmap `{Runtime} {A B} (g : A → B) (t : task A) w :
  run (g <$> t) w =
  match run t w with
  | (Returned a, w') => (Returned (g a), w')
  | (Thrown e, w') => (Thrown e, w')
  end.
Proof. apply (run_bind t (λ a, Ret (g a))). Qed.

Lemma set_files_id (g : gmap string file → gmap string file) w :
  g (files w) = files w → set_files g w = w.
Proof. unfold set_files. intros ->. by destruct w. Qed.

Lemma run_fmap_snd `{Runtime} {A B} (g : A → B) (t : task A) w :
  (run (g <$> t) w).2 = (run t w).2.
Proof. rewrite run_fmap. by destruct (run t w) as [[] ?]. Qed.

(** ** Lemmas: what an execution leaves alone *)

Section frame.
Context `{Runtime}.

(** No event changes the set of unwritable paths. *)
Lemma handle_unwritable {X} (ev : event X) w :
  unwritable (handle ev w).2 = unwritable w.
Proof. destruct ev; simpl; repeat case_match; done. Qed.

Lemma run_unwritable {A} (t : task A) w : unwritable (run t w).2 = unwritable w.
Proof.
  revert w. induction t as [a|e|X ev k IH]; intros w; simpl; try done.
  pose proof (handle_unwritable ev w) as Hw.
  destruct (handle ev w) as [o w']; simpl in *. by rewrite IH.
Qed.

(** The clock never runs backwards. *)
Lemma handle_clock_mono {X} (ev : event X) w : (clock w ≤ clock (handle ev w).2)%Z.
Proof.
  destruct ev; simpl; repeat case_match; simpl; try lia;
    pose proof (elapsed_nonneg (ticks w)); lia.
Qed.

Lemma run_clock_mono {A} (t : task A) w : (clock w ≤ clock (run t w).2)%Z.
Proof.
  revert w. induction t as [a|e|X ev k IH]; intros w; simpl; try lia.
  pose proof (handle_clock_mono ev w) as Hc.
  destruct (handle ev w) as [o w']; simpl in *.
  specialize (IH o w'). lia.
Qed.

(** Uuids are only ever drawn. *)
Lemma handle_drawn_mono {X} (ev : event X) w : drawn w ≤ drawn (handle ev w).2.
Proof. destruct ev; simpl; repeat case_match; simpl; lia. Qed.

Lemma run_drawn_mono {A} (t : task A) w : drawn w ≤ drawn (run t w).2.
Proof.
  revert w. induction t as [a|e|X ev k IH]; intros w; simpl; try lia.
  pose proof (handle_drawn_mono ev w) as Hc.
  destruct (handle ev w) as [o w']; simpl in *.
  specialize (IH o w'). lia.
Qed.

(** Files stay what [JSON.parse] can return. *)
Lemma handle_clean {X} (ev : event X) w : clean w → clean (handle ev w).2.
Proof.
  intros Hw. destruct ev; simpl; try done; try (by repeat case_match).
  - destruct (decide (path ∈ unwritable w)); [done|].
    intros f v. simpl. rewrite lookup_insert.
    destruct (decide (path = f)); [|by apply Hw].
    intros [= <-]. apply is_json_jsonify.
  - repeat case_match; try done.
    intros f v. simpl. rewrite lookup_delete_Some. intros [_ Hf]. by eapply Hw.
Qed.

Lemma run_clean {A} (t : task A) w : clean w → clean (run t w).2.
Proof.
  revert w. induction t as [a|e|X ev k IH]; intros w Hw; simpl; try done.
  pose proof (handle_clean ev w Hw) as Hc.
  destruct (handle ev w) as [o w']; simpl in *. by apply IH.
Qed.

Lemma empty_world_clean : clean empty_world.
Proof. intros f v. simpl. by rewrite lookup_empty. Qed.

End frame.

End Task.

Export Task(task_ret, task_bind, task_fmap, counting_runtime, uuid_of_inj).

#[export] Hint Rewrite @Task.run_ret @Task.run_bind @Task.run_try_catch
  @Task.run_trigger @Task.run_fmap : vo_rw.
#[export] Hint Resolve Task.run_clock_mono Task.run_drawn_mono
  Task.run_clean Task.empty_world_clean : vo.

(** Evaluate [run] through binds, events and [try]/[catch], as far as the
    rewrite rules of [vo_rw] go. *)
Ltac run_simpl :=
  repeat (progress (autorewrite with vo_rw; simpl Task.handle; cbv beta iota zeta)).
