(* ===== verification/Http.v ===== *)
(** * Requests, responses and middleware

    What the Express layer of the backend sees of a request: the request
    object [req] (a [Js.value] with [body], [params], [query], [headers]
    and, once authenticated, [user]), and what a handler or a middleware
    does with it: it answers ([res.status(code).json(body)], or
    [res.json(body)], which answers 200), it calls [next()] with the
    request as it leaves it, or it calls [next(err)].

    The status is the value [res.status] was called with: the code never
    checks that it is a number. *)

From S2P Require Import Prelude Json Task.

Module Http.
Import Js Task.

Record response := Response { status : value; body : value }.

#[export] Instance response_eq_dec : EqDecision response.
Proof. solve_decision. Defined.

(** [res.json(body)] *)
Definition json (body : value) : response := Response (of_Z 200) body.

(** [res.status(code).json(body)] *)
Definition status_json (code : Z) (body : value) : response :=
  Response (of_Z code) body.

(** [{ success: false, message }] *)
Definition refusal (message : string) : value :=
  obj [("success", VBool false); ("message", VStr message)].

(** [const { error } = schema.validate(body)]: what Joi makes of a body
    is the library's.  [joi_validate schema body] is
    [error.details[0].message] when the validation fails, for the schema
    the code declares under the name [schema]. *)
Class Joi := { joi_validate : string → value → option value }.

(** The schemas that accept every body. *)
Definition accepting : Joi := {| joi_validate _ _ := None |}.

(** What a middleware did. *)
Inductive passed :=
| Answer (r : response)
| Next (req : value)
| NextError (err : value).

(** Calling a property that is not a function: the statics a class does
    not define, the methods a plain value does not have. *)
Definition not_a_function (receiver name : string) : value :=
  type_error (receiver +:+ "." +:+ name +:+ " is not a function").

(** [Class.name(...args)], for a class whose static methods are [table]. *)
Definition call (receiver : string)
    (table : string → option (list value → task value))
    (name : string) (args : list value) : task value :=
  match table name with
  | Some method => method args
  | None => Throw (not_a_function receiver name)
  end.

(** [v.name(...)] on a value that came out of the store or of a literal:
    it has no methods. *)
Definition call_method (receiver name : string) (v : value) : task value :=
  if nullish v
  then Throw (type_error ("Cannot read properties of undefined (reading '"
                          +:+ name +:+ "')"))
  else Throw (not_a_function receiver name).

(** The [i]th argument of a call. *)
Definition arg (i : nat) (args : list value) : value := default VUndefined (args !! i).

(** [const { a, b } = v]: destructuring [null] or [undefined] throws. *)
Definition destructure (v : value) : task value :=
  if nullish v
  then Throw (type_error "Cannot destructure property of undefined")
  else Ret v.

(** [v.k] where [v] may be [null] or [undefined] *)
Definition property (k : string) (v : value) : task value :=
  if nullish v
  then Throw (type_error ("Cannot read properties of undefined (reading '"
                          +:+ k +:+ "')"))
  else Ret (get k v).

(** [v] itself, once [v.k] has been read without a throw *)
Definition property_of (k : string) (v : value) : task value :=
  if nullish v
  then Throw (type_error ("Cannot read properties of undefined (reading '"
                          +:+ k +:+ "')"))
  else Ret v.

(** [l.find(x => x.key === v)]: the callback throws on an element that is
    [null] or [undefined], should [find] get that far. *)
Fixpoint find_by (key : string) (v : value) (l : list value) : task value :=
  match l with
  | [] => Ret VUndefined
  | x :: l =>
      if nullish x
      then Throw (type_error ("Cannot read properties of undefined (reading '"
                              +:+ key +:+ "')"))
      else if strict_eq (get key x) v then Ret x
      else find_by key v l
  end.

(** [l.filter(x => x.key === v)] *)
Fixpoint filter_by (key : string) (v : value) (l : list value) : task (list value) :=
  match l with
  | [] => Ret []
  | x :: l =>
      if nullish x
      then Throw (type_error ("Cannot read properties of undefined (reading '"
                              +:+ key +:+ "')"))
      else l' ← filter_by key v l;
           mret (if strict_eq (get key x) v then x :: l' else l')
  end.

(** [l.forEach(x => ...)] where the callback updates [b] and may throw *)
Fixpoint for_each {A B} (f : B → A → task B) (b : B) (l : list A) : task B :=
  match l with
  | [] => Ret b
  | x :: l => b ← f b x; for_each f b l
  end.

Lemma call_defined receiver table name args method :
  table name = Some method → call receiver table name args = method args.
Proof. unfold call. by intros ->. Qed.

Lemma call_undefined receiver table name args :
  table name = None →
  call receiver table name args = Throw (not_a_function receiver name).
Proof. unfold call. by intros ->. Qed.

Lemma run_property `{Runtime} k v w :
  nullish v = false → run (property k v) w = (Returned (get k v), w).
Proof. unfold property. by intros ->. Qed.

Lemma run_destructure `{Runtime} v w :
  nullish v = false → run (destructure v) w = (Returned v, w).
Proof. unfold destructure. by intros ->. Qed.

Lemma find_by_list_find key v l :
  Forall (λ x, nullish x = false) l →
  find_by key v l =
  Ret (from_option snd VUndefined (list_find (λ x, strict_eq (get key x) v) l)).
Proof.
  induction 1 as [|x l Hx _ IH]; [done|]. cbn [find_by list_find]. rewrite Hx.
  destruct (strict_eq (get key x) v) eqn:E.
  - done.
  - cbn. rewrite IH. by destruct (list_find _ l) as [[]|].
Qed.

End Http.
