(* ===== verification/DataService.v ===== *)
(** * The record store: [backend/src/services/dataService.js]

    One definition per method of the class [DataService], in the order of
    the source.  A collection is one JSON file; every mutation reads the
    whole file, changes the array in memory and writes the whole file back.
    [readData] answers the empty array when the file cannot be read and
    [writeData] answers [false] when it cannot be written: neither throws.

    The three groups of methods (users, uploads, detections) are the same
    code up to the file and the names.  [Repository] is that code once,
    over any file; [createUser_repo] and its like say that each method is
    the repository operation on its file, and the properties are proved
    once, on the repository.

    [store_ok f w] is the store's well-formedness: the file [f] is absent,
    unreadable, or holds an array.  Every operation preserves it. *)

From S2P Require Import Prelude Json Task.

Module DataService.
Import Js Task.

(** ** The constructor's paths *)

Definition dataDir : string := "data".
Definition usersFile : string := "data/users.json".
Definition uploadsFile : string := "data/uploads.json".
Definition detectionsFile : string := "data/detections.json".

(** A method called on the value a file parsed to: it exists when the value
    is an array, and the call is a [TypeError] otherwise. *)
Definition as_array (receiver method : string) (v : value) : task (list value) :=
  match v with
  | VArr l => Ret l
  | VUndefined | VNull =>
      Throw (type_error ("Cannot read properties of " +:+ receiver))
  | _ => Throw (type_error (receiver +:+ "." +:+ method +:+ " is not a function"))
  end.

(** [r.id === id], the callback of every [find], [findIndex] and [filter] by id *)
Definition has_id (id r : value) : bool := strict_eq (get "id" r) id.

(** [r.key === v] *)
Definition has_field (key : string) (v r : value) : bool := strict_eq (get key r) v.

(** ** initializeDataFiles *)

Definition initializeDataFiles : task unit :=
  try_catch
    (_ ← trigger (EnsureDir dataDir);
     e ← trigger (PathExists usersFile);
     _ ← (if negb e then trigger (WriteJson usersFile (VArr [])) else mret ());
     e ← trigger (PathExists uploadsFile);
     _ ← (if negb e then trigger (WriteJson uploadsFile (VArr [])) else mret ());
     e ← trigger (PathExists detectionsFile);
     if negb e then trigger (WriteJson detectionsFile (VArr [])) else mret ())
    (λ _, mret ()).

(** ** Generic CRUD operations *)

Definition readData (filename : string) : task value :=
  try_catch (trigger (ReadJson filename)) (λ _, mret (VArr [])).

Definition writeData (filename : string) (data : value) : task bool :=
  try_catch (_ ← trigger (WriteJson filename data); mret true) (λ _, mret false).

(** ** User operations *)

Definition getUsers : task value := readData usersFile.

Definition getUserById (id : value) : task value :=
  users ← getUsers;
  l ← as_array "users" "find" users;
  mret (from_option snd VUndefined (list_find (has_id id) l)).

Definition getUserByEmail (email : value) : task value :=
  users ← getUsers;
  l ← as_array "users" "find" users;
  mret (from_option snd VUndefined (list_find (has_field "email" email) l)).

Definition createUser (userData : value) : task value :=
  users ← getUsers;
  id ← trigger Uuid;
  createdAt ← trigger Now;
  updatedAt ← trigger Now;
  let newUser :=
    VObj (<["updatedAt" := VTime updatedAt]>
          (<["createdAt" := VTime createdAt]>
           (spread {["id" := VStr id]} (props userData)))) in
  l ← as_array "users" "push" users;
  _ ← writeData usersFile (VArr (l ++ [newUser]));
  mret newUser.

Definition updateUser (id updateData : value) : task value :=
  users ← getUsers;
  l ← as_array "users" "findIndex" users;
  match list_find (has_id id) l with
  | None => mret VNull
  | Some (userIndex, user) =>
      updatedAt ← trigger Now;
      let updated :=
        VObj (<["updatedAt" := VTime updatedAt]>
              (spread (props user) (props updateData))) in
      _ ← writeData usersFile (VArr (<[userIndex := updated]> l));
      mret updated
  end.

Definition deleteUser (id : value) : task bool :=
  users ← getUsers;
  l ← as_array "users" "filter" users;
  let filteredUsers := filter (λ user, negb (has_id id user)) l in
  _ ← writeData usersFile (VArr filteredUsers);
  mret (bool_decide (length filteredUsers < length l)).

(** ** Upload operations *)

Definition getUploads : task value := readData uploadsFile.

Definition getUploadById (id : value) : task value :=
  uploads ← getUploads;
  l ← as_array "uploads" "find" uploads;
  mret (from_option snd VUndefined (list_find (has_id id) l)).

Definition getUploadsByUserId (userId : value) : task value :=
  uploads ← getUploads;
  l ← as_array "uploads" "filter" uploads;
  mret (VArr (filter (λ upload, has_field "userId" userId upload) l)).

Definition createUpload (uploadData : value) : task value :=
  uploads ← getUploads;
  id ← trigger Uuid;
  createdAt ← trigger Now;
  updatedAt ← trigger Now;
  let newUpload :=
    VObj (<["updatedAt" := VTime updatedAt]>
          (<["createdAt" := VTime createdAt]>
           (spread {["id" := VStr id]} (props uploadData)))) in
  l ← as_array "uploads" "push" uploads;
  _ ← writeData uploadsFile (VArr (l ++ [newUpload]));
  mret newUpload.

Definition updateUpload (id updateData : value) : task value :=
  uploads ← getUploads;
  l ← as_array "uploads" "findIndex" uploads;
  match list_find (has_id id) l with
  | None => mret VNull
  | Some (uploadIndex, upload) =>
      updatedAt ← trigger Now;
      let updated :=
        VObj (<["updatedAt" := VTime updatedAt]>
              (spread (props upload) (props updateData))) in
      _ ← writeData uploadsFile (VArr (<[uploadIndex := updated]> l));
      mret updated
  end.

Definition deleteUpload (id : value) : task bool :=
  uploads ← getUploads;
  l ← as_array "uploads" "filter" uploads;
  let filteredUploads := filter (λ upload, negb (has_id id upload)) l in
  _ ← writeData uploadsFile (VArr filteredUploads);
  mret (bool_decide (length filteredUploads < length l)).

(** ** Detection operations *)

Definition getDetections : task value := readData detectionsFile.

Definition getDetectionById (id : value) : task value :=
  detections ← getDetections;
  l ← as_array "detections" "find" detections;
  mret (from_option snd VUndefined (list_find (has_id id) l)).

Definition getDetectionsByUserId (userId : value) : task value :=
  detections ← getDetections;
  l ← as_array "detections" "filter" detections;
  mret (VArr (filter (λ detection, has_field "userId" userId detection) l)).

Definition getDetectionsByUploadId (uploadId : value) : task value :=
  detections ← getDetections;
  l ← as_array "detections" "filter" detections;
  mret (VArr (filter (λ detection, has_field "uploadId" uploadId detection) l)).

Definition createDetection (detectionData : value) : task value :=
  detections ← getDetections;
  id ← trigger Uuid;
  createdAt ← trigger Now;
  updatedAt ← trigger Now;
  let newDetection :=
    VObj (<["updatedAt" := VTime updatedAt]>
          (<["createdAt" := VTime createdAt]>
           (spread {["id" := VStr id]} (props detectionData)))) in
  l ← as_array "detections" "push" detections;
  _ ← writeData detectionsFile (VArr (l ++ [newDetection]));
  mret newDetection.

Definition updateDetection (id updateData : value) : task value :=
  detections ← getDetections;
  l ← as_array "detections" "findIndex" detections;
  match list_find (has_id id) l with
  | None => mret VNull
  | Some (detectionIndex, detection) =>
      updatedAt ← trigger Now;
      let updated :=
        VObj (<["updatedAt" := VTime updatedAt]>
              (spread (props detection) (props updateData))) in
      _ ← writeData detectionsFile (VArr (<[detectionIndex := updated]> l));
      mret updated
  end.

Definition deleteDetection (id : value) : task bool :=
  detections ← getDetections;
  l ← as_array "detections" "filter" detections;
  let filteredDetections := filter (λ detection, negb (has_id id detection)) l in
  _ ← writeData detectionsFile (VArr filteredDetections);
  mret (bool_decide (length filteredDetections < length l)).

(** ** The repository: the code of the three groups, once

    [file] is the collection's file and [receiver] the name of the variable
    the array is bound to (it only shows in the message of a [TypeError]). *)

Section Repository.
Context (file receiver : string).

Definition repo_all : task value := readData file.

Definition repo_get (id : value) : task value :=
  records ← repo_all;
  l ← as_array receiver "find" records;
  mret (from_option snd VUndefined (list_find (has_id id) l)).

Definition repo_list (key : string) (v : value) : task value :=
  records ← repo_all;
  l ← as_array receiver "filter" records;
  mret (VArr (filter (λ r, has_field key v r) l)).

(** The record [create] builds: [{id, ...data, createdAt, updatedAt}]. *)
Definition new_record (id : string) (createdAt updatedAt : Z) (data : value) : value :=
  VObj (<["updatedAt" := VTime updatedAt]>
        (<["createdAt" := VTime createdAt]>
         (spread {["id" := VStr id]} (props data)))).

(** The record [update] builds: [{...old, ...data, updatedAt}]. *)
Definition merged_record (old data : value) (updatedAt : Z) : value :=
  VObj (<["updatedAt" := VTime updatedAt]> (spread (props old) (props data))).

Definition repo_create (data : value) : task value :=
  records ← repo_all;
  id ← trigger Uuid;
  createdAt ← trigger Now;
  updatedAt ← trigger Now;
  let new := new_record id createdAt updatedAt data in
  l ← as_array receiver "push" records;
  _ ← writeData file (VArr (l ++ [new]));
  mret new.

Definition repo_update (id data : value) : task value :=
  records ← repo_all;
  l ← as_array receiver "findIndex" records;
  match list_find (has_id id) l with
  | None => mret VNull
  | Some (i, old) =>
      updatedAt ← trigger Now;
      let updated := merged_record old data updatedAt in
      _ ← writeData file (VArr (<[i := updated]> l));
      mret updated
  end.

Definition repo_delete (id : value) : task bool :=
  records ← repo_all;
  l ← as_array receiver "filter" records;
  let kept := filter (λ r, negb (has_id id r)) l in
  _ ← writeData file (VArr kept);
  mret (bool_decide (length kept < length l)).

End Repository.

(** What [readData] answers for a file: its value, or the empty array when
    the file is absent or does not parse. *)
Definition contents (filename : string) (w : world) : value :=
  match files w !! filename with
  | Some (Json v) => v
  | _ => VArr []
  end.

(** The records of a collection. *)
Definition records (filename : string) (w : world) : list value :=
  elements (contents filename w).

(** Well-formedness of a collection: reading it gives an array. *)
Definition store_ok (filename : string) (w : world) : Prop :=
  is_array (contents filename w) = true.

#[export] Instance store_ok_dec filename w : Decision (store_ok filename w).
Proof. unfold store_ok. apply _. Defined.

(** The ids of a collection's records. *)
Definition ids (filename : string) (w : world) : list value :=
  get "id" <$> records filename w.

(** The record's id is a uuid the store has drawn. *)
Definition id_drawn `{Runtime} (w : world) (r : value) : Prop :=
  ∃ i, i < drawn w ∧ get "id" r = VStr (uuid_of i).

(** The invariant of a collection: it reads as an array, every record
    carries an id drawn by the store, and no two records share an id. *)
Definition store_inv `{Runtime} (filename : string) (w : world) : Prop :=
  store_ok filename w ∧
  Forall (id_drawn w) (records filename w) ∧
  NoDup (ids filename w).

(** ** The requests the store serves

    The three collections and the mutations of each, as the model classes
    issue them: the data of a [create] and of an [update] name the fields
    of the model and never [id]. *)

Inductive collection : Type := Users | Uploads | Detections.

Definition file_of (c : collection) : string :=
  match c with
  | Users => usersFile
  | Uploads => uploadsFile
  | Detections => detectionsFile
  end.

Inductive request : Type :=
| Create (c : collection) (data : value)
| Update (c : collection) (id data : value)
| Delete (c : collection) (id : value).

Definition serve (q : request) : task value :=
  match q with
  | Create Users data => createUser data
  | Create Uploads data => createUpload data
  | Create Detections data => createDetection data
  | Update Users id data => updateUser id data
  | Update Uploads id data => updateUpload id data
  | Update Detections id data => updateDetection id data
  | Delete Users id => VBool <$> deleteUser id
  | Delete Uploads id => VBool <$> deleteUpload id
  | Delete Detections id => VBool <$> deleteDetection id
  end.

(** The data of a request does not name [id]. *)
Definition keeps_id (q : request) : Prop :=
  match q with
  | Create _ data | Update _ _ data => props data !! "id" = None
  | Delete _ _ => True
  end.

(** The worlds the store reaches from [w0] by serving requests one after
    the other. *)
Inductive reaches `{Runtime} (w0 : world) : world → Prop :=
| reaches_refl : reaches w0 w0
| reaches_serve q w : reaches w0 w → keeps_id q → reaches w0 (run (serve q) w).2.

(** ** Each method is the repository operation on its file *)

Lemma getUserById_repo : getUserById = repo_get usersFile "users".
Proof. reflexivity. Qed.
Lemma getUserByEmail_repo email :
  getUserByEmail email =
  (rs ← repo_all usersFile; l ← as_array "users" "find" rs;
   mret (from_option snd VUndefined (list_find (has_field "email" email) l))).
Proof. reflexivity. Qed.
Lemma createUser_repo : createUser = repo_create usersFile "users".
Proof. reflexivity. Qed.
Lemma updateUser_repo : updateUser = repo_update usersFile "users".
Proof. reflexivity. Qed.
Lemma deleteUser_repo : deleteUser = repo_delete usersFile "users".
Proof. reflexivity. Qed.
Lemma getUploadById_repo : getUploadById = repo_get uploadsFile "uploads".
Proof. reflexivity. Qed.
Lemma getUploadsByUserId_repo :
  getUploadsByUserId = repo_list uploadsFile "uploads" "userId".
Proof. reflexivity. Qed.
Lemma createUpload_repo : createUpload = repo_create uploadsFile "uploads".
Proof. reflexivity. Qed.
Lemma updateUpload_repo : updateUpload = repo_update uploadsFile "uploads".
Proof. reflexivity. Qed.
Lemma deleteUpload_repo : deleteUpload = repo_delete uploadsFile "uploads".
Proof. reflexivity. Qed.
Lemma getDetectionById_repo : getDetectionById = repo_get detectionsFile "detections".
Proof. reflexivity. Qed.
Lemma getDetectionsByUserId_repo :
  getDetectionsByUserId = repo_list detectionsFile "detections" "userId".
Proof. reflexivity. Qed.
Lemma getDetectionsByUploadId_repo :
  getDetectionsByUploadId = repo_list detectionsFile "detections" "uploadId".
Proof. reflexivity. Qed.
Lemma createDetection_repo : createDetection = repo_create detectionsFile "detections".
Proof. reflexivity. Qed.
Lemma updateDetection_repo : updateDetection = repo_update detectionsFile "detections".
Proof. reflexivity. Qed.
Lemma deleteDetection_repo : deleteDetection = repo_delete detectionsFile "detections".
Proof. reflexivity. Qed.

(** ** [readData] and [writeData] never throw *)

Section io.
Context `{Runtime}.
Implicit Types (w : world) (f : string).

Lemma run_readData f w : run (readData f) w = (Returned (contents f w), w).
Proof.
  unfold readData, contents. simpl.
  by destruct (files w !! f) as [[]|].
Qed.

Lemma run_writeData f d w :
  run (writeData f d) w =
  if decide (f ∈ unwritable w) then (Returned false, w)
  else (Returned true, set_files <[f := Json (jsonify d)]> w).
Proof. unfold writeData. simpl. by destruct (decide (f ∈ unwritable w)). Qed.

Lemma run_as_array rcv m l w :
  run (as_array rcv m (VArr l)) w = (Returned l, w).
Proof. done. Qed.

Lemma contents_set_files_eq f v w :
  contents f (set_files <[f := Json v]> w) = v.
Proof. unfold contents. simpl. by rewrite lookup_insert_eq. Qed.

Lemma contents_set_files_ne f g v w :
  f ≠ g → contents g (set_files <[f := Json v]> w) = contents g w.
Proof. intros. unfold contents. simpl. by rewrite lookup_insert_ne. Qed.

Lemma store_ok_elements f w : store_ok f w → contents f w = VArr (records f w).
Proof. unfold store_ok, records. by destruct (contents f w). Qed.

Lemma clean_contents f w : clean w → is_json (contents f w).
Proof.
  intros Hw. unfold contents.
  destruct (files w !! f) as [[v|]|] eqn:Hf; [by eapply Hw|done..].
Qed.

Lemma clean_records f w : clean w → store_ok f w → Forall is_json (records f w).
Proof.
  intros Hw Hok. apply is_json_arr. rewrite <- store_ok_elements by done.
  by apply clean_contents.
Qed.

End io.

#[export] Hint Rewrite @run_readData @run_writeData @run_as_array
  @contents_set_files_eq : vo_rw.
#[export] Hint Rewrite @contents_set_files_ne using done : vo_rw.

(** ** The equations of the repository operations

    One equation per operation and branch: the value returned and the world
    left behind, for a collection that reads as an array. *)

Section repo_run.
Context `{Runtime} (file rcv : string).
Implicit Types (w : world) (id data : value).

(** The world after the uuid and the two timestamps of [create] are drawn. *)
Definition stamped (w : world) : world :=
  let t1 := (clock w + elapsed (ticks w))%Z in
  set_clock (t1 + elapsed (S (ticks w))) (set_clock t1 (set_drawn (S (drawn w)) w)).

(** The record [create] returns in world [w]. *)
Definition created (w : world) (data : value) : value :=
  let t1 := (clock w + elapsed (ticks w))%Z in
  new_record (uuid_of (drawn w)) t1 (t1 + elapsed (S (ticks w))) data.

(** Write [l] to [file], when it can be written. *)
Definition store (l : list value) (w : world) : world :=
  if decide (file ∈ unwritable w) then w
  else set_files <[file := Json (jsonify (VArr l))]> w.

Lemma run_repo_all w : run (repo_all file) w = (Returned (contents file w), w).
Proof. apply run_readData. Qed.

Lemma run_repo_get id w :
  store_ok file w →
  run (repo_get file rcv id) w =
  (Returned (from_option snd VUndefined (list_find (has_id id) (records file w))), w).
Proof.
  intros Hok%store_ok_elements. unfold repo_get, repo_all.
  run_simpl. rewrite Hok. by run_simpl.
Qed.

Lemma run_repo_list key v w :
  store_ok file w →
  run (repo_list file rcv key v) w =
  (Returned (VArr (filter (λ r, has_field key v r) (records file w))), w).
Proof.
  intros Hok%store_ok_elements. unfold repo_list, repo_all.
  run_simpl. rewrite Hok. by run_simpl.
Qed.

Lemma run_repo_create data w :
  store_ok file w →
  run (repo_create file rcv data) w =
  (Returned (created w data), store (records file w ++ [created w data]) (stamped w)).
Proof.
  intros Hok%store_ok_elements. unfold repo_create, repo_all, store, stamped.
  run_simpl. rewrite Hok. run_simpl. simpl unwritable.
  by destruct (decide (file ∈ unwritable w)).
Qed.

Lemma run_repo_update_missing id data w :
  store_ok file w →
  list_find (has_id id) (records file w) = None →
  run (repo_update file rcv id data) w = (Returned VNull, w).
Proof.
  intros Hok%store_ok_elements Hfind. unfold repo_update, repo_all.
  run_simpl. rewrite Hok. run_simpl. by rewrite Hfind.
Qed.

Lemma run_repo_update_found id data w i old :
  store_ok file w →
  list_find (has_id id) (records file w) = Some (i, old) →
  let t := (clock w + elapsed (ticks w))%Z in
  run (repo_update file rcv id data) w =
  (Returned (merged_record old data t),
   store (<[i := merged_record old data t]> (records file w)) (set_clock t w)).
Proof.
  intros Hok%store_ok_elements Hfind. unfold repo_update, repo_all, store.
  run_simpl. rewrite Hok. run_simpl. rewrite Hfind. run_simpl. simpl unwritable.
  by destruct (decide (file ∈ unwritable w)).
Qed.

Lemma run_repo_delete id w :
  store_ok file w →
  let kept := filter (λ r, negb (has_id id r)) (records file w) in
  run (repo_delete file rcv id) w =
  (Returned (bool_decide (length kept < length (records file w))), store kept w).
Proof.
  intros Hok%store_ok_elements. unfold repo_delete, repo_all, store.
  run_simpl. rewrite Hok. run_simpl.
  by destruct (decide (file ∈ unwritable w)).
Qed.

(** On a collection that is not an array every operation throws a
    [TypeError] and writes nothing. *)
Lemma run_as_array_not_array m v w :
  is_array v = false → ∃ e, run (as_array rcv m v) w = (Thrown e, w).
Proof. destruct v; simpl; intros; try done; by eexists. Qed.

End repo_run.

(** ** What the operations keep and change *)

Section repo_facts.
Context `{Runtime} (file rcv : string).
Implicit Types (w : world) (id data r : value) (l : list value).

Lemma records_store l w :
  file ∉ unwritable w → records file (store file l w) = jsonify <$> l.
Proof.
  intros. unfold store, records. rewrite decide_False by done.
  by rewrite contents_set_files_eq.
Qed.

Lemma records_store_unwritable l w :
  file ∈ unwritable w → records file (store file l w) = records file w.
Proof. intros. unfold store. by rewrite decide_True. Qed.

Lemma contents_store_other g l w :
  g ≠ file → contents g (store file l w) = contents g w.
Proof.
  intros. unfold store. case_decide; [done|].
  by rewrite contents_set_files_ne.
Qed.

Lemma records_store_other g l w :
  g ≠ file → records g (store file l w) = records g w.
Proof. intros. unfold records. by rewrite contents_store_other. Qed.

Lemma store_ok_store_other g l w :
  g ≠ file → store_ok g w → store_ok g (store file l w).
Proof. intros. unfold store_ok. by rewrite contents_store_other. Qed.

Lemma records_set_clock t w : records file (set_clock t w) = records file w.
Proof. done. Qed.

(** Appending to a collection that holds JSON. *)
Lemma records_store_append r w :
  clean w → store_ok file w → file ∉ unwritable w →
  records file (store file (records file w ++ [r]) (stamped w)) =
  records file w ++ [jsonify r].
Proof.
  intros Hc Hok Hw. rewrite records_store by done. rewrite fmap_app. f_equal.
  rewrite <- (list_fmap_id (records _ _)) at 2. apply Forall_fmap_ext_1.
  by apply clean_records.
Qed.

Lemma store_ok_store l w : store_ok file w → store_ok file (store file l w).
Proof.
  intros. unfold store, store_ok. case_decide; [done|].
  by rewrite contents_set_files_eq.
Qed.

Lemma clean_store l w : clean w → clean (store file l w).
Proof.
  intros Hw. unfold store. case_decide; [done|].
  intros f v. simpl. rewrite lookup_insert. case_decide; [|by apply Hw].
  intros [= <-]. apply (is_json_jsonify (VArr l)).
Qed.

Lemma contents_stamped g w : contents g (stamped w) = contents g w.
Proof. done. Qed.

Lemma unwritable_stamped w : unwritable (stamped w) = unwritable w.
Proof. done. Qed.

Lemma has_id_str s r : has_id (VStr s) r → get "id" r = VStr s.
Proof.
  unfold has_id. destruct (get "id" r); try done. simpl.
  by intros ->%Is_true_true%String.eqb_eq.
Qed.

Lemma has_id_get s r : get "id" r = VStr s → has_id (VStr s) r.
Proof. unfold has_id. intros ->. by rewrite strict_eq_str_refl. Qed.

(** Looking a record up by a string id sees through serialisation. *)
Lemma has_id_jsonify s r : has_id (VStr s) (jsonify r) = has_id (VStr s) r.
Proof. apply strict_eq_get_jsonify. Qed.

Lemma list_find_has_id_jsonify s l :
  list_find (has_id (VStr s)) (jsonify <$> l) =
  prod_map id jsonify <$> list_find (has_id (VStr s)) l.
Proof.
  rewrite list_find_fmap. f_equal. apply list_find_ext. intros r. simpl.
  by rewrite has_id_jsonify.
Qed.

Lemma filter_has_id_jsonify s l :
  filter (λ r, negb (has_id (VStr s) r)) (jsonify <$> l) =
  jsonify <$> filter (λ r, negb (has_id (VStr s) r)) l.
Proof.
  induction l as [|r l IH]; [done|]. rewrite fmap_cons, !filter_cons.
  rewrite has_id_jsonify, IH. by case_decide.
Qed.

(** The id of a created record is the uuid drawn, unless the data brings
    an [id] of its own: [{id: uuidv4(), ...data}]. *)
Lemma get_id_created w data :
  get "id" (created w data) = default (VStr (uuid_of (drawn w))) (props data !! "id").
Proof.
  unfold created, new_record, get, spread. simpl.
  rewrite !lookup_insert_ne by done. rewrite lookup_union.
  rewrite lookup_singleton_eq. by destruct (props data !! "id").
Qed.

Lemma get_id_created_fresh w data :
  props data !! "id" = None → get "id" (created w data) = VStr (uuid_of (drawn w)).
Proof. intros Hid. by rewrite get_id_created, Hid. Qed.

Lemma get_createdAt_created w data :
  get "createdAt" (created w data) = VTime (clock w + elapsed (ticks w)).
Proof.
  unfold created, new_record, get. simpl.
  rewrite lookup_insert_ne by done. by rewrite lookup_insert_eq.
Qed.

Lemma get_updatedAt_created w data :
  get "updatedAt" (created w data) =
  VTime (clock w + elapsed (ticks w) + elapsed (S (ticks w))).
Proof. unfold created, new_record, get. simpl. by rewrite lookup_insert_eq. Qed.

(** A property of the data other than the three the store assigns is the
    property of the record. *)
Lemma get_created_other k w data :
  k ≠ "id" → k ≠ "createdAt" → k ≠ "updatedAt" →
  get k (created w data) = get k data.
Proof.
  intros. unfold created, new_record, get, spread. simpl.
  rewrite !lookup_insert_ne by done. rewrite lookup_union.
  rewrite lookup_singleton_ne by done. by destruct (props data !! k).
Qed.

Lemma is_json_created w data : is_json data → is_json (created w data).
Proof.
  intros Hd. unfold created, new_record.
  repeat apply is_json_insert; try done.
  apply is_json_spread; [|by apply is_json_props].
  by apply is_json_insert.
Qed.

(** In a merged record the patch wins, and [updatedAt] is the time of the
    update. *)
Lemma get_merged_patch k old data t x :
  k ≠ "updatedAt" → props data !! k = Some x → get k (merged_record old data t) = x.
Proof.
  intros ? Hk. unfold merged_record, get, spread. simpl.
  rewrite lookup_insert_ne by done. by rewrite (lookup_union_Some_l _ _ _ x).
Qed.

Lemma get_merged_old k old data t :
  k ≠ "updatedAt" → props data !! k = None →
  get k (merged_record old data t) = get k old.
Proof.
  intros ? Hk. unfold merged_record, get, spread. simpl.
  rewrite lookup_insert_ne by done. by rewrite lookup_union_r.
Qed.

Lemma has_id_merged s old data t :
  get "id" old = VStr s → props data !! "id" = None →
  has_id (VStr s) (merged_record old data t) = true.
Proof.
  intros Hid Hd. unfold has_id. rewrite get_merged_old by done. rewrite Hid.
  apply strict_eq_str_refl.
Qed.

Lemma get_updatedAt_merged old data t :
  get "updatedAt" (merged_record old data t) = VTime t.
Proof. unfold merged_record, get. simpl. by rewrite lookup_insert_eq. Qed.

Lemma unwritable_store l w : unwritable (store file l w) = unwritable w.
Proof. unfold store. by case_decide. Qed.

Lemma has_field_undefined k v r :
  truthy v = true → get k r = VUndefined → has_field k v r = false.
Proof. unfold has_field. intros Hv ->. by destruct v. Qed.

Lemma has_field_jsonify k s r :
  has_field k (VStr s) (jsonify r) = has_field k (VStr s) r.
Proof. apply strict_eq_get_jsonify. Qed.

Lemma filter_has_field_jsonify k s l :
  filter (λ r, has_field k (VStr s) r) (jsonify <$> l) =
  jsonify <$> filter (λ r, has_field k (VStr s) r) l.
Proof.
  induction l as [|r l IH]; [done|]. rewrite fmap_cons, !filter_cons.
  rewrite has_field_jsonify, IH. by case_decide.
Qed.

Lemma has_field_created k v w data :
  k ≠ "id" → k ≠ "createdAt" → k ≠ "updatedAt" →
  has_field k v (created w data) = has_field k v data.
Proof. intros. unfold has_field. by rewrite get_created_other. Qed.

(** The collection after [create], when the file can be written. *)
Lemma records_after_create data w :
  store_ok file w → file ∉ unwritable w →
  records file (run (repo_create file rcv data) w).2 =
  jsonify <$> (records file w ++ [created w data]).
Proof. intros. rewrite run_repo_create by done. by apply records_store. Qed.

Lemma store_ok_after_create data w :
  store_ok file w → store_ok file (run (repo_create file rcv data) w).2.
Proof. intros. rewrite run_repo_create by done. by apply store_ok_store. Qed.

Lemma unwritable_after_create data w :
  unwritable (run (repo_create file rcv data) w).2 = unwritable w.
Proof. apply run_unwritable. Qed.

(** *** The invariant *)

Lemma id_drawn_mono w w' r : drawn w ≤ drawn w' → id_drawn w r → id_drawn w' r.
Proof. intros ? (i & ? & ?). exists i. split; [lia|done]. Qed.

Lemma id_drawn_jsonify w r : id_drawn w r → id_drawn w (jsonify r).
Proof. intros (i & ? & Hid). exists i. split; [done|]. by apply get_jsonify_str. Qed.

Lemma ids_jsonify w l :
  Forall (id_drawn w) l → get "id" <$> (jsonify <$> l) = get "id" <$> l.
Proof.
  intros Hl. rewrite <- list_fmap_compose. apply Forall_fmap_ext_1.
  eapply Forall_impl; [done|]. intros r (i & _ & Hid). simpl.
  rewrite Hid. by apply get_jsonify_str.
Qed.

(** A drawn id is not the next uuid. *)
Lemma id_drawn_fresh w r : id_drawn w r → get "id" r ≠ VStr (uuid_of (drawn w)).
Proof. intros (i & Hi & ->) [= ?%(inj uuid_of)]. lia. Qed.

Lemma id_drawn_not_has_id w r :
  id_drawn w r → has_id (VStr (uuid_of (drawn w))) r = false.
Proof.
  intros (i & Hi & Hid). unfold has_id. rewrite Hid.
  apply strict_eq_str_ne. intros ?%(inj uuid_of). lia.
Qed.

(** Writing records that satisfy the invariant gives a collection that
    satisfies it. *)
Lemma store_inv_store l w w' :
  store_inv file w → drawn w ≤ drawn w' →
  unwritable w' = unwritable w → contents file w' = contents file w →
  Forall (id_drawn w') l → NoDup (get "id" <$> l) →
  store_inv file (store file l w').
Proof.
  intros (Hok & Hdr & Hnd) Hle Hunw Hcont Hl Hndl.
  split; [|split].
  - apply store_ok_store. unfold store_ok. by rewrite Hcont.
  - unfold store. case_decide.
    + unfold records. rewrite Hcont.
      eapply Forall_impl; [done|]. intros r. by apply id_drawn_mono.
    + unfold records. rewrite contents_set_files_eq. simpl.
      apply Forall_fmap. eapply Forall_impl; [done|].
      intros r Hr. by apply id_drawn_jsonify.
  - unfold ids, store. case_decide.
    + unfold records. by rewrite Hcont.
    + unfold records. rewrite contents_set_files_eq. simpl.
      by rewrite (ids_jsonify w').
Qed.

Lemma repo_create_inv data w :
  props data !! "id" = None →
  store_inv file w → store_inv file (run (repo_create file rcv data) w).2.
Proof.
  intros Hid Hinv. pose proof Hinv as (Hok & Hdr & Hnd).
  rewrite run_repo_create by done. simpl.
  apply (store_inv_store _ w); [done|simpl; lia|done..| |].
  - apply Forall_app. split.
    + eapply Forall_impl; [done|]. intros r. apply id_drawn_mono. simpl. lia.
    + apply Forall_singleton. exists (drawn w). split; [simpl; lia|].
      by apply get_id_created_fresh.
  - rewrite fmap_app. simpl. rewrite get_id_created_fresh by done.
    apply NoDup_app. split; [done|]. split; [|apply NoDup_singleton].
    intros x Hx ->%list_elem_of_singleton.
    apply list_elem_of_fmap in Hx as (r & Hr & Hin).
    rewrite Forall_forall in Hdr. by apply (id_drawn_fresh w r (Hdr r Hin)).
Qed.

Lemma repo_update_inv id data w :
  props data !! "id" = None →
  store_inv file w → store_inv file (run (repo_update file rcv id data) w).2.
Proof.
  intros Hid Hinv. pose proof Hinv as (Hok & Hdr & Hnd).
  destruct (list_find (has_id id) (records file w)) as [[i old]|] eqn:Hfind.
  - rewrite (run_repo_update_found _ _ _ _ _ i old) by done. simpl.
    assert (get "id" (merged_record old data (clock w + elapsed (ticks w))) = get "id" old)
      as Hmid by by apply get_merged_old.
    apply list_find_lookup in Hfind as Hi.
    apply (store_inv_store _ w); [done|simpl; lia|done..| |].
    + apply Forall_insert; [done|].
      rewrite Forall_lookup in Hdr. destruct (Hdr i old Hi) as (j & ? & ?).
      exists j. split; [done|]. by rewrite Hmid.
    + rewrite list_fmap_insert, Hmid. rewrite list_insert_id; [done|].
      by rewrite list_lookup_fmap, Hi.
  - by rewrite run_repo_update_missing.
Qed.

Lemma repo_delete_inv id w :
  store_inv file w → store_inv file (run (repo_delete file rcv id) w).2.
Proof.
  intros Hinv. pose proof Hinv as (Hok & Hdr & Hnd).
  rewrite run_repo_delete by done. simpl.
  apply (store_inv_store _ w); [done..| |].
  - by apply Forall_filter_keep.
  - eapply sublist_NoDup; [done|]. apply fmap_sublist, sublist_filter.
Qed.

(** An operation on one collection leaves the others as they are. *)
Lemma store_inv_frame g w w' :
  store_inv g w → contents g w' = contents g w → drawn w ≤ drawn w' →
  store_inv g w'.
Proof.
  intros (Hok & Hdr & Hnd) Hcont Hle.
  unfold store_inv, store_ok, ids, records. rewrite Hcont.
  split; [done|]. split; [|done].
  eapply Forall_impl; [done|]. intros r. by apply id_drawn_mono.
Qed.

Lemma drawn_store l w : drawn (store file l w) = drawn w.
Proof. unfold store. by case_decide. Qed.

Lemma clock_store l w : clock (store file l w) = clock w.
Proof. unfold store. by case_decide. Qed.

(** Each mutation of [file] keeps the invariant of every collection [g]. *)
Lemma repo_create_pres g data w :
  props data !! "id" = None → store_inv file w → store_inv g w →
  store_inv g (run (repo_create file rcv data) w).2.
Proof.
  intros Hid Hf Hg. destruct (decide (g = file)) as [->|Hne].
  - by apply repo_create_inv.
  - rewrite run_repo_create by apply Hf. cbn [snd].
    apply (store_inv_frame g w); [done|by rewrite contents_store_other|].
    rewrite drawn_store. simpl. lia.
Qed.

Lemma repo_update_pres g id data w :
  props data !! "id" = None → store_inv file w → store_inv g w →
  store_inv g (run (repo_update file rcv id data) w).2.
Proof.
  intros Hid Hf Hg. destruct (decide (g = file)) as [->|Hne].
  - by apply repo_update_inv.
  - destruct (list_find (has_id id) (records file w)) as [[i old]|] eqn:Hfind.
    + rewrite (run_repo_update_found _ _ _ _ _ i old) by (done || apply Hf).
      cbn [snd]. apply (store_inv_frame g w); [done|by rewrite contents_store_other|].
      by rewrite drawn_store.
    + by rewrite run_repo_update_missing by (done || apply Hf).
Qed.

Lemma repo_delete_pres g id w :
  store_inv file w → store_inv g w →
  store_inv g (run (repo_delete file rcv id) w).2.
Proof.
  intros Hf Hg. destruct (decide (g = file)) as [->|Hne].
  - by apply repo_delete_inv.
  - rewrite run_repo_delete by apply Hf. cbn [snd].
    apply (store_inv_frame g w); [done|by rewrite contents_store_other|].
    by rewrite drawn_store.
Qed.

(** *** Create, then get *)

Lemma list_find_fresh w l :
  Forall (id_drawn w) l → list_find (has_id (VStr (uuid_of (drawn w)))) l = None.
Proof.
  intros Hl. apply list_find_None. eapply Forall_impl; [done|].
  intros r Hr. rewrite (id_drawn_not_has_id w r Hr). by intros [].
Qed.

Lemma repo_create_get data w :
  store_inv file w → file ∉ unwritable w → props data !! "id" = None →
  let w' := (run (repo_create file rcv data) w).2 in
  run (repo_get file rcv (get "id" (created w data))) w' =
  (Returned (jsonify (created w data)), w').
Proof.
  intros (Hok & Hdr & Hnd) Hw Hid. rewrite run_repo_create by done. cbn [snd].
  rewrite run_repo_get by by apply store_ok_store.
  rewrite records_store by done. rewrite get_id_created_fresh by done.
  rewrite list_find_has_id_jsonify.
  rewrite (list_find_snoc_None _ _ _ (list_find_fresh w _ Hdr)); [done|].
  unfold has_id. rewrite get_id_created_fresh by done.
  by rewrite strict_eq_str_refl.
Qed.

(** *** Get after update, get after delete *)

Lemma repo_delete_get s w :
  store_ok file w → file ∉ unwritable w →
  let w' := (run (repo_delete file rcv (VStr s)) w).2 in
  run (repo_get file rcv (VStr s)) w' = (Returned VUndefined, w').
Proof.
  intros Hok Hw. rewrite run_repo_delete by done. cbn [snd].
  rewrite run_repo_get by by apply store_ok_store.
  rewrite records_store by done. rewrite list_find_has_id_jsonify.
  replace (list_find _ _) with (@None (nat * value)); [done|].
  symmetry. apply list_find_None, Forall_forall.
  intros r [Hr _]%list_elem_of_filter. by apply negb_True.
Qed.

(** [delete] answers [true] exactly when a record had the id. *)
Lemma repo_delete_result id w :
  store_ok file w →
  (run (repo_delete file rcv id) w).1 =
  Returned (bool_decide (Exists (λ r, has_id id r) (records file w))).
Proof.
  intros Hok. rewrite run_repo_delete by done. simpl. f_equal.
  apply bool_decide_ext. rewrite filter_length_lt, !Exists_exists.
  apply exist_proper. intros r. rewrite negb_True.
  destruct (has_id id r); simpl; tauto.
Qed.

End repo_facts.

Lemma store_inv_empty `{Runtime} f : store_inv f empty_world.
Proof. split; [done|]. split; [apply Forall_nil_2|apply NoDup_nil_2]. Qed.

(** ** Initialisation *)

(** Create [f] as the empty collection when it is absent. *)
Definition ensure (f : string) (fs : gmap string file) : gmap string file :=
  if fs !! f is Some _ then fs else <[f := Json (VArr [])]> fs.

Section init.
Context `{Runtime}.

Lemma lookup_ensure f g (fs : gmap string file) :
  ensure f fs !! g =
  if decide (f = g) then Some (default (Json (VArr [])) (fs !! f)) else fs !! g.
Proof.
  unfold ensure. destruct (fs !! f) as [x|] eqn:Hf; case_decide; subst;
    by rewrite ?lookup_insert_eq, ?lookup_insert_ne.
Qed.

Lemma ensure_present f (fs : gmap string file) : is_Some (fs !! f) → ensure f fs = fs.
Proof. intros [x Hx]. unfold ensure. by rewrite Hx. Qed.

Lemma run_ensure f w :
  f ∉ unwritable w →
  run (e ← trigger (PathExists f);
       if negb e then trigger (WriteJson f (VArr [])) else mret ()) w =
  (Returned (), set_files (ensure f) w).
Proof.
  intros Hw. run_simpl. unfold ensure, set_files.
  destruct (files w !! f) as [x|] eqn:Hf; simpl.
  - by destruct w.
  - run_simpl. by rewrite decide_False.
Qed.

Lemma run_initializeDataFiles w :
  (∀ c, file_of c ∉ unwritable w) →
  run initializeDataFiles w =
  (Returned (), set_files (ensure detectionsFile ∘ ensure uploadsFile ∘ ensure usersFile) w).
Proof.
  intros Hw. pose proof (Hw Users). pose proof (Hw Uploads). pose proof (Hw Detections).
  unfold initializeDataFiles, set_files, ensure, compose. simpl in *. run_simpl.
  destruct (files w !! usersFile) as [x1|] eqn:E1; simpl; run_simpl;
    rewrite ?decide_False by done; simpl; rewrite ?lookup_insert_ne by done;
    (destruct (files w !! uploadsFile) as [x2|] eqn:E2; simpl; run_simpl;
     rewrite ?decide_False by done; simpl; rewrite ?lookup_insert_ne by done);
    (destruct (files w !! detectionsFile) as [x3|] eqn:E3; simpl; run_simpl;
     rewrite ?decide_False by done; simpl);
    by destruct w.
Qed.

(** Initialisation.  When the three files can be written,
    [initializeDataFiles] returns normally, creates each missing collection
    as the empty array, keeps every existing file as it is (readable or
    not), touches no other path, and running it again changes nothing. *)
Theorem initializeDataFiles_idempotent w :
  (∀ c, file_of c ∉ unwritable w) →
  ∃ w1, run initializeDataFiles w = (Returned (), w1) ∧
        (∀ c, files w1 !! file_of c =
              Some (default (Json (VArr [])) (files w !! file_of c))) ∧
        (∀ f, (∀ c, f ≠ file_of c) → files w1 !! f = files w !! f) ∧
        run initializeDataFiles w1 = (Returned (), w1).
Proof.
  intros Hw. eexists. split; [by apply run_initializeDataFiles|].
  assert (∀ c, files (set_files (ensure detectionsFile ∘ ensure uploadsFile ∘
                                 ensure usersFile) w) !! file_of c =
               Some (default (Json (VArr [])) (files w !! file_of c))) as Hfiles.
  { intros c. simpl. rewrite !lookup_ensure.
    destruct c; simpl; repeat case_decide; try done;
      by destruct (files w !! _). }
  split; [done|]. split.
  - intros f Hf. simpl. rewrite !lookup_ensure.
    pose proof (Hf Users). pose proof (Hf Uploads). pose proof (Hf Detections).
    by rewrite !decide_False.
  - rewrite run_initializeDataFiles by done. f_equal.
    pose proof (Hfiles Users) as Hu. pose proof (Hfiles Uploads) as Hp.
    pose proof (Hfiles Detections) as Hd.
    set (w1 := set_files _ w) in *. apply set_files_id. simpl.
    rewrite (ensure_present usersFile) by eauto.
    rewrite (ensure_present uploadsFile) by eauto.
    by rewrite (ensure_present detectionsFile) by eauto.
Qed.

(** Initialisation never throws, whatever the file system does. *)
Lemma initializeDataFiles_returns w : (run initializeDataFiles w).1 = Returned ().
Proof.
  unfold initializeDataFiles. rewrite run_try_catch.
  destruct (run _ w) as [[[]|e] w']; done.
Qed.

End init.

(** ** Properties of the detection collection

    The claims below are stated on the methods of the detection collection,
    the one the job lifecycle runs on; each is the repository lemma above at
    [detectionsFile]. *)

(** A draft as the analyse handler builds it, and the world after it is
    created in an empty store: the inputs of the examples. *)
Definition sample_draft : value :=
  VObj {[ "userId" := VStr "user-1"; "uploadId" := VStr "upload-1";
          "status" := VStr "pending" ]}.

Definition sample_world : world := (run (createDetection sample_draft) empty_world).2.

Section properties.
Context `{Runtime}.
Implicit Types (w : world) (id data r : value).

Lemma run_createDetection data w :
  store_ok detectionsFile w →
  run (createDetection data) w =
  (Returned (created w data),
   store detectionsFile (records detectionsFile w ++ [created w data]) (stamped w)).
Proof. apply run_repo_create. Qed.

Lemma run_getDetectionById id w :
  store_ok detectionsFile w →
  run (getDetectionById id) w =
  (Returned (from_option snd VUndefined
               (list_find (has_id id) (records detectionsFile w))), w).
Proof. apply run_repo_get. Qed.

Lemma run_getDetectionsByUploadId v w :
  store_ok detectionsFile w →
  run (getDetectionsByUploadId v) w =
  (Returned (VArr (filter (λ r, has_field "uploadId" v r)
                     (records detectionsFile w))), w).
Proof. apply run_repo_list. Qed.

Lemma run_updateDetection_found id data w i old :
  store_ok detectionsFile w →
  list_find (has_id id) (records detectionsFile w) = Some (i, old) →
  let t := (clock w + elapsed (ticks w))%Z in
  run (updateDetection id data) w =
  (Returned (merged_record old data t),
   store detectionsFile (<[i := merged_record old data t]> (records detectionsFile w))
     (set_clock t w)).
Proof. apply run_repo_update_found. Qed.

Lemma run_updateDetection_missing id data w :
  store_ok detectionsFile w →
  list_find (has_id id) (records detectionsFile w) = None →
  run (updateDetection id data) w = (Returned VNull, w).
Proof. apply run_repo_update_missing. Qed.

Lemma run_deleteDetection id w :
  store_ok detectionsFile w →
  let kept := filter (λ r, negb (has_id id r)) (records detectionsFile w) in
  run (deleteDetection id) w =
  (Returned (bool_decide (length kept < length (records detectionsFile w))),
   store detectionsFile kept w).
Proof. apply run_repo_delete. Qed.

(** C1: round trip.  In a store that satisfies its invariant and can be
    written, [createDetection] of a JSON draft that names no [id] returns the
    draft with the uuid drawn and the two timestamps, and [getDetectionById]
    of that id then returns this very record. *)
Theorem createDetection_get_roundtrip data w :
  store_inv detectionsFile w → detectionsFile ∉ unwritable w →
  props data !! "id" = None → is_json data →
  ∃ w', run (createDetection data) w = (Returned (created w data), w') ∧
        get "id" (created w data) = VStr (uuid_of (drawn w)) ∧
        run (getDetectionById (VStr (uuid_of (drawn w)))) w' =
        (Returned (created w data), w').
Proof.
  intros Hinv Hw Hid Hjson. eexists. split; [|split].
  - apply run_createDetection, Hinv.
  - by apply get_id_created_fresh.
  - pose proof (repo_create_get detectionsFile "detections" data w Hinv Hw Hid) as Hget.
    rewrite get_id_created_fresh, (is_json_created w data Hjson) in Hget by done.
    rewrite run_repo_create in Hget by apply Hinv. apply Hget.
Qed.

(** [createDetection] appends.  In a clean world, the collection after
    [createDetection] is the collection before followed by the new record
    (as serialised), and the user and upload collections are untouched. *)
Theorem createDetection_appends data w :
  clean w → store_ok detectionsFile w → detectionsFile ∉ unwritable w →
  let w' := (run (createDetection data) w).2 in
  records detectionsFile w' = records detectionsFile w ++ [jsonify (created w data)] ∧
  contents usersFile w' = contents usersFile w ∧
  contents uploadsFile w' = contents uploadsFile w.
Proof.
  intros Hc Hok Hw. rewrite run_createDetection by done.
  cbn [snd]. by rewrite records_store_append, !contents_store_other.
Qed.

(** C21: the store does not keep one detection per upload.  Two
    [createDetection] calls with the same [uploadId] both return a record,
    and [getDetectionsByUploadId] then answers two records: the
    at-most-one-detection-per-upload rule is not enforced by the store. *)
Theorem createDetection_twice_same_upload data u w :
  store_ok detectionsFile w → detectionsFile ∉ unwritable w →
  get "uploadId" data = VStr u →
  let w2 := (run (createDetection data ≫= λ _, createDetection data) w).2 in
  ∃ l, run (getDetectionsByUploadId (VStr u)) w2 = (Returned (VArr l), w2) ∧
       length l = 2 + length (filter (λ r, has_field "uploadId" (VStr u) r)
                                (records detectionsFile w)).
Proof.
  intros Hok Hw Hu. rewrite run_bind. rewrite createDetection_repo.
  pose proof (store_ok_after_create detectionsFile "detections" data w Hok) as Hok1.
  pose proof (records_after_create detectionsFile "detections" data w Hok Hw) as Hr1.
  pose proof (unwritable_after_create detectionsFile "detections" data w) as Hw1.
  destruct (run (repo_create _ _ data) w) as [[d1|e] w1] eqn:Hrun;
    [|by rewrite run_repo_create in Hrun].
  cbn [snd] in *. rewrite <- Hw1 in Hw.
  pose proof (store_ok_after_create detectionsFile "detections" data w1 Hok1) as Hok2.
  pose proof (records_after_create detectionsFile "detections" data w1 Hok1 Hw) as Hr2.
  eexists. split; [by apply run_getDetectionsByUploadId|].
  assert (∀ w0, has_field "uploadId" (VStr u) (created w0 data) = true) as Hc.
  { intros w0. rewrite has_field_created by done. unfold has_field.
    by rewrite Hu, strict_eq_str_refl. }
  rewrite Hr2, Hr1, !filter_has_field_jsonify, !length_fmap.
  rewrite !filter_app, !length_app, filter_has_field_jsonify, length_fmap, filter_app.
  rewrite !filter_cons, !decide_True by (rewrite ?Hc; done). rewrite length_app. simpl. lia.
Qed.

(** C4: the invariant of the store.  From a world in which each of the
    three collections reads as an array of records with distinct ids drawn
    by the store, serving any sequence of create, update and delete requests
    whose data do not name [id] leads to a world in which each collection
    again does. *)
Theorem store_inv_reachable w0 w c :
  (∀ c, store_inv (file_of c) w0) → reaches w0 w → store_inv (file_of c) w.
Proof.
  intros H0 Hr. revert c. induction Hr as [|q w Hr IH Hq]; [done|]. intros c.
  pose proof (IH c) as Hg.
  destruct q as [c0 data|c0 id data|c0 id]; pose proof (IH c0) as Hf;
    destruct c0; cbn [serve keeps_id file_of] in Hf, Hq |- *.
  1: rewrite createUser_repo. 2: rewrite createUpload_repo.
  3: rewrite createDetection_repo. 4: rewrite updateUser_repo.
  5: rewrite updateUpload_repo. 6: rewrite updateDetection_repo.
  7: rewrite deleteUser_repo. 8: rewrite deleteUpload_repo.
  9: rewrite deleteDetection_repo.
  all: rewrite ?run_fmap_snd;
    first [ by apply repo_create_pres | by apply repo_update_pres
          | by apply repo_delete_pres ].
Qed.

(** C22: an update merges.  When the first record with the id is [old], at
    index [i], [updateDetection] returns [{...old, ...data, updatedAt}] with
    the time of the call, writes it at index [i] and leaves every other
    record where it was. *)
Theorem updateDetection_merges s data w i old :
  clean w → store_ok detectionsFile w → detectionsFile ∉ unwritable w →
  list_find (has_id (VStr s)) (records detectionsFile w) = Some (i, old) →
  let t := (clock w + elapsed (ticks w))%Z in
  let r := merged_record old data t in
  ∃ w', run (updateDetection (VStr s) data) w = (Returned r, w') ∧
        records detectionsFile w' = <[i := jsonify r]> (records detectionsFile w) ∧
        get "updatedAt" r = VTime t ∧
        (∀ k x, k ≠ "updatedAt" → props data !! k = Some x → get k r = x) ∧
        (∀ k, k ≠ "updatedAt" → props data !! k = None → get k r = get k old).
Proof.
  intros Hc Hok Hw Hfind t r. eexists. split; [by apply run_updateDetection_found|].
  split; [|split; [apply get_updatedAt_merged|split]].
  - rewrite records_store by done. rewrite list_fmap_insert. f_equal.
    rewrite <- (list_fmap_id (records _ _)) at 2. apply Forall_fmap_ext_1.
    by apply clean_records.
  - intros. by apply get_merged_patch.
  - intros. by apply get_merged_old.
Qed.

(** An update of an unknown id changes nothing.  When no record has
    the id, [updateDetection] returns [null] and the world is as before. *)
Theorem updateDetection_missing id data w :
  store_ok detectionsFile w →
  Forall (λ r, has_id id r = false) (records detectionsFile w) →
  run (updateDetection id data) w = (Returned VNull, w).
Proof.
  intros Hok Hno. apply run_updateDetection_missing; [done|].
  apply list_find_None. eapply Forall_impl; [done|]. by intros r -> ?.
Qed.

(** A delete removes.  [deleteDetection] keeps exactly the records
    whose id differs, in their order, answers [true] exactly when some
    record had the id, and [getDetectionById] of the id then answers
    [undefined]. *)
Theorem deleteDetection_removes s w :
  clean w → store_ok detectionsFile w → detectionsFile ∉ unwritable w →
  ∃ w', run (deleteDetection (VStr s)) w =
          (Returned (bool_decide (Exists (λ r, has_id (VStr s) r)
                                    (records detectionsFile w))), w') ∧
        records detectionsFile w' =
          filter (λ r, negb (has_id (VStr s) r)) (records detectionsFile w) ∧
        run (getDetectionById (VStr s)) w' = (Returned VUndefined, w').
Proof.
  intros Hc Hok Hw.
  pose proof (repo_delete_result detectionsFile "detections" (VStr s) w Hok) as Hres.
  pose proof (repo_delete_get detectionsFile "detections" s w Hok Hw) as Hget.
  rewrite <- deleteDetection_repo, <- getDetectionById_repo in *.
  rewrite run_deleteDetection in * by done. cbn [fst snd] in *.
  eexists. split; [by rewrite Hres|]. split; [|done].
  rewrite records_store by done.
  rewrite <- (list_fmap_id (filter _ _)) at 2. apply Forall_fmap_ext_1.
  by apply Forall_filter_keep, clean_records.
Qed.

(** C29: an unreadable collection is replaced.  When the users file does
    not parse, [createUser] does not fail: it returns the new record and
    overwrites the file with a collection that holds this record alone. *)
Theorem createUser_overwrites_corrupt data w :
  files w !! usersFile = Some Corrupt → usersFile ∉ unwritable w →
  ∃ w', run (createUser data) w = (Returned (created w data), w') ∧
        files w' !! usersFile = Some (Json (VArr [jsonify (created w data)])).
Proof.
  intros Hf Hw. assert (contents usersFile w = VArr []) as Hcont
    by (unfold contents; by rewrite Hf).
  eexists. split.
  - rewrite createUser_repo. apply run_repo_create. unfold store_ok. by rewrite Hcont.
  - unfold store, records. rewrite Hcont, decide_False by done.
    simpl. by rewrite lookup_insert_eq.
Qed.

(** C30: a failed write goes unnoticed.  When the detections file cannot be
    written, [createDetection] still returns the new record, and no file
    has changed. *)
Theorem createDetection_unwritable_silent data w :
  store_ok detectionsFile w → detectionsFile ∈ unwritable w →
  ∃ w', run (createDetection data) w = (Returned (created w data), w') ∧
        files w' = files w.
Proof.
  intros Hok Hw. eexists. split; [by apply run_createDetection|].
  unfold store. by rewrite decide_True.
Qed.

End properties.

(** ** The properties at concrete inputs *)

(** The world of the examples, with the users file unreadable. *)
Definition corrupt_world : world := set_files <[usersFile := Corrupt]> empty_world.

(** The world of the examples, with the detections file read-only. *)
Definition readonly_world : world :=
  World (files sample_world) {[detectionsFile]} 10 0 1 [].

Lemma initializeDataFiles_idempotent_witness :
  ∃ w1, run initializeDataFiles corrupt_world = (Returned (), w1) ∧
        (∀ c, files w1 !! file_of c =
              Some (default (Json (VArr [])) (files corrupt_world !! file_of c))) ∧
        (∀ f, (∀ c, f ≠ file_of c) → files w1 !! f = files corrupt_world !! f) ∧
        run initializeDataFiles w1 = (Returned (), w1).
Proof.
  apply (initializeDataFiles_idempotent corrupt_world).
  intros c. apply not_elem_of_empty.
Defined.

Lemma store_inv_reachable_witness : store_inv (file_of Detections) sample_world.
Proof.
  apply (store_inv_reachable empty_world sample_world Detections).
  - intros c. apply store_inv_empty.
  - apply (reaches_serve _ (Create Detections sample_draft) empty_world).
    + apply reaches_refl.
    + reflexivity.
Defined.

Lemma updateDetection_merges_witness :
  let old := created empty_world sample_draft in
  let data := VObj {[ "status" := VStr "processing" ]} in
  let t := (clock sample_world + elapsed (ticks sample_world))%Z in
  let r := merged_record old data t in
  ∃ w', run (updateDetection (VStr (uuid_of 0)) data) sample_world = (Returned r, w') ∧
        records detectionsFile w' = <[0 := jsonify r]> (records detectionsFile sample_world) ∧
        get "updatedAt" r = VTime t ∧
        (∀ k x, k ≠ "updatedAt" → props data !! k = Some x → get k r = x) ∧
        (∀ k, k ≠ "updatedAt" → props data !! k = None → get k r = get k old).
Proof.
  apply (updateDetection_merges (uuid_of 0) _ sample_world 0).
  - apply run_clean, empty_world_clean.
  - vm_compute. reflexivity.
  - apply not_elem_of_empty.
  - vm_compute. reflexivity.
Defined.

Lemma updateDetection_missing_witness :
  run (updateDetection (VStr "no-such-id") (VObj ∅)) sample_world =
  (Returned VNull, sample_world).
Proof.
  apply (updateDetection_missing (VStr "no-such-id") (VObj ∅) sample_world).
  - vm_compute. reflexivity.
  - vm_compute. repeat constructor.
Defined.

Lemma deleteDetection_removes_witness :
  ∃ w', run (deleteDetection (VStr (uuid_of 0))) sample_world =
          (Returned (bool_decide (Exists (λ r, has_id (VStr (uuid_of 0)) r)
                                    (records detectionsFile sample_world))), w') ∧
        records detectionsFile w' =
          filter (λ r, negb (has_id (VStr (uuid_of 0)) r))
            (records detectionsFile sample_world) ∧
        run (getDetectionById (VStr (uuid_of 0))) w' = (Returned VUndefined, w').
Proof.
  apply (deleteDetection_removes (uuid_of 0) sample_world).
  - apply run_clean, empty_world_clean.
  - vm_compute. reflexivity.
  - apply not_elem_of_empty.
Defined.

Lemma createUser_overwrites_corrupt_witness :
  ∃ w', run (createUser sample_draft) corrupt_world =
          (Returned (created corrupt_world sample_draft), w') ∧
        files w' !! usersFile =
          Some (Json (VArr [jsonify (created corrupt_world sample_draft)])).
Proof.
  apply (createUser_overwrites_corrupt sample_draft corrupt_world).
  - reflexivity.
  - apply not_elem_of_empty.
Defined.

Lemma createDetection_unwritable_silent_witness :
  ∃ w', run (createDetection sample_draft) readonly_world =
          (Returned (created readonly_world sample_draft), w') ∧
        files w' = files readonly_world.
Proof.
  apply (createDetection_unwritable_silent sample_draft readonly_world).
  - vm_compute. reflexivity.
  - vm_compute. reflexivity.
Defined.

Lemma createDetection_get_roundtrip_witness :
  ∃ w', run (createDetection sample_draft) empty_world =
          (Returned (created empty_world sample_draft), w') ∧
        get "id" (created empty_world sample_draft) = VStr (uuid_of 0) ∧
        run (getDetectionById (VStr (uuid_of 0))) w' =
          (Returned (created empty_world sample_draft), w').
Proof.
  apply (createDetection_get_roundtrip sample_draft empty_world).
  - apply store_inv_empty.
  - apply not_elem_of_empty.
  - reflexivity.
  - vm_compute. reflexivity.
Defined.

Lemma createDetection_appends_witness :
  let w' := (run (createDetection sample_draft) sample_world).2 in
  records detectionsFile w' =
    records detectionsFile sample_world ++ [jsonify (created sample_world sample_draft)] ∧
  contents usersFile w' = contents usersFile sample_world ∧
  contents uploadsFile w' = contents uploadsFile sample_world.
Proof.
  apply (createDetection_appends sample_draft sample_world).
  - apply run_clean, empty_world_clean.
  - vm_compute. reflexivity.
  - apply not_elem_of_empty.
Defined.

Lemma createDetection_twice_same_upload_witness :
  let w2 := (run (createDetection sample_draft ≫= λ _, createDetection sample_draft)
               empty_world).2 in
  ∃ l, run (getDetectionsByUploadId (VStr "upload-1")) w2 = (Returned (VArr l), w2) ∧
       length l = 2 + length (filter (λ r, has_field "uploadId" (VStr "upload-1") r)
                                (records detectionsFile empty_world)).
Proof.
  apply (createDetection_twice_same_upload sample_draft "upload-1" empty_world).
  - reflexivity.
  - apply not_elem_of_empty.
  - reflexivity.
Defined.

End DataService.
