(* ===== verification/Concurrency.v ===== *)
(** * Interleaved executions of the record store

    Node runs one program at a time and switches at [await].  A pool is a
    list of programs, each stopped at an awaited event or finished; a
    schedule is the list of the programs that take their next awaited event,
    in order.  [interleave] executes a schedule.

    A program that is scheduled alone until it finishes does what [run]
    says ([solo_run]).  Two mutations of one collection whose reads both
    come before the first write do not: the second write is computed from
    the collection as it was before the first, and the first record is
    lost ([createDetection_lost_update]).  The store has no lock, so
    nothing excludes this schedule. *)

From S2P Require Import Prelude Json Task DataService.

Module Concurrency.
Import Js Task DataService.

(** ** Pools and schedules *)

(** Calling an [async] function runs it up to its first [await]. *)
Fixpoint start `{Runtime} {A} (ts : list (task A)) (w : world) : list (task A) * world :=
  match ts with
  | [] => ([], w)
  | t :: ts =>
      let '(t', w1) := advance t w in
      let '(ts', w2) := start ts w1 in
      (t' :: ts', w2)
  end.

(** Program [i] takes its awaited event and runs on to its next [await]. *)
Definition sched_step `{Runtime} {A} (i : nat) (p : list (task A) * world)
  : list (task A) * world :=
  match p.1 !! i with
  | Some t => let '(t', w') := step t p.2 in (<[i := t']> p.1, w')
  | None => p
  end.

Definition interleave `{Runtime} {A} (schedule : list nat) (p : list (task A) * world)
  : list (task A) * world :=
  foldl (λ p i, sched_step i p) p schedule.

(** The results of the programs of a pool that have finished. *)
Definition results {A} (ts : list (task A)) : list (option (outcome A)) :=
  result <$> ts.

(** The pools reachable by scheduling, as a relation: any unfinished
    program may move. *)
Inductive sched `{Runtime} {A} : relation (list (task A) * world) :=
| sched_move i t ts w :
    ts !! i = Some t → finished t = false →
    sched (ts, w) (sched_step i (ts, w)).


(** ** A program scheduled alone *)

Section solo.
Context `{Runtime} {A : Type}.
Implicit Types (t : task A) (ts : list (task A)) (w : world).

Lemma run_advance t w : run (advance t w).1 (advance t w).2 = run t w.
Proof.
  revert w. induction t as [a|e|X ev k IH]; intros w; simpl; try done.
  destruct (awaited ev); [done|].
  destruct (handle ev w) as [o w']. apply IH.
Qed.

Lemma run_step t w : run (step t w).1 (step t w).2 = run t w.
Proof.
  destruct t as [a|e|X ev k]; simpl; try done.
  destruct (handle ev w) as [o w']. apply run_advance.
Qed.

Lemma run_steps n t w : run (steps n t w).1 (steps n t w).2 = run t w.
Proof.
  revert t w. induction n as [|n IH]; intros t w; simpl; [done|].
  pose proof (run_step t w) as Hs. destruct (step t w) as [t' w'].
  by rewrite IH.
Qed.

Lemma run_finished t w o : result t = Some o → run t w = (o, w).
Proof. destruct t; simpl; naive_solver. Qed.

(** Scheduled alone until it has finished, a program returns what [run]
    returns and leaves the world [run] leaves. *)
Lemma solo_run n t w o :
  result (steps n t w).1 = Some o → run t w = (o, (steps n t w).2).
Proof. intros Hr. rewrite <- (run_steps n). by apply run_finished. Qed.


Lemma interleave_cons i s (p : list (task A) * world) :
  interleave (i :: s) p = interleave s (sched_step i p).
Proof. done. Qed.

Lemma sched_step_at i t ts w t' w' :
  ts !! i = Some t → step t w = (t', w') →
  sched_step i (ts, w) = (<[i := t']> ts, w').
Proof. unfold sched_step. simpl. by intros -> ->. Qed.


(** What [interleave] computes is reachable by [sched], as long as the
    schedule names unfinished programs. *)
Lemma interleave_sched i (p : list (task A) * world) t :
  p.1 !! i = Some t → finished t = false → sched p (interleave [i] p).
Proof. destruct p as [ts w]. intros. by eapply sched_move. Qed.

(** *** Termination *)

Lemma finished_result t : finished t = true → is_Some (result t).
Proof. destruct t; by eauto. Qed.

(** A program is a finite tree: scheduled alone, it takes finitely many
    steps, from where it stands and from its next [await]. *)
Lemma steps_finish t :
  ∀ w, (∃ n, finished (steps n t w).1 = true) ∧
       (∃ n, finished (steps n (advance t w).1 (advance t w).2).1 = true).
Proof.
  induction t as [a|e|X ev k IH]; intros w; [split; by exists 0..|].
  assert (∃ n, finished (steps n (Vis ev k) w).1 = true) as Hstep.
  { destruct (handle ev w) as [o w'] eqn:Hh. destruct (IH o w') as [_ [n Hn]].
    exists (S n). cbn [steps step]. rewrite Hh.
    by destruct (advance (k o) w'). }
  split; [done|]. cbn [advance]. destruct (awaited ev); [done|].
  destruct (handle ev w) as [o w']. apply IH.
Qed.

(** Scheduled alone, every program finishes, with the result of [run]. *)
Lemma solo_terminates t w :
  ∃ n o, result (steps n t w).1 = Some o ∧ run t w = (o, (steps n t w).2).
Proof.
  destruct (steps_finish t w) as [[n Hn] _].
  destruct (finished_result _ Hn) as [o Ho]. exists n, o. split; [done|].
  by apply solo_run.
Qed.
(** *** Pools *)




End solo.

(** ** The steps of the repository operations

    [create] has two awaited events: the read of the collection and the
    write.  Between them the program holds the array it read. *)

Section repo_steps.
Context `{Runtime} (file rcv : string).
Implicit Types (w : world) (data : value).

(** [create] after its read: about to write [l] and return [r]. *)
Definition writing (l : list value) (r : value) : task value :=
  writeData file (VArr l) ≫= λ _, mret r.

Lemma advance_repo_create data w :
  advance (repo_create file rcv data) w = (repo_create file rcv data, w).
Proof. done. Qed.

Lemma step_repo_create data w :
  store_ok file w →
  step (repo_create file rcv data) w =
  (writing (records file w ++ [created w data]) (created w data), stamped w).
Proof.
  intros Hok. unfold records. unfold store_ok in Hok.
  unfold repo_create, repo_all, readData, step, contents in *. simpl.
  destruct (files w !! file) as [[[]|]|]; try done; reflexivity.
Qed.

Lemma step_writing l r w :
  step (writing l r) w = (Ret r, store file l w).
Proof.
  unfold writing, writeData, step, store. simpl.
  by destruct (decide (file ∈ unwritable w)).
Qed.

(** Writing back what was read, with one record more. *)
Lemma records_store_snoc l r w :
  Forall is_json l → file ∉ unwritable w →
  records file (store file (l ++ [r]) w) = l ++ [jsonify r].
Proof.
  intros Hl Hw. rewrite records_store, fmap_app by done. f_equal.
  rewrite <- (list_fmap_id l) at 2. by apply Forall_fmap_ext_1.
Qed.

Lemma records_stamped w : records file (stamped w) = records file w.
Proof. done. Qed.

End repo_steps.

(** ** Lost update *)

Section lost_update.
Context `{Runtime}.
Implicit Types (w : world) (d : value).

Lemma createDetection_steps d w :
  store_ok detectionsFile w →
  step (createDetection d) w =
  (writing detectionsFile (records detectionsFile w ++ [created w d]) (created w d),
   stamped w).
Proof. apply step_repo_create. Qed.

Lemma start_createDetection d1 d2 w :
  start [createDetection d1; createDetection d2] w =
  ([createDetection d1; createDetection d2], w).
Proof. done. Qed.

(** C10: lost update.  Two [createDetection] calls whose reads both come
    before the first write both return their record, and the collection
    then holds the second record only: the first is lost, although its
    caller was told it was created. *)
Theorem createDetection_lost_update d1 d2 w :
  clean w → store_ok detectionsFile w → detectionsFile ∉ unwritable w →
  let c1 := created w d1 in
  let c2 := created (stamped w) d2 in
  ∃ w', interleave [0; 1; 0; 1] (start [createDetection d1; createDetection d2] w) =
          ([Ret c1; Ret c2], w') ∧
        records detectionsFile w' = records detectionsFile w ++ [jsonify c2].
Proof.
  intros Hc Hok Hw c1 c2. rewrite start_createDetection.
  rewrite !interleave_cons.
  erewrite (sched_step_at 0) by (done || by apply createDetection_steps).
  erewrite (sched_step_at 1) by (done || by apply createDetection_steps).
  erewrite (sched_step_at 0) by (done || apply step_writing).
  erewrite (sched_step_at 1) by (done || apply step_writing).
  eexists. split; [done|].
  rewrite records_stamped, records_store_snoc; [done|by apply clean_records|].
  by rewrite unwritable_store.
Qed.

(** C25: serial execution.  When the first [createDetection] finishes
    before the second starts to read, the pool ends as the sequential
    composition of the two calls does, and the collection holds both
    records. *)
Theorem createDetection_serial d1 d2 w :
  clean w → store_ok detectionsFile w → detectionsFile ∉ unwritable w →
  ∃ c1 c2 w',
    interleave [0; 0; 1; 1] (start [createDetection d1; createDetection d2] w) =
      ([Ret c1; Ret c2], w') ∧
    run (r1 ← createDetection d1; r2 ← createDetection d2; mret (r1, r2)) w =
      (Returned (c1, c2), w') ∧
    records detectionsFile w' = records detectionsFile w ++ [jsonify c1; jsonify c2].
Proof.
  intros Hc Hok Hw.
  assert (store_ok detectionsFile (store detectionsFile
            (records detectionsFile w ++ [created w d1]) (stamped w))) as Hok1
    by by apply store_ok_store.
  do 3 eexists. split; [|split].
  - rewrite start_createDetection, !interleave_cons.
    erewrite (sched_step_at 0) by (done || by apply createDetection_steps).
    erewrite (sched_step_at 0) by (done || apply step_writing).
    erewrite (sched_step_at 1) by (done || by apply createDetection_steps).
    erewrite (sched_step_at 1) by (done || apply step_writing).
    done.
  - rewrite run_bind, run_createDetection by done.
    by rewrite run_bind, run_createDetection by done.
  - rewrite records_store_snoc;
      [|by apply clean_records; [apply clean_store|]
       |by rewrite unwritable_stamped, unwritable_store].
    rewrite records_store_snoc; [|by apply clean_records|done].
    by rewrite <- (assoc_L (++)).
Qed.


End lost_update.

(** ** The properties at concrete inputs *)

Definition second_draft : value :=
  VObj {[ "userId" := VStr "user-2"; "uploadId" := VStr "upload-2";
          "status" := VStr "pending" ]}.

Lemma createDetection_lost_update_witness :
  let c1 := created empty_world sample_draft in
  let c2 := created (stamped empty_world) second_draft in
  ∃ w', interleave [0; 1; 0; 1]
          (start [createDetection sample_draft; createDetection second_draft] empty_world) =
          ([Ret c1; Ret c2], w') ∧
        records detectionsFile w' = records detectionsFile empty_world ++ [jsonify c2].
Proof.
  apply (createDetection_lost_update sample_draft second_draft empty_world).
  - apply empty_world_clean.
  - reflexivity.
  - apply not_elem_of_empty.
Defined.

Lemma createDetection_serial_witness :
  ∃ c1 c2 w',
    interleave [0; 0; 1; 1]
      (start [createDetection sample_draft; createDetection second_draft] empty_world) =
      ([Ret c1; Ret c2], w') ∧
    run (r1 ← createDetection sample_draft; r2 ← createDetection second_draft;
         mret (r1, r2)) empty_world = (Returned (c1, c2), w') ∧
    records detectionsFile w' =
      records detectionsFile empty_world ++ [jsonify c1; jsonify c2].
Proof.
  apply (createDetection_serial sample_draft second_draft empty_world).
  - apply empty_world_clean.
  - reflexivity.
  - apply not_elem_of_empty.
Defined.

End Concurrency.
