(* ===== verification/DetectionModel.v ===== *)
(** * The [Detection] model class ([src/unnamed/part_001])

    An instance of the class is the object [this]: a [Js.value] with the
    thirteen fields the constructor sets.  A method that assigns to
    [this] takes the instance and returns the instance it leaves, as
    [save] itself does with [return this].  The instance a method was
    working on when it threw is not kept: every caller in the repository
    drops it there too.

    [save] is where the derived fields are recomputed and where the
    instance meets the record store; [updateStatus] is the job state
    machine of the backend. *)

From S2P Require Import Prelude Json Task Http DataService.

Module Detection.
Import Js Task Http DataService.

(** ** The constructor *)

(** The [results] of a detection that was given none. *)
Definition empty_results : value :=
  obj [("totalVehicles", of_Z 0); ("occludedVehicles", of_Z 0);
       ("occlusionPercentage", of_Z 0); ("vehicles", VArr []);
       ("imageMetadata", VObj ∅); ("processingMetadata", VObj ∅)].

(** [new Detection(detectionData)], for a [detectionData] that is not
    [null] or [undefined]. *)
Definition constructor (detectionData : value) : value :=
  obj [("id", get "id" detectionData);
       ("userId", get "userId" detectionData);
       ("uploadId", get "uploadId" detectionData);
       ("status", or_else (get "status" detectionData) (VStr "pending"));
       ("processingStartTime", get "processingStartTime" detectionData);
       ("processingEndTime", get "processingEndTime" detectionData);
       ("processingDuration", get "processingDuration" detectionData);
       ("results", or_else (get "results" detectionData) empty_results);
       ("annotations", or_else (get "annotations" detectionData) (VArr []));
       ("errorDetails", or_else (get "errorDetails" detectionData) (VObj ∅));
       ("metrics", or_else (get "metrics" detectionData) (VObj ∅));
       ("createdAt", get "createdAt" detectionData);
       ("updatedAt", get "updatedAt" detectionData)].

(** [new Detection(detectionData)] for any argument: reading [.id] off
    [null] or [undefined] throws. *)
Definition construct (detectionData : value) : task value :=
  if nullish detectionData
  then Throw (type_error "Cannot read properties of undefined (reading 'id')")
  else Ret (constructor detectionData).

(** ** Virtual properties *)

Section virtual.
Context `{Coercions}.

Definition processingTimeFormatted (this : value) : value :=
  if negb (truthy (get "processingDuration" this)) then VNull else
  match to_number (get "processingDuration" this) with
  | None => VStr "NaNs"
  | Some duration =>
      let seconds := floor (duration / 1000) in
      let minutes := floor (inject_Z seconds / 60) in
      let hours := floor (inject_Z minutes / 60) in
      if (0 <? hours)%Z then
        VStr (to_string (of_Z hours) +:+ "h " +:+ to_string (of_Z (Z.rem minutes 60))
              +:+ "m " +:+ to_string (of_Z (Z.rem seconds 60)) +:+ "s")
      else if (0 <? minutes)%Z then
        VStr (to_string (of_Z minutes) +:+ "m " +:+ to_string (of_Z (Z.rem seconds 60))
              +:+ "s")
      else VStr (to_string (of_Z seconds) +:+ "s")
  end.

(** [summary[level]++]: a counter that is a number goes up by one; a key
    the summary does not have becomes [NaN], and stays so. *)
Definition bump (level : value) (summary : gmap string value) : gmap string value :=
  let key := to_string level in
  match summary !! key with
  | Some (VNum n) => <[key := VNum (num_add n 1)]> summary
  | _ => <[key := VNaN]> summary
  end.

(** The callback of [forEach] in [occlusionSummary]. *)
Definition count_level (summary : gmap string value) (vehicle : value)
  : gmap string value :=
  if truthy (get "occlusion" vehicle) &&
     truthy (get "occlusionLevel" (get "occlusion" vehicle))
  then bump (get "occlusionLevel" (get "occlusion" vehicle)) summary
  else summary.

Definition no_levels : gmap string value :=
  {[ "none" := of_Z 0; "partial" := of_Z 0; "heavy" := of_Z 0; "complete" := of_Z 0 ]}.

Definition occlusionSummary (this : value) : task value :=
  if negb (truthy (get "results" this)) ||
     negb (truthy (get "vehicles" (get "results" this)))
  then Ret VNull
  else
    vehicles ← as_array "vehicles" "forEach" (get "vehicles" (get "results" this));
    if existsb nullish vehicles
    then Throw (type_error "Cannot read properties of undefined (reading 'occlusion')")
    else Ret (VObj (foldl count_level no_levels vehicles)).

End virtual.

(** ** Static methods *)

Section statics.
Context `{Runtime}.

Definition findById (id : value) : task value :=
  detectionData ← getDetectionById id;
  mret (if truthy detectionData then constructor detectionData else VNull).

(** [detectionsData.map(detectionData => new Detection(detectionData))] *)
Definition instances (detectionsData : value) : task value :=
  l ← as_array "detectionsData" "map" detectionsData;
  VArr <$> mapM construct l.

Definition findByUserId (userId : value) : task value :=
  detectionsData ← getDetectionsByUserId userId;
  instances detectionsData.

Definition findByUploadId (uploadId : value) : task value :=
  detectionsData ← getDetectionsByUploadId uploadId;
  instances detectionsData.

Definition findAll : task value :=
  detectionsData ← getDetections;
  instances detectionsData.

Definition create (detectionData : value) : task value :=
  newDetectionData ← createDetection detectionData;
  mret (constructor newDetectionData).

End statics.

(** ** Instance methods *)

Section methods.
Context `{Runtime} `{Coercions}.

(** [v => v.occlusion && v.occlusion.isOccluded], the callback of [filter]
    in [save] *)
Definition occluded (v : value) : bool :=
  truthy (get "occlusion" v) && truthy (get "isOccluded" (get "occlusion" v)).

(** [(occludedCount / length) * 100] *)
Definition percent (occludedCount total : nat) : value :=
  match num_div (inject_Z (Z.of_nat occludedCount)) (inject_Z (Z.of_nat total)) with
  | VNum q => VNum (num_mul q 100)
  | _ => VNaN
  end.

(** The first statement of [save]: the duration, when both times are set. *)
Definition with_duration (this : value) : value :=
  if truthy (get "processingStartTime" this) && truthy (get "processingEndTime" this)
  then set "processingDuration"
         (date_diff (get "processingEndTime" this) (get "processingStartTime" this)) this
  else this.

(** The second statement of [save]: the occlusion counters, when there are
    vehicles. *)
Definition with_occlusion (this : value) : task value :=
  let results := get "results" this in
  if truthy results && truthy (get "vehicles" results) &&
     gt (length_of (get "vehicles" results)) 0
  then
    vehicles ← as_array "vehicles" "filter" (get "vehicles" results);
    if existsb nullish vehicles
    then Throw (type_error "Cannot read properties of undefined (reading 'occlusion')")
    else
      let occludedCount := length (filter (λ v, occluded v = true) vehicles) in
      Ret (set "results"
             (set "occlusionPercentage" (percent occludedCount (length vehicles))
                (set "occludedVehicles" (of_nat occludedCount) results)) this)
  else Ret this.

(** The fields [save] hands to the record store. *)
Definition data_keys : list string :=
  ["userId"; "uploadId"; "status"; "processingStartTime"; "processingEndTime";
   "processingDuration"; "results"; "annotations"; "errorDetails"; "metrics"].

(** The object [save] hands to the record store. *)
Definition detectionData_of (this : value) : value :=
  obj [("userId", get "userId" this);
       ("uploadId", get "uploadId" this);
       ("status", get "status" this);
       ("processingStartTime", get "processingStartTime" this);
       ("processingEndTime", get "processingEndTime" this);
       ("processingDuration", get "processingDuration" this);
       ("results", get "results" this);
       ("annotations", get "annotations" this);
       ("errorDetails", get "errorDetails" this);
       ("metrics", get "metrics" this)].

Definition save (this : value) : task value :=
  this ← with_occlusion (with_duration this);
  let detectionData := detectionData_of this in
  if truthy (get "id" this) then
    updatedData ← updateDetection (get "id" this) detectionData;
    mret (if truthy updatedData then assign this updatedData else this)
  else
    newDetectionData ← createDetection detectionData;
    mret (assign this newDetectionData).

Definition remove (this : value) : task bool :=
  if truthy (get "id" this) then deleteDetection (get "id" this) else mret false.

(** [addAnnotation] returns the instance; [annotation], which it stamps,
    is the caller's object.  A class body is strict code: assigning a
    property to a primitive throws there. *)
Definition addAnnotation (annotation : value) (this : value) : task value :=
  match annotation with
  | VObj _ | VArr _ =>
      timestamp ← trigger Now;
      let annotation :=
        if is_object annotation then set "timestamp" (VTime timestamp) annotation
        else annotation in
      annotations ← as_array "annotations" "push" (get "annotations" this);
      save (set "annotations" (VArr (annotations ++ [annotation])) this)
  | _ => Throw (type_error "Cannot create property 'timestamp'")
  end.

(** The statuses that end a job, as [updateStatus] lists them. *)
Definition final_statuses : list value :=
  [VStr "completed"; VStr "failed"; VStr "cancelled"].

Definition updateStatus (status errorDetails : value) (this : value) : task value :=
  let this := set "status" status this in
  this ←
    (if strict_eq status (VStr "processing") &&
        negb (truthy (get "processingStartTime" this))
     then now ← trigger Now; mret (set "processingStartTime" (VTime now) this)
     else if includes status final_statuses &&
             negb (truthy (get "processingEndTime" this))
     then now ← trigger Now; mret (set "processingEndTime" (VTime now) this)
     else mret this);
  let this := if truthy errorDetails then set "errorDetails" errorDetails this
              else this in
  save this.

(** ** Utility methods *)

(** A decimal literal: [dec 95 100] is [0.95]. *)
Definition dec (n : Z) (d : positive) : value := VNum (Qred (n # d)).

Definition sample_vehicle (id type : string) (confidence : value)
    (x y width height : Z) (isOccluded : bool) (level : string) (percentage : Z)
    (occludedBy : list value) (color size : string) (orientation : Z) : value :=
  obj [("id", VStr id); ("type", VStr type); ("confidence", confidence);
       ("boundingBox", obj [("x", of_Z x); ("y", of_Z y);
                            ("width", of_Z width); ("height", of_Z height)]);
       ("occlusion", obj [("isOccluded", VBool isOccluded);
                          ("occlusionLevel", VStr level);
                          ("occlusionPercentage", of_Z percentage);
                          ("occludedBy", VArr occludedBy)]);
       ("features", obj [("color", VStr color); ("size", VStr size);
                         ("orientation", of_Z orientation)])].

Definition sample_results : value :=
  obj [("totalVehicles", of_Z 3);
       ("occludedVehicles", of_Z 1);
       ("occlusionPercentage", dec 3333 100);
       ("vehicles", VArr [
          sample_vehicle "v1" "car" (dec 95 100) 100 150 200 120
            false "none" 0 [] "blue" "medium" 0;
          sample_vehicle "v2" "truck" (dec 88 100) 350 100 180 140
            true "partial" 25 [VStr "v3"] "red" "large" 15;
          sample_vehicle "v3" "car" (dec 92 100) 320 180 190 110
            false "none" 0 [] "white" "medium" (-10)]);
       ("imageMetadata",
          obj [("originalWidth", of_Z 1920); ("originalHeight", of_Z 1080);
               ("processedWidth", of_Z 1920); ("processedHeight", of_Z 1080);
               ("format", VStr "JPEG"); ("size", of_Z 2048576)]);
       ("processingMetadata",
          obj [("modelVersion", VStr "1.0.0"); ("algorithm", VStr "YOLO-v8");
               ("parameters", obj [("threshold", dec 5 10);
                                   ("nms_threshold", dec 4 10)]);
               ("computeTime", of_Z 1250); ("memoryUsage", of_Z 512)])].

Definition createSampleDetection (userId uploadId : value) : task value :=
  started ← trigger Now;
  ended ← trigger Now;
  mret (obj [("userId", userId); ("uploadId", uploadId);
             ("status", VStr "completed");
             ("processingStartTime", VTime (started - 5000));
             ("processingEndTime", VTime ended);
             ("results", sample_results)]).

(** The static methods of the class, by name. *)
Definition statics (name : string) : option (list value → task value) :=
  if decide (name = "findById") then Some (λ args, findById (arg 0 args))
  else if decide (name = "findByUserId") then Some (λ args, findByUserId (arg 0 args))
  else if decide (name = "findByUploadId")
  then Some (λ args, findByUploadId (arg 0 args))
  else if decide (name = "findAll") then Some (λ _, findAll)
  else if decide (name = "create") then Some (λ args, create (arg 0 args))
  else if decide (name = "createSampleDetection")
  then Some (λ args, createSampleDetection (arg 0 args) (arg 1 args))
  else None.

End methods.

(** ** What the properties speak of *)

(** The four occlusion levels, the level of a vehicle, and a vehicle that
    [occlusionSummary] can count: not [null], its level unset or one of
    the four. *)
Definition level_names : list string := ["none"; "partial"; "heavy"; "complete"].
Definition level_of (vehicle : value) : value :=
  get "occlusionLevel" (get "occlusion" vehicle).
Definition labelled (vehicle : value) : bool :=
  negb (nullish vehicle) &&
  (negb (truthy (level_of vehicle)) || bool_decide (level_of vehicle ∈ VStr <$> level_names)).

(** An instance whose vehicle list is an array without holes: [save]
    does not throw while counting. *)
Definition sound (this : value) : bool :=
  match get "vehicles" (get "results" this) with
  | VArr l => negb (existsb nullish l)
  | _ => false
  end.

Section derived.
Context `{Runtime} `{Coercions}.

(** What [with_occlusion] makes of an instance whose vehicles are [l]. *)
Definition counted (l : list value) (results : value) : value :=
  let n := length (filter (λ v, occluded v = true) l) in
  set "occlusionPercentage" (percent n (length l)) (set "occludedVehicles" (of_nat n) results).

(** The instance [save] hands to the store: [this] after the two
    recomputations. *)
Definition derived (this : value) : value :=
  match with_occlusion (with_duration this) with
  | Ret this1 => this1
  | _ => this
  end.

(** Does [updateStatus] read the clock? *)
Definition reads_clock (status : value) (this : value) : bool :=
  strict_eq status (VStr "processing") && negb (truthy (get "processingStartTime" this))
  || includes status final_statuses && negb (truthy (get "processingEndTime" this)).

(** The instance [updateStatus] saves when the clock reads [now]. *)
Definition marked (status errorDetails : value) (now : Z) (this : value) : value :=
  let this := set "status" status this in
  let this :=
    if strict_eq status (VStr "processing") &&
       negb (truthy (get "processingStartTime" this))
    then set "processingStartTime" (VTime now) this
    else if includes status final_statuses &&
            negb (truthy (get "processingEndTime" this))
    then set "processingEndTime" (VTime now) this
    else this in
  if truthy errorDetails then set "errorDetails" errorDetails this else this.

End derived.

(** ** The instances of the examples

    An instance with three vehicles and a [totalVehicles] that disagrees
    with them; an instance just constructed from a draft; a finished job,
    in the store and as an instance; a job in progress. *)

Definition sample_vehicles : list value := elements (get "vehicles" sample_results).

Definition sample_instance : value :=
  constructor (obj [("userId", VStr "user-1"); ("uploadId", VStr "upload-1");
                    ("results", set "totalVehicles" (of_Z 7) sample_results)]).

Definition fresh_instance : value := constructor sample_draft.

Definition finished_draft : value :=
  obj [("userId", VStr "user-1"); ("uploadId", VStr "upload-1");
       ("status", VStr "completed");
       ("processingStartTime", VTime 0); ("processingEndTime", VTime 5000);
       ("results", sample_results)].

Definition finished_world : world := (run (create finished_draft) empty_world).2.

Definition finished_instance : value := constructor (created empty_world finished_draft).

Definition started_instance : value :=
  set "processingStartTime" (VTime 0) (set "status" (VStr "processing") fresh_instance).

(** ** Lemmas *)

Section facts.
Context `{Runtime} `{Coercions}.
Implicit Types (this old : value) (w : world) (k : string).

Lemma lookup_detectionData_of k this :
  k ∈ data_keys → props (detectionData_of this) !! k = Some (get k this).
Proof.
  unfold data_keys. rewrite !elem_of_cons, elem_of_nil.
  intros [->|[->|[->|[->|[->|[->|[->|[->|[->|[->|[]]]]]]]]]]]; reflexivity.
Qed.

Lemma lookup_detectionData_of_id this : props (detectionData_of this) !! "id" = None.
Proof. reflexivity. Qed.

Lemma data_keys_not_stamp k :
  k ∈ data_keys → k ≠ "id" ∧ k ≠ "createdAt" ∧ k ≠ "updatedAt".
Proof.
  unfold data_keys. rewrite !elem_of_cons, elem_of_nil.
  intros Hk. repeat split; intros ->; intuition discriminate.
Qed.

(** A vehicle counts as occluded exactly when [occlusion.isOccluded] is
    truthy: an [occlusion] that is not an object has no such property. *)
Lemma occluded_isOccluded v :
  occluded v = truthy (get "isOccluded" (get "occlusion" v)).
Proof.
  unfold occluded. destruct (get "occlusion" v); try done;
    by rewrite andb_false_r.
Qed.

Lemma get_with_duration k this :
  k ≠ "processingDuration" → get k (with_duration this) = get k this.
Proof. intros. unfold with_duration. case_match; [|done]. by rewrite get_set_ne. Qed.

Lemma with_duration_times this s e :
  get "processingStartTime" this = VTime s → get "processingEndTime" this = VTime e →
  get "processingDuration" (with_duration this) = of_Z (e - s).
Proof. intros Hs He. unfold with_duration. rewrite Hs, He. simpl. by rewrite get_set_eq. Qed.

Lemma percent_pos n total :
  0 < total →
  percent n total = VNum (Qred (inject_Z (Z.of_nat n) / inject_Z (Z.of_nat total) * 100)).
Proof.
  intros Hpos. unfold percent, num_div, num_mul.
  destruct (Qeq_bool _ 0) eqn:Hz.
  - apply Qeq_bool_iff in Hz. unfold Qeq in Hz. simpl in Hz. lia.
  - f_equal. apply Qred_complete. by rewrite Qred_correct.
Qed.

Lemma with_occlusion_vehicles this l :
  get "vehicles" (get "results" this) = VArr l →
  l ≠ [] → Forall (λ v, nullish v = false) l →
  with_occlusion this = Ret (set "results" (counted l (get "results" this)) this).
Proof.
  intros Hv Hne Hl. unfold with_occlusion. rewrite Hv.
  assert (truthy (get "results" this) = true) as ->.
  { destruct (get "results" this); try done. }
  rewrite length_of_arr. unfold of_nat. rewrite (gt_of_Z _ 0).
  rewrite bool_decide_true by (destruct l; simpl; [done|lia]). simpl.
  by rewrite (proj2 (existsb_false_Forall _ _) Hl).
Qed.

Lemma with_occlusion_empty this :
  get "vehicles" (get "results" this) = VArr [] → with_occlusion this = Ret this.
Proof.
  intros Hv. unfold with_occlusion. rewrite Hv. rewrite length_of_arr.
  by rewrite andb_false_r.
Qed.

Lemma get_with_occlusion k this this1 :
  with_occlusion this = Ret this1 → k ≠ "results" → get k this1 = get k this.
Proof.
  unfold with_occlusion. intros Hw Hk. case_match; [|by simplify_eq].
  destruct (as_array _ _ _); simpl in Hw; try done.
  case_match; simplify_eq. by rewrite get_set_ne.
Qed.


(** *** [save], branch by branch *)

Lemma run_save_new this this1 w :
  store_ok detectionsFile w →
  with_occlusion (with_duration this) = Ret this1 →
  truthy (get "id" this1) = false →
  let r := created w (detectionData_of this1) in
  run (save this) w =
  (Returned (assign this1 r),
   store detectionsFile (records detectionsFile w ++ [r]) (stamped w)).
Proof.
  intros Hok H1 Hid. unfold save. rewrite run_bind, H1. cbn [run]. rewrite Hid.
  by rewrite run_bind, run_createDetection.
Qed.

Lemma run_save_found this this1 w i old :
  store_ok detectionsFile w →
  with_occlusion (with_duration this) = Ret this1 →
  truthy (get "id" this1) = true →
  list_find (has_id (get "id" this1)) (records detectionsFile w) = Some (i, old) →
  let r := merged_record old (detectionData_of this1) (clock w + elapsed (ticks w)) in
  run (save this) w =
  (Returned (assign this1 r),
   store detectionsFile (<[i := r]> (records detectionsFile w))
     (set_clock (clock w + elapsed (ticks w)) w)).
Proof.
  intros Hok H1 Hid Hfind. unfold save. rewrite run_bind, H1. cbn [run]. rewrite Hid.
  by rewrite run_bind, (run_updateDetection_found _ _ _ i old).
Qed.

Lemma run_save_missing this this1 w :
  store_ok detectionsFile w →
  with_occlusion (with_duration this) = Ret this1 →
  truthy (get "id" this1) = true →
  list_find (has_id (get "id" this1)) (records detectionsFile w) = None →
  run (save this) w = (Returned this1, w).
Proof.
  intros Hok H1 Hid Hfind. unfold save. rewrite run_bind, H1. cbn [run]. rewrite Hid.
  by rewrite run_bind, run_updateDetection_missing.
Qed.

(** What the record store answers carries the fields it was handed. *)
Lemma get_assign_created k this w :
  k ∈ data_keys → get k (assign this (created w (detectionData_of this))) = get k this.
Proof.
  intros Hk. destruct (data_keys_not_stamp k Hk) as (? & ? & ?).
  pose proof (lookup_detectionData_of k this Hk) as Hd.
  pose proof (get_created_other k w (detectionData_of this)) as Hc.
  rewrite get_assign. unfold get in Hc at 1.
  destruct (props (created _ _) !! k) eqn:E; [|done].
  simpl in Hc. rewrite Hc by done. unfold get at 1. by rewrite Hd.
Qed.

Lemma get_assign_merged k this old t :
  k ∈ data_keys → get k (assign this (merged_record old (detectionData_of this) t)) = get k this.
Proof.
  intros Hk. destruct (data_keys_not_stamp k Hk) as (? & ? & ?).
  pose proof (lookup_detectionData_of k this Hk) as Hd.
  pose proof (get_merged_patch k old _ t _ ltac:(done) Hd) as Hc.
  rewrite get_assign. unfold get in Hc at 1.
  by destruct (props (merged_record _ _ _) !! k) eqn:E.
Qed.

(** [save] returns, and the instance it returns has the fields it handed
    to the store. *)
Lemma save_returns this this1 w :
  store_ok detectionsFile w →
  with_occlusion (with_duration this) = Ret this1 →
  ∃ this' w', run (save this) w = (Returned this', w') ∧
              ∀ k, k ∈ data_keys → get k this' = get k this1.
Proof.
  intros Hok H1. destruct (truthy (get "id" this1)) eqn:Hid.
  - destruct (list_find (has_id (get "id" this1)) (records detectionsFile w))
      as [[i old]|] eqn:Hfind.
    + do 2 eexists. split; [by eapply run_save_found|].
      intros k Hk. by apply get_assign_merged.
    + do 2 eexists. split; [by eapply run_save_missing|done].
  - do 2 eexists. split; [by eapply run_save_new|].
    intros k Hk. by apply get_assign_created.
Qed.


Lemma with_occlusion_sound this :
  sound this = true →
  ∃ this1, with_occlusion this = Ret this1 ∧ sound this1 = true ∧
           ∀ k, k ≠ "results" → get k this1 = get k this.
Proof.
  unfold sound. intros Hs.
  destruct (get "vehicles" (get "results" this)) as [| | | | | | |l|] eqn:Hv; try done.
  apply negb_true_iff, existsb_false_Forall in Hs.
  destruct l as [|v l].
  - exists this. rewrite with_occlusion_empty by done. by rewrite Hv.
  - eexists. rewrite (with_occlusion_vehicles _ (v :: l)) by done.
    split; [done|]. split; [|by intros; rewrite get_set_ne].
    unfold counted. rewrite get_set_eq, !get_set_ne, Hv by done.
    by apply negb_true_iff, existsb_false_Forall.
Qed.

Lemma sound_with_duration this : sound (with_duration this) = sound this.
Proof. unfold sound. by rewrite get_with_duration. Qed.

(** [save] of a sound instance returns a sound instance with the fields
    it handed to the store. *)
Lemma save_sound this w :
  store_ok detectionsFile w → sound this = true →
  ∃ this' w', run (save this) w = (Returned this', w') ∧ sound this' = true ∧
    get "processingDuration" this' = get "processingDuration" (with_duration this) ∧
    ∀ k, k ∈ data_keys → k ≠ "results" → k ≠ "processingDuration" →
         get k this' = get k this.
Proof.
  intros Hok Hs. rewrite <- sound_with_duration in Hs.
  destruct (with_occlusion_sound _ Hs) as (this1 & H1 & Hs1 & Hk1).
  destruct (save_returns this this1 w Hok H1) as (this' & w' & Hrun & Hk).
  exists this', w'. split; [done|]. split; [|split].
  - unfold sound in *. by rewrite (Hk "results") by in_list.
  - rewrite (Hk "processingDuration") by in_list.
    by apply Hk1.
  - intros k ? ? ?. by rewrite Hk, Hk1, get_with_duration.
Qed.

End facts.

(** ** [save] of an instance that is in the store *)

Section found.
Context `{Runtime} `{Coercions}.
Implicit Types (this old : value) (w : world) (k : string).

Lemma with_occlusion_derived this :
  sound this = true → with_occlusion (with_duration this) = Ret (derived this).
Proof.
  intros Hs. rewrite <- sound_with_duration in Hs.
  destruct (with_occlusion_sound _ Hs) as (this1 & Hocc & _). unfold derived.
  by rewrite Hocc.
Qed.

Lemma sound_derived this : sound this = true → sound (derived this) = true.
Proof.
  intros Hs. rewrite <- sound_with_duration in Hs.
  destruct (with_occlusion_sound _ Hs) as (this1 & Hocc & ? & _). unfold derived.
  by rewrite Hocc.
Qed.

Lemma get_derived k this :
  sound this = true → k ≠ "results" → k ≠ "processingDuration" →
  get k (derived this) = get k this.
Proof.
  intros Hs ??. rewrite <- sound_with_duration in Hs.
  destruct (with_occlusion_sound _ Hs) as (this1 & Hocc & _ & Hk). unfold derived.
  by rewrite Hocc, Hk, get_with_duration.
Qed.

Lemma get_derived_duration this :
  sound this = true →
  get "processingDuration" (derived this) = get "processingDuration" (with_duration this).
Proof.
  intros Hs. rewrite <- sound_with_duration in Hs.
  destruct (with_occlusion_sound _ Hs) as (this1 & Hocc & _ & Hk). unfold derived.
  by rewrite Hocc, Hk.
Qed.

Lemma get_derived_results this l :
  get "vehicles" (get "results" this) = VArr l → l ≠ [] →
  Forall (λ v, nullish v = false) l →
  get "results" (derived this) = counted l (get "results" this).
Proof.
  intros Hv Hne Hl. unfold derived.
  rewrite <- (get_with_duration "results" this) in Hv by done.
  rewrite (with_occlusion_vehicles _ _ Hv Hne Hl).
  by rewrite get_set_eq, get_with_duration.
Qed.

(** [save] of a sound instance whose record is in the store: the record
    is replaced where it was, by the serialised fields of the instance. *)
Lemma save_found this w s i old :
  store_ok detectionsFile w → detectionsFile ∉ unwritable w →
  sound this = true → get "id" this = VStr s → s ≠ "" →
  list_find (has_id (VStr s)) (records detectionsFile w) = Some (i, old) →
  ∃ this' w' r,
    run (save this) w = (Returned this', w') ∧
    (store_ok detectionsFile w' ∧ (detectionsFile ∉ unwritable w') ∧
     (clock w ≤ clock w')%Z) ∧
    list_find (has_id (VStr s)) (records detectionsFile w') = Some (i, r) ∧
    (get "id" this' = VStr s ∧ sound this' = true) ∧
    (∀ k, k ∈ data_keys → get k this' = get k (derived this)) ∧
    (∀ k, k ∈ data_keys → get k (derived this) ≠ VUndefined →
          get k r = jsonify (get k (derived this))).
Proof.
  intros Hok Hw Hs Hid Hne Hfind.
  pose proof (with_occlusion_derived this Hs) as Hocc.
  assert (get "id" (derived this) = VStr s) as Hid1 by (by rewrite get_derived).
  assert (truthy (get "id" (derived this)) = true) as Htr
    by (rewrite Hid1; by apply truthy_str).
  pose proof Hfind as Hfind1. rewrite <- Hid1 in Hfind1.
  pose proof (run_save_found this (derived this) w i old Hok Hocc Htr Hfind1) as Hrun.
  cbv zeta in Hrun.
  remember (merged_record old (detectionData_of (derived this))
              (clock w + elapsed (ticks w))) as r eqn:Hr.
  assert (get "id" r = VStr s) as Hidr.
  { rewrite Hr, get_merged_old; [|done|apply lookup_detectionData_of_id].
    by apply has_id_str, (list_find_holds _ _ _ _ Hfind). }
  eexists _, _, (jsonify r). split; [exact Hrun|].
  split; [|split; [|split; [|split]]].
  - split; [by apply store_ok_store|]. rewrite unwritable_store. split; [done|].
    rewrite clock_store. simpl clock. pose proof (elapsed_nonneg (ticks w)). lia.
  - rewrite records_store by done. rewrite list_find_has_id_jsonify.
    rewrite (list_find_insert_same _ _ _ _ r Hfind); [done|by apply has_id_get].
  - split.
    + rewrite get_assign. unfold get in Hidr.
      destruct (props r !! "id"); [done|]. by rewrite Hid1.
    + unfold sound. rewrite Hr, get_assign_merged by in_list. by apply sound_derived.
  - intros k Hk. rewrite Hr. by apply get_assign_merged.
  - intros k Hk Hdef. apply get_jsonify; [|done].
    destruct (data_keys_not_stamp k Hk) as (_ & _ & ?).
    rewrite Hr. by erewrite get_merged_patch; [|done|by apply lookup_detectionData_of].
Qed.
End found.

(** ** Properties *)

Section properties.
Context `{Runtime} `{Coercions}.
Implicit Types (this old : value) (w : world) (k : string).

Lemma save_counted this vehicles w :
  store_ok detectionsFile w →
  get "vehicles" (get "results" this) = VArr vehicles →
  vehicles ≠ [] → Forall (λ v, nullish v = false) vehicles →
  ∃ this' w', run (save this) w = (Returned this', w') ∧
              get "results" this' = counted vehicles (get "results" this).
Proof.
  intros Hok Hv Hne Hl.
  rewrite <- (get_with_duration "results" this) in Hv by done.
  pose proof (with_occlusion_vehicles _ _ Hv Hne Hl) as H1.
  destruct (save_returns this _ w Hok H1) as (this' & w' & Hrun & Hk).
  exists this', w'. split; [done|].
  rewrite (Hk "results") by in_list.
  by rewrite get_set_eq, get_with_duration.
Qed.

(** C2: derived counters.  When the vehicle list of an instance is a
    non-empty array, [save] returns an instance whose [occludedVehicles]
    is the number of vehicles with a truthy [occlusion.isOccluded] and
    whose [occlusionPercentage] is that number over the length of the
    list, times 100, whatever the two fields held before; the list itself
    is untouched. *)
Theorem save_recomputes_occlusion this vehicles w :
  store_ok detectionsFile w →
  get "vehicles" (get "results" this) = VArr vehicles →
  vehicles ≠ [] → Forall (λ v, nullish v = false) vehicles →
  ∃ this' w', run (save this) w = (Returned this', w') ∧
    let n := length (filter (λ v, truthy (get "isOccluded" (get "occlusion" v)) = true)
                            vehicles) in
    get "occludedVehicles" (get "results" this') = of_nat n ∧
    get "occlusionPercentage" (get "results" this') =
      VNum (Qred (inject_Z (Z.of_nat n) / inject_Z (Z.of_nat (length vehicles)) * 100)) ∧
    get "vehicles" (get "results" this') = VArr vehicles.
Proof.
  intros Hok Hv Hne Hl.
  destruct (save_counted this vehicles w) as (this' & w' & Hrun & Hr); [done..|].
  exists this', w'. split; [done|]. rewrite Hr. unfold counted. cbn zeta.
  rewrite (list_filter_iff
             (λ v, truthy (get "isOccluded" (get "occlusion" v)) = true)
             (λ v, occluded v = true))
    by (intros v; by rewrite occluded_isOccluded).
  autorewrite with vo_rw.
  by rewrite percent_pos by (destruct vehicles; simpl; [done|lia]).
Qed.

(** C23: [totalVehicles] is the caller's.  [save] recomputes the two
    occlusion counters from the vehicle list and leaves [totalVehicles] as
    it was, so the percentage is over the length of the list and not over
    [totalVehicles]. *)
Theorem save_trusts_totalVehicles this vehicles w :
  store_ok detectionsFile w →
  get "vehicles" (get "results" this) = VArr vehicles →
  vehicles ≠ [] → Forall (λ v, nullish v = false) vehicles →
  ∃ this' w', run (save this) w = (Returned this', w') ∧
    get "totalVehicles" (get "results" this') = get "totalVehicles" (get "results" this).
Proof.
  intros Hok Hv Hne Hl.
  destruct (save_counted this vehicles w) as (this' & w' & Hrun & Hr); [done..|].
  exists this', w'. split; [done|]. rewrite Hr. unfold counted. by rewrite !get_set_ne.
Qed.

(** C24: no vehicles, no recomputation.  With an empty vehicle list [save]
    skips the recomputation: [results] is returned as supplied, stale
    counters included. *)
Theorem save_empty_keeps_counters this w :
  store_ok detectionsFile w →
  get "vehicles" (get "results" this) = VArr [] →
  ∃ this' w', run (save this) w = (Returned this', w') ∧
              get "results" this' = get "results" this.
Proof.
  intros Hok Hv.
  rewrite <- (get_with_duration "results" this) in Hv by done.
  pose proof (with_occlusion_empty _ Hv) as H1.
  destruct (save_returns this _ w Hok H1) as (this' & w' & Hrun & Hk).
  exists this', w'. split; [done|].
  rewrite (Hk "results") by in_list.
  by rewrite get_with_duration.
Qed.

(** Duration.  When both processing times are set, [save] returns an
    instance whose [processingDuration] is the end minus the start, in
    milliseconds. *)
Theorem save_duration this s e w :
  store_ok detectionsFile w → sound this = true →
  get "processingStartTime" this = VTime s →
  get "processingEndTime" this = VTime e →
  ∃ this' w', run (save this) w = (Returned this', w') ∧
              get "processingDuration" this' = of_Z (e - s).
Proof.
  intros Hok Hs Hstart Hend.
  destruct (save_sound this w Hok Hs) as (this' & w' & Hrun & _ & Hd & _).
  exists this', w'. split; [done|]. rewrite Hd. by apply with_duration_times.
Qed.

Lemma run_updateStatus status errorDetails this w :
  let now := (clock w + elapsed (ticks w))%Z in
  run (updateStatus status errorDetails this) w =
  run (save (marked status errorDetails now this))
      (if reads_clock status (set "status" status this) then set_clock now w else w).
Proof.
  unfold updateStatus, marked, reads_clock. cbn zeta.
  rewrite run_bind.
  destruct (strict_eq status (VStr "processing") && _) eqn:E1.
  - rewrite run_bind, run_trigger. simpl handle. cbn iota. rewrite run_ret. reflexivity.
  - destruct (includes status final_statuses && _) eqn:E2.
    + rewrite run_bind, run_trigger. simpl handle. cbn iota. rewrite run_ret. reflexivity.
    + rewrite run_ret. reflexivity.
Qed.


Lemma sound_set k v this : k ≠ "results" → sound (set k v this) = sound this.
Proof. intros. unfold sound. by rewrite get_set_ne. Qed.

Lemma sound_marked status errorDetails now this :
  sound (marked status errorDetails now this) = sound this.
Proof. unfold marked. repeat case_match; by rewrite ?sound_set. Qed.

Lemma get_marked_status status errorDetails now this :
  get "status" (marked status errorDetails now this) = status.
Proof. unfold marked. repeat case_match; by autorewrite with vo_rw. Qed.

Lemma get_marked_id status errorDetails now this :
  get "id" (marked status errorDetails now this) = get "id" this.
Proof. unfold marked. repeat case_match; by autorewrite with vo_rw. Qed.

Lemma get_marked_start_kept status errorDetails now this :
  truthy (get "processingStartTime" this) = true →
  get "processingStartTime" (marked status errorDetails now this) =
  get "processingStartTime" this.
Proof.
  intros Ht. unfold marked. rewrite (get_set_ne "status") by done. rewrite Ht.
  rewrite andb_false_r. repeat case_match; by autorewrite with vo_rw.
Qed.

Lemma get_marked_end_kept status errorDetails now this :
  truthy (get "processingEndTime" this) = true →
  get "processingEndTime" (marked status errorDetails now this) =
  get "processingEndTime" this.
Proof.
  intros Ht. unfold marked. rewrite !(get_set_ne "status") by done. rewrite Ht.
  rewrite andb_false_r. repeat case_match; by autorewrite with vo_rw.
Qed.

Lemma get_marked_start_set errorDetails now this :
  truthy (get "processingStartTime" this) = false →
  get "processingStartTime" (marked (VStr "processing") errorDetails now this) = VTime now.
Proof.
  intros Ht. unfold marked. rewrite (get_set_ne "status") by done. rewrite Ht.
  simpl. case_match; by autorewrite with vo_rw.
Qed.

Lemma get_marked_end_set status errorDetails now this :
  includes status final_statuses = true →
  truthy (get "processingEndTime" this) = false →
  get "processingEndTime" (marked status errorDetails now this) = VTime now.
Proof.
  intros Hs Ht. unfold marked. rewrite !(get_set_ne "status") by done.
  rewrite Ht, Hs. assert (strict_eq status (VStr "processing") = false) as ->.
  { destruct status; try done. simpl in *.
    destruct (String.eqb_spec s "processing") as [->|]; done. }
  simpl. case_match; by autorewrite with vo_rw.
Qed.

Lemma get_marked_error status error now this :
  get "errorDetails" (marked status error now this) =
  if truthy error then error else get "errorDetails" this.
Proof. unfold marked. repeat case_match; by autorewrite with vo_rw. Qed.

Lemma get_marked_start_other status error now this :
  strict_eq status (VStr "processing") = false →
  get "processingStartTime" (marked status error now this) =
  get "processingStartTime" this.
Proof. intros Hs. unfold marked. rewrite Hs. repeat case_match; by autorewrite with vo_rw. Qed.

Lemma get_marked_end_other status error now this :
  includes status final_statuses = false →
  get "processingEndTime" (marked status error now this) =
  get "processingEndTime" this.
Proof. intros Hs. unfold marked. rewrite Hs. repeat case_match; by autorewrite with vo_rw. Qed.

(** [updateStatus] returns, and the instance it returns has the fields of
    the instance it marked. *)
Lemma updateStatus_returns status errorDetails this w :
  store_ok detectionsFile w → sound this = true →
  let now := (clock w + elapsed (ticks w))%Z in
  ∃ this' w', run (updateStatus status errorDetails this) w = (Returned this', w') ∧
    sound this' = true ∧
    get "processingDuration" this' =
      get "processingDuration" (with_duration (marked status errorDetails now this)) ∧
    ∀ k, k ∈ data_keys → k ≠ "results" → k ≠ "processingDuration" →
         get k this' = get k (marked status errorDetails now this).
Proof.
  intros Hok Hs now. rewrite run_updateStatus.
  edestruct (save_sound (marked status errorDetails now this)) as (this' & w' & Hr & ?);
    [|by rewrite sound_marked|exists this', w'; split; [apply Hr|done]].
  by case_match.
Qed.

(** No transition is refused.  [updateStatus] succeeds for every
    status, whatever the status of the instance was, and the instance it
    returns has the new status: nothing in the class tells a legal move of
    the job life cycle from an illegal one. *)
Theorem updateStatus_accepts_any status errorDetails this w :
  store_ok detectionsFile w → sound this = true →
  ∃ this' w', run (updateStatus status errorDetails this) w = (Returned this', w') ∧
              get "status" this' = status.
Proof.
  intros Hok Hs.
  destruct (updateStatus_returns status errorDetails this w Hok Hs) as (this' & w' & Hr & _ & _ & Hk).
  exists this', w'. split; [done|].
  rewrite Hk by in_list. apply get_marked_status.
Qed.

(** C27: the two times are set once.  A [processingStartTime] or
    [processingEndTime] that is set survives every [updateStatus]. *)
Theorem updateStatus_times_once status errorDetails this w :
  store_ok detectionsFile w → sound this = true →
  ∃ this' w', run (updateStatus status errorDetails this) w = (Returned this', w') ∧
    (truthy (get "processingStartTime" this) = true →
     get "processingStartTime" this' = get "processingStartTime" this) ∧
    (truthy (get "processingEndTime" this) = true →
     get "processingEndTime" this' = get "processingEndTime" this).
Proof.
  intros Hok Hs.
  destruct (updateStatus_returns status errorDetails this w Hok Hs) as (this' & w' & Hr & _ & _ & Hk).
  exists this', w'. split; [done|].
  rewrite !Hk by in_list.
  split; intros; by rewrite ?get_marked_start_kept, ?get_marked_end_kept.
Qed.

(** Starting.  [updateStatus('processing')] on an instance that has
    no start time sets the status and stamps [processingStartTime] with
    the reading of the clock; the clock has not run backwards. *)
Theorem updateStatus_processing_starts errorDetails this w :
  store_ok detectionsFile w → sound this = true →
  truthy (get "processingStartTime" this) = false →
  ∃ this' w', run (updateStatus (VStr "processing") errorDetails this) w = (Returned this', w') ∧
    get "status" this' = VStr "processing" ∧
    get "processingStartTime" this' = VTime (clock w + elapsed (ticks w)) ∧
    (clock w ≤ clock w')%Z.
Proof.
  intros Hok Hs Ht.
  destruct (updateStatus_returns (VStr "processing") errorDetails this w Hok Hs)
    as (this' & w' & Hr & _ & _ & Hk).
  exists this', w'. split; [done|].
  rewrite !Hk by in_list.
  rewrite get_marked_status, get_marked_start_set by done.
  repeat split. pose proof (run_clock_mono (updateStatus (VStr "processing") errorDetails this) w) as Hc.
  by rewrite Hr in Hc.
Qed.


Lemma get_marked_start status errorDetails now this s :
  get "processingStartTime" this = VTime s →
  get "processingStartTime" (marked status errorDetails now this) = VTime s.
Proof. intros Hs. rewrite get_marked_start_kept; by rewrite Hs. Qed.

(** Finishing.  [updateStatus] with [completed], [failed] or
    [cancelled] on an instance that was started no later than now and has
    no end time stamps [processingEndTime] with the reading of the clock,
    which is not before the start, and [processingDuration] is their
    difference. *)
Theorem updateStatus_final_ends status errorDetails this s w :
  store_ok detectionsFile w → sound this = true →
  includes status final_statuses = true →
  get "processingStartTime" this = VTime s → (s ≤ clock w)%Z →
  truthy (get "processingEndTime" this) = false →
  ∃ this' w' e, run (updateStatus status errorDetails this) w = (Returned this', w') ∧
    get "processingEndTime" this' = VTime e ∧ (s ≤ e)%Z ∧
    get "processingDuration" this' = of_Z (e - s).
Proof.
  intros Hok Hs Hfin Hstart Hle Hend.
  destruct (updateStatus_returns status errorDetails this w Hok Hs)
    as (this' & w' & Hr & _ & Hd & Hk).
  exists this', w', (clock w + elapsed (ticks w))%Z. split; [done|].
  rewrite Hk, Hd by in_list.
  rewrite get_marked_end_set by done. split; [done|].
  split; [pose proof (elapsed_nonneg (ticks w)); lia|].
  apply with_duration_times; [by apply get_marked_start|by apply get_marked_end_set].
Qed.

(** What [save] leaves in the store for an instance that is there. *)
Lemma save_stored this w i old k s :
  store_ok detectionsFile w → detectionsFile ∉ unwritable w → sound this = true →
  truthy (get "id" this) = true →
  list_find (has_id (get "id" this)) (records detectionsFile w) = Some (i, old) →
  k ∈ data_keys → k ≠ "results" → k ≠ "processingDuration" → get k this = VStr s →
  ∃ this' w' r, run (save this) w = (Returned this', w') ∧
    records detectionsFile w' !! i = Some r ∧ get k r = VStr s ∧
    length (records detectionsFile w') = length (records detectionsFile w).
Proof.
  intros Hok Hw Hs Hid Hfind Hk ? ? Hget. rewrite <- sound_with_duration in Hs.
  destruct (with_occlusion_sound _ Hs) as (this1 & Hocc & _ & Hk1).
  assert (get "id" this1 = get "id" this) as Hid1
    by by rewrite Hk1, get_with_duration.
  do 3 eexists. split; [eapply (run_save_found _ this1 _ i old); by rewrite ?Hid1|].
  rewrite records_store by done. rewrite length_fmap, length_insert.
  split; [|split; [|done]].
  - rewrite list_lookup_fmap, list_lookup_insert_eq by by eapply list_find_lt. done.
  - apply get_jsonify_str.
    destruct (data_keys_not_stamp k Hk) as (_ & _ & ?).
    erewrite get_merged_patch; [|done|by apply lookup_detectionData_of].
    by rewrite Hk1, get_with_duration.
Qed.

(** C5: the store keeps any transition.  For an instance that is in the
    store, [updateStatus] to any status string, from any status, rewrites
    the stored record with that status: a finished job can be moved back
    to [processing] or [pending]. *)
Theorem updateStatus_reopens status errorDetails this w i old :
  store_ok detectionsFile w → detectionsFile ∉ unwritable w → sound this = true →
  truthy (get "id" this) = true →
  list_find (has_id (get "id" this)) (records detectionsFile w) = Some (i, old) →
  ∃ this' w' r, run (updateStatus (VStr status) errorDetails this) w = (Returned this', w') ∧
    records detectionsFile w' !! i = Some r ∧ get "status" r = VStr status.
Proof.
  intros Hok Hw Hs Hid Hfind. rewrite run_updateStatus. cbn zeta.
  set (w1 := (if reads_clock _ _ then _ else w)).
  assert (store_ok detectionsFile w1 ∧ (detectionsFile ∉ unwritable w1) ∧
          records detectionsFile w1 = records detectionsFile w) as (? & ? & Hrec)
    by (unfold w1; by case_match).
  destruct (save_stored (marked (VStr status) errorDetails (clock w + elapsed (ticks w)) this)
              w1 i old "status" status) as (this' & w' & r & Hr & Hi & Hst & _);
    rewrite ?sound_marked, ?get_marked_id, ?Hrec, ?get_marked_status; try done.
  { in_list. }
  by exists this', w', r.
Qed.

(** C31: the format of a duration.  For a positive whole number of
    milliseconds, [processingTimeFormatted] prints the hours when there
    are any, then the minutes below 60 when there are any, then the seconds
    below 60, each in decimal. *)
Theorem processingTimeFormatted_spec this d :
  get "processingDuration" this = of_Z d → (0 < d)%Z →
  let seconds := (d / 1000)%Z in
  let minutes := (seconds / 60)%Z in
  let hours := (minutes / 60)%Z in
  processingTimeFormatted this =
  VStr (if decide (0 < hours)%Z then
          pretty hours +:+ "h " +:+ pretty (minutes mod 60)%Z +:+ "m " +:+
          pretty (seconds mod 60)%Z +:+ "s"
        else if decide (0 < minutes)%Z then
          pretty minutes +:+ "m " +:+ pretty (seconds mod 60)%Z +:+ "s"
        else pretty seconds +:+ "s").
Proof.
  intros Hd Hpos. unfold processingTimeFormatted. rewrite Hd.
  rewrite truthy_of_Z, bool_decide_true by lia.
  cbn [negb to_number of_Z].
  rewrite (floor_div_pos d 1000), (floor_div_pos _ 60), (floor_div_pos _ 60).
  rewrite !to_string_int.
  rewrite !Z.rem_mod_nonneg by (try lia; repeat apply Z.div_pos; lia).
  repeat case_decide; repeat (case_match; try done); rewrite ?Z.ltb_lt, ?Z.ltb_ge in *; lia.
Qed.

Lemma run_addAnnotation a l this w :
  get "annotations" this = VArr l →
  let now := (clock w + elapsed (ticks w))%Z in
  run (addAnnotation (VObj a) this) w =
  run (save (set "annotations" (VArr (l ++ [VObj (<["timestamp" := VTime now]> a)])) this))
      (set_clock now w).
Proof.
  intros Hl. unfold addAnnotation. rewrite run_bind, run_trigger. simpl handle.
  cbn iota. rewrite Hl. reflexivity.
Qed.

(** Annotations are appended.  [addAnnotation] stamps the annotation
    with the reading of the clock and returns an instance whose
    annotations are the old ones, in order, followed by the new one. *)
Theorem addAnnotation_appends a l this w :
  store_ok detectionsFile w → sound this = true →
  get "annotations" this = VArr l →
  ∃ this' w', run (addAnnotation (VObj a) this) w = (Returned this', w') ∧
    get "annotations" this' =
      VArr (l ++ [VObj (<["timestamp" := VTime (clock w + elapsed (ticks w))]> a)]).
Proof.
  intros Hok Hs Hl. rewrite (run_addAnnotation a l) by done. cbn zeta.
  set (now := (clock w + elapsed (ticks w))%Z).
  set (annotations := VArr (l ++ [VObj (<["timestamp" := VTime now]> a)])).
  destruct (save_sound (set "annotations" annotations this) (set_clock now w))
    as (this' & w' & Hr & _ & _ & Hk); [done|by rewrite sound_set|].
  exists this', w'. split; [done|].
  rewrite Hk by in_list. by rewrite get_set_eq.
Qed.

Lemma run_create data w :
  store_ok detectionsFile w →
  run (create data) w =
  (Returned (constructor (created w data)),
   store detectionsFile (records detectionsFile w ++ [created w data]) (stamped w)).
Proof. intros. unfold create. by rewrite run_bind, run_createDetection. Qed.

Lemma run_findById id w :
  store_ok detectionsFile w →
  run (findById id) w =
  (Returned (match list_find (has_id id) (records detectionsFile w) with
             | Some (_, r) => if truthy r then constructor r else VNull
             | None => VNull
             end), w).
Proof.
  intros. unfold findById. rewrite run_bind, run_getDetectionById by done.
  by destruct (list_find _ _) as [[]|].
Qed.

(** C28: round trip through the class.  [Detection.create] of a JSON draft
    without an id returns an instance that carries the uuid drawn and the
    draft's status ([pending] when the draft has none), and
    [Detection.findById] of that id then returns the same instance. *)
Theorem create_findById data w :
  store_inv detectionsFile w → detectionsFile ∉ unwritable w →
  is_json data → props data !! "id" = None →
  ∃ this w', run (create data) w = (Returned this, w') ∧
             get "id" this = VStr (uuid_of (drawn w)) ∧
             get "status" this = or_else (get "status" data) (VStr "pending") ∧
             run (findById (get "id" this)) w' = (Returned this, w').
Proof.
  intros Hinv Hw Hd Hid. pose proof Hinv as (Hok & Hdr & _).
  do 2 eexists. split; [by apply run_create|].
  assert (get "id" (constructor (created w data)) = VStr (uuid_of (drawn w))) as ->
    by by apply get_id_created_fresh.
  split; [done|]. split.
  { change (get "status" (constructor ?r)) with (or_else (get "status" r) (VStr "pending")).
    by rewrite get_created_other. }
  rewrite run_findById by by apply store_ok_store.
  rewrite records_store by done. rewrite list_find_has_id_jsonify.
  rewrite (list_find_snoc_None _ _ _ (list_find_fresh w _ Hdr)).
  - cbn [fmap option_fmap option_map prod_map fst snd].
    by rewrite !(is_json_created w data Hd).
  - unfold has_id. rewrite get_id_created_fresh by done.
    by rewrite strict_eq_str_refl.
Qed.

Lemma level_names_truthy k : k ∈ level_names → truthy (VStr k) = true.
Proof.
  unfold level_names. rewrite !elem_of_cons, elem_of_nil.
  intros [->|[->|[->|[->|[]]]]]; reflexivity.
Qed.

Lemma count_level_unlabelled summary v :
  truthy (level_of v) = false → count_level summary v = summary.
Proof. unfold count_level, level_of. intros ->. by rewrite andb_false_r. Qed.

Lemma count_level_named summary v k n :
  level_of v = VStr k → truthy (VStr k) = true → summary !! k = Some (of_nat n) →
  count_level summary v = <[k := of_nat (S n)]> summary.
Proof.
  unfold count_level, level_of, bump. intros Hl Hk Hs. rewrite Hl.
  rewrite Hk, andb_true_r.
  assert (truthy (get "occlusion" v) = true) as ->.
  { destruct (get "occlusion" v); try done. }
  simpl to_string. rewrite Hs. unfold of_nat, of_Z.
  change 1%Q with (inject_Z 1). rewrite num_add_int. do 3 f_equal. lia.
Qed.

Lemma foldl_count_level l summary (c : string → nat) :
  Forall (λ v, labelled v = true) l →
  (∀ k, k ∈ level_names → summary !! k = Some (of_nat (c k))) →
  ∀ k, k ∈ level_names →
    foldl count_level summary l !! k =
    Some (of_nat (c k + length (filter (λ v, level_of v = VStr k) l))).
Proof.
  revert summary c. induction l as [|v l IH]; intros summary c Hl Hc k Hk.
  { simpl. rewrite Hc by done. do 2 f_equal. lia. }
  apply Forall_cons in Hl as [Hv Hl]. simpl foldl. rewrite filter_cons.
  apply andb_true_iff in Hv as [_ [Hv|Hv]%orb_true_iff].
  - apply negb_true_iff in Hv. rewrite count_level_unlabelled by done.
    rewrite decide_False by (intros E; by rewrite E, level_names_truthy in Hv).
    by apply IH.
  - apply bool_decide_eq_true, list_elem_of_fmap in Hv as (k0 & Hv & Hk0).
    rewrite (count_level_named _ _ k0 (c k0)) by auto using level_names_truthy.
    rewrite (IH _ (λ k, if decide (k = k0) then S (c k) else c k)); [|done| |done].
    + rewrite Hv. destruct (decide (k = k0)) as [->|].
      * rewrite decide_True by done. simpl. do 2 f_equal. lia.
      * rewrite decide_False by congruence. done.
    + intros k' Hk'. destruct (decide (k' = k0)) as [->|].
      * by rewrite lookup_insert_eq.
      * rewrite lookup_insert_ne by done. by apply Hc.
Qed.

(** The occlusion summary.  For a vehicle list in which every
    occlusion level that is set is one of the four names,
    [occlusionSummary] counts, under each name, the vehicles at that
    level. *)
Theorem occlusionSummary_counts this vehicles :
  get "vehicles" (get "results" this) = VArr vehicles →
  Forall (λ v, labelled v = true) vehicles →
  ∃ summary, occlusionSummary this = Ret (VObj summary) ∧
    ∀ k, k ∈ level_names →
      summary !! k = Some (of_nat (length (filter (λ v, level_of v = VStr k) vehicles))).
Proof.
  intros Hv Hl. unfold occlusionSummary. rewrite Hv.
  assert (truthy (get "results" this) = true) as ->.
  { destruct (get "results" this); try done. }
  simpl. assert (existsb nullish vehicles = false) as ->.
  { apply existsb_false_Forall. eapply Forall_impl; [done|].
    intros v [?%negb_true_iff _]%andb_true_iff. done. }
  eexists. split; [done|]. intros k Hk.
  rewrite (foldl_count_level _ _ (λ _, 0)); [done..| |done].
  intros k'. unfold level_names, no_levels. rewrite !elem_of_cons, elem_of_nil.
  intros [->|[->|[->|[->|[]]]]]; reflexivity.
Qed.

Lemma mapM_construct l :
  Forall (λ v, nullish v = false) l → mapM construct l = Ret (constructor <$> l).
Proof.
  induction 1 as [|v l Hv _ IH]; [done|].
  change (mapM construct (v :: l))
    with (y ← construct v; k ← mapM construct l; mret (y :: k)).
  assert (construct v = Ret (constructor v)) as -> by (unfold construct; by rewrite Hv).
  by rewrite IH.
Qed.

Lemma run_instances l w :
  Forall (λ v, nullish v = false) l →
  run (instances (VArr l)) w = (Returned (VArr (constructor <$> l)), w).
Proof. intros Hl. unfold instances. simpl. by rewrite mapM_construct. Qed.

Lemma run_findByUploadId uploadId w :
  store_ok detectionsFile w →
  Forall (λ v, nullish v = false) (records detectionsFile w) →
  run (findByUploadId uploadId) w =
  (Returned (VArr (constructor <$>
               filter (λ r, has_field "uploadId" uploadId r) (records detectionsFile w))), w).
Proof.
  intros Hok Hl. unfold findByUploadId.
  rewrite run_bind, run_getDetectionsByUploadId by done.
  apply run_instances. by apply Forall_filter_keep.
Qed.

End properties.

(** ** The properties at concrete inputs *)

Lemma save_recomputes_occlusion_witness :
  ∃ this' w', run (save sample_instance) empty_world = (Returned this', w') ∧
    let n := length (filter (λ v, truthy (get "isOccluded" (get "occlusion" v)) = true)
                            sample_vehicles) in
    get "occludedVehicles" (get "results" this') = of_nat n ∧
    get "occlusionPercentage" (get "results" this') =
      VNum (Qred (inject_Z (Z.of_nat n) / inject_Z (Z.of_nat (length sample_vehicles)) * 100)) ∧
    get "vehicles" (get "results" this') = VArr sample_vehicles.
Proof.
  apply (save_recomputes_occlusion sample_instance sample_vehicles empty_world).
  - reflexivity.
  - vm_compute. reflexivity.
  - discriminate.
  - repeat constructor.
Defined.

Lemma save_trusts_totalVehicles_witness :
  ∃ this' w', run (save sample_instance) empty_world = (Returned this', w') ∧
    get "totalVehicles" (get "results" this') =
    get "totalVehicles" (get "results" sample_instance).
Proof.
  apply (save_trusts_totalVehicles sample_instance sample_vehicles empty_world).
  - reflexivity.
  - vm_compute. reflexivity.
  - discriminate.
  - repeat constructor.
Defined.

Lemma save_empty_keeps_counters_witness :
  ∃ this' w', run (save fresh_instance) empty_world = (Returned this', w') ∧
              get "results" this' = get "results" fresh_instance.
Proof.
  apply (save_empty_keeps_counters fresh_instance empty_world); reflexivity.
Defined.

Lemma save_duration_witness :
  ∃ this' w', run (save finished_instance) finished_world = (Returned this', w') ∧
              get "processingDuration" this' = of_Z (5000 - 0).
Proof.
  apply (save_duration finished_instance 0 5000 finished_world);
    vm_compute; reflexivity.
Defined.

Lemma updateStatus_accepts_any_witness :
  ∃ this' w', run (updateStatus (VStr "pending") VNull finished_instance) finished_world =
                (Returned this', w') ∧
              get "status" this' = VStr "pending".
Proof.
  apply (updateStatus_accepts_any (VStr "pending") VNull finished_instance finished_world);
    vm_compute; reflexivity.
Defined.

Lemma updateStatus_times_once_witness :
  ∃ this' w', run (updateStatus (VStr "processing") VNull finished_instance) finished_world =
                (Returned this', w') ∧
    (truthy (get "processingStartTime" finished_instance) = true →
     get "processingStartTime" this' = get "processingStartTime" finished_instance) ∧
    (truthy (get "processingEndTime" finished_instance) = true →
     get "processingEndTime" this' = get "processingEndTime" finished_instance).
Proof.
  apply (updateStatus_times_once (VStr "processing") VNull finished_instance finished_world);
    vm_compute; reflexivity.
Defined.

Lemma updateStatus_processing_starts_witness :
  ∃ this' w', run (updateStatus (VStr "processing") VNull fresh_instance) empty_world =
                (Returned this', w') ∧
    get "status" this' = VStr "processing" ∧
    get "processingStartTime" this' = VTime (clock empty_world + elapsed (ticks empty_world)) ∧
    (clock empty_world ≤ clock w')%Z.
Proof.
  apply (updateStatus_processing_starts VNull fresh_instance empty_world);
    vm_compute; reflexivity.
Defined.

Lemma updateStatus_final_ends_witness :
  ∃ this' w' e, run (updateStatus (VStr "completed") VNull started_instance) empty_world =
                  (Returned this', w') ∧
    get "processingEndTime" this' = VTime e ∧ (0 ≤ e)%Z ∧
    get "processingDuration" this' = of_Z (e - 0).
Proof.
  apply (updateStatus_final_ends (VStr "completed") VNull started_instance 0 empty_world);
    try (vm_compute; reflexivity). vm_compute. discriminate.
Defined.

Lemma updateStatus_reopens_witness :
  ∃ this' w' r,
    run (updateStatus (VStr "processing") VNull finished_instance) finished_world =
      (Returned this', w') ∧
    records detectionsFile w' !! 0 = Some r ∧ get "status" r = VStr "processing".
Proof.
  apply (updateStatus_reopens "processing" VNull finished_instance finished_world 0
           (jsonify (created empty_world finished_draft)));
    try (vm_compute; reflexivity).
  apply not_elem_of_empty.
Defined.

Lemma processingTimeFormatted_spec_witness :
  processingTimeFormatted (set "processingDuration" (of_Z 3725000) fresh_instance) =
  VStr (if decide (0 < 3725000 / 1000 / 60 / 60)%Z then
          pretty (3725000 / 1000 / 60 / 60)%Z +:+ "h " +:+
          pretty ((3725000 / 1000 / 60) mod 60)%Z +:+ "m " +:+
          pretty ((3725000 / 1000) mod 60)%Z +:+ "s"
        else if decide (0 < 3725000 / 1000 / 60)%Z then
          pretty (3725000 / 1000 / 60)%Z +:+ "m " +:+
          pretty ((3725000 / 1000) mod 60)%Z +:+ "s"
        else pretty (3725000 / 1000)%Z +:+ "s").
Proof.
  apply (processingTimeFormatted_spec
           (set "processingDuration" (of_Z 3725000) fresh_instance) 3725000).
  - reflexivity.
  - lia.
Defined.

Lemma addAnnotation_appends_witness :
  ∃ this' w', run (addAnnotation (VObj {[ "notes" := VStr "a van" ]}) fresh_instance)
                empty_world = (Returned this', w') ∧
    get "annotations" this' =
      VArr ([] ++ [VObj (<["timestamp" := VTime (clock empty_world + elapsed (ticks empty_world))]>
                           {[ "notes" := VStr "a van" ]})]).
Proof.
  apply (addAnnotation_appends {[ "notes" := VStr "a van" ]} [] fresh_instance empty_world);
    reflexivity.
Defined.

Lemma create_findById_witness :
  ∃ this w', run (create sample_draft) empty_world = (Returned this, w') ∧
             get "id" this = VStr (uuid_of (drawn empty_world)) ∧
             get "status" this = or_else (get "status" sample_draft) (VStr "pending") ∧
             run (findById (get "id" this)) w' = (Returned this, w').
Proof.
  apply (create_findById sample_draft empty_world).
  - apply store_inv_empty.
  - apply not_elem_of_empty.
  - vm_compute. reflexivity.
  - reflexivity.
Defined.

Lemma occlusionSummary_counts_witness :
  ∃ summary, occlusionSummary sample_instance = Ret (VObj summary) ∧
    ∀ k, k ∈ level_names →
      summary !! k =
      Some (of_nat (length (filter (λ v, level_of v = VStr k) sample_vehicles))).
Proof.
  apply (occlusionSummary_counts sample_instance sample_vehicles).
  - vm_compute. reflexivity.
  - repeat constructor.
Defined.

End Detection.
