(* ===== verification/Lifecycle.v ===== *)
(** * The job life cycle: the specification and the refinement

    The specification (spec.md, section 4.3) gives the life cycle of a
    detection job as a state machine: [pending] to [processing] to
    [completed] or [failed], [cancelled] from [pending] or [processing],
    each transition with its side effect on the two processing times and
    on the error details, every other transition refused.  This file
    states that machine ([Lifecycle.transition]), relates an instance of
    the class [Detection] to a state of it ([Lifecycle.abs]) and shows
    that [Detection.updateStatus] implements every transition the machine
    allows ([updateStatus_refines]).  The converse fails: the class
    accepts the transitions the machine refuses
    ([updateStatus_exceeds]). *)

From S2P Require Import Prelude Json Task DataService DetectionModel.

Module Lifecycle.
Import Js Task DataService Detection.

(** ** The machine of the specification *)

Inductive status := Pending | Processing | Completed | Failed | Cancelled.

#[export] Instance status_eq_dec : EqDecision status.
Proof. solve_decision. Defined.

Definition terminal (s : status) : bool :=
  match s with Completed | Failed | Cancelled => true | _ => false end.

Definition allowed (from to : status) : bool :=
  match from, to with
  | Pending, Processing
  | Processing, Completed | Processing, Failed
  | Pending, Cancelled | Processing, Cancelled => true
  | _, _ => false
  end.

Record job := Job {
  job_status : status;
  job_start : option Z;
  job_end : option Z;
  job_error : value
}.

(** The side effect of a transition that is allowed. *)
Definition effect (now : Z) (to : status) (error : value) (j : job) : job :=
  match to with
  | Processing => Job Processing (Some now) (job_end j) (job_error j)
  | Completed => Job Completed (job_start j) (Some now) (job_error j)
  | Failed => Job Failed (job_start j) (Some now) error
  | Cancelled =>
      Job Cancelled (job_start j) (Some (default now (job_end j))) (job_error j)
  | Pending => j
  end.

(** [None] is [InvalidTransition]: the job is left as it was. *)
Definition transition (now : Z) (to : status) (error : value) (j : job) : option job :=
  if allowed (job_status j) to then Some (effect now to error j) else None.

(** The times a state has: none before the job starts, a start while it
    runs, an end once it is over, the start not after the end. *)
Definition wf (j : job) : Prop :=
  match job_status j with
  | Pending => job_start j = None ∧ job_end j = None
  | Processing => is_Some (job_start j) ∧ job_end j = None
  | _ => is_Some (job_end j)
  end ∧
  match job_start j, job_end j with
  | Some s, Some e => (s ≤ e)%Z
  | _, _ => True
  end.

(** The jobs reachable from a new one. *)
Inductive reachable : job → Prop :=
| reachable_new error : reachable (Job Pending None None error)
| reachable_step now to error j j' :
    reachable j →
    (∀ s, job_start j = Some s → (s ≤ now)%Z) →
    transition now to error j = Some j' →
    reachable j'.

(** ** Instances as states *)

Definition status_name (s : status) : string :=
  match s with
  | Pending => "pending" | Processing => "processing" | Completed => "completed"
  | Failed => "failed" | Cancelled => "cancelled"
  end.

Definition status_of (v : value) : option status :=
  match v with
  | VStr s => list_find (λ x, status_name x = s)
                [Pending; Processing; Completed; Failed; Cancelled] ≫= λ p, Some p.2
  | _ => None
  end.

(** A time that is set, a time that is not, or no time at all. *)
Definition time_of (v : value) : option (option Z) :=
  match v with
  | VTime t => Some (Some t)
  | _ => if truthy v then None else Some None
  end.

Definition abs (this : value) : option job :=
  s ← status_of (get "status" this);
  start ← time_of (get "processingStartTime" this);
  stop ← time_of (get "processingEndTime" this);
  Some (Job s start stop (get "errorDetails" this)).

(** The fields [abs] reads. *)
Definition abs_keys : list string :=
  ["status"; "processingStartTime"; "processingEndTime"; "errorDetails"].

(** ** Lemmas on the machine *)

Lemma transition_wf now to error j j' :
  wf j → (∀ s, job_start j = Some s → (s ≤ now)%Z) →
  transition now to error j = Some j' → wf j'.
Proof.
  unfold transition, wf. intros [Hw Hle] Hnow Ht.
  destruct j as [[] start stop e], to; simpl in *; simplify_eq; simpl;
    destruct Hw as [Hs He]; simplify_eq; simpl;
    repeat split; eauto; destruct start; simpl; eauto.
Qed.

Lemma reachable_wf j : reachable j → wf j.
Proof.
  induction 1 as [|now to error j j' _ IH Hnow Ht]; [by repeat split|].
  by eapply transition_wf.
Qed.

(** No transition leaves a terminal state. *)
Lemma transition_terminal now to error j :
  terminal (job_status j) = true → transition now to error j = None.
Proof. unfold transition. by destruct (job_status j), to. Qed.

(** ** The refinement *)

Lemma status_of_name s : status_of (VStr (status_name s)) = Some s.
Proof. by destruct s. Qed.

Lemma abs_ext this this' :
  (∀ k, k ∈ abs_keys → get k this' = get k this) → abs this' = abs this.
Proof. intros Hk. unfold abs. by rewrite !Hk by in_list. Qed.

Lemma abs_start this j :
  abs this = Some j →
  truthy (get "processingStartTime" this) = bool_decide (is_Some (job_start j)) ∧
  truthy (get "processingEndTime" this) = bool_decide (is_Some (job_end j)) ∧
  get "errorDetails" this = job_error j ∧
  status_of (get "status" this) = Some (job_status j).
Proof.
  unfold abs, time_of. intros Ha.
  destruct (status_of _) as [s|]; [|done]. simpl in Ha.
  destruct (get "processingStartTime" this) eqn:E1; simpl in *;
    repeat case_match; simplify_eq; simpl;
    destruct (get "processingEndTime" this) eqn:E2; simpl in *;
    repeat case_match; simplify_eq; simpl; done.
Qed.

Section refinement.
Context `{Runtime} `{Coercions}.
Implicit Types (this : value) (w : world) (j : job).

Lemma time_of_unset v : time_of v = Some None → truthy v = false.
Proof. unfold time_of. destruct v; repeat case_match; naive_solver. Qed.

Lemma time_of_set v t : time_of v = Some (Some t) → v = VTime t.
Proof. unfold time_of. destruct v; repeat case_match; naive_solver. Qed.

(** What [abs] makes of the instance [updateStatus] saves. *)
Lemma abs_marked_fields to error now this start stop :
  get "processingStartTime" (marked (VStr (status_name to)) error now this) = start →
  get "processingEndTime" (marked (VStr (status_name to)) error now this) = stop →
  abs (marked (VStr (status_name to)) error now this) =
  (a ← time_of start; b ← time_of stop;
   Some (Job to a b (if truthy error then error else get "errorDetails" this))).
Proof.
  intros <- <-. unfold abs.
  by rewrite get_marked_status, status_of_name, get_marked_error.
Qed.

(** The instance [updateStatus] saves is the state the machine moves to. *)
Lemma abs_marked now to error this j j' :
  abs this = Some j → wf j →
  transition now to error j = Some j' →
  truthy error = bool_decide (to = Failed) →
  abs (marked (VStr (status_name to)) error now this) = Some j'.
Proof.
  intros Ha [Hw _] Ht He. unfold transition in Ht.
  destruct (allowed (job_status j) to) eqn:Hal; [|done]. simplify_eq.
  unfold abs in Ha. destruct (status_of _) as [s|]; [|done]. simpl in Ha.
  destruct (time_of (get "processingStartTime" this)) as [start|] eqn:E1; [|done].
  destruct (time_of (get "processingEndTime" this)) as [stop|] eqn:E2; [|done].
  simpl in Ha. simplify_eq. simpl in *.
  destruct s, to; try done; destruct Hw as [Hw1 Hw2]; cbn in Hw1, Hw2;
    simplify_eq; rewrite ?bool_decide_true, ?bool_decide_false in He by done.
  - erewrite abs_marked_fields;
      [|by apply get_marked_start_set, time_of_unset|by apply get_marked_end_other].
    by rewrite E2, He.
  - erewrite abs_marked_fields;
      [|by apply get_marked_start_other|by apply get_marked_end_set, time_of_unset].
    by rewrite E1, He.
  - erewrite abs_marked_fields;
      [|by apply get_marked_start_other|by apply get_marked_end_set, time_of_unset].
    by rewrite E1, He.
  - erewrite abs_marked_fields;
      [|by apply get_marked_start_other|by apply get_marked_end_set, time_of_unset].
    by rewrite E1, He.
  - erewrite abs_marked_fields;
      [|by apply get_marked_start_other|by apply get_marked_end_set, time_of_unset].
    by rewrite E1, He.
Qed.

(** C6: the class implements the machine.  When an instance stands for
    the state [j] of the life cycle and the machine moves from [j] to [j']
    at the reading of the clock, [updateStatus] with the name of the new
    status (and error details exactly when the job fails) returns an
    instance that stands for [j']. *)
Theorem updateStatus_refines to error this j j' w :
  store_ok detectionsFile w → sound this = true →
  abs this = Some j → wf j →
  transition (clock w + elapsed (ticks w)) to error j = Some j' →
  truthy error = bool_decide (to = Failed) →
  ∃ this' w', run (updateStatus (VStr (status_name to)) error this) w =
                (Returned this', w') ∧
              abs this' = Some j' ∧ sound this' = true.
Proof.
  intros Hok Hs Ha Hw Ht He.
  destruct (updateStatus_returns (VStr (status_name to)) error this w Hok Hs)
    as (this' & w' & Hr & Hs' & _ & Hk).
  exists this', w'. split; [done|]. split; [|done].
  rewrite <- (abs_marked _ to error this j j') by done.
  apply abs_ext. intros k Hk'. apply Hk; revert Hk'; unfold abs_keys;
    rewrite !elem_of_cons, elem_of_nil; intros [->|[->|[->|[->|[]]]]]; in_list.
Qed.

(** C26: the class accepts what the machine refuses.  For an instance that
    stands for a finished job, the machine refuses the move to
    [processing], and [updateStatus('processing')] returns an instance
    that stands for a job in progress. *)
Theorem updateStatus_exceeds this j w :
  store_ok detectionsFile w → sound this = true →
  abs this = Some j → terminal (job_status j) = true →
  transition (clock w + elapsed (ticks w)) Processing VNull j = None ∧
  ∃ this' w' j', run (updateStatus (VStr "processing") VNull this) w =
                   (Returned this', w') ∧
                 abs this' = Some j' ∧ job_status j' = Processing.
Proof.
  intros Hok Hs Ha Hter. split; [by apply transition_terminal|].
  destruct (updateStatus_returns (VStr "processing") VNull this w Hok Hs)
    as (this' & w' & Hr & _ & _ & Hk).
  set (now := (clock w + elapsed (ticks w))%Z) in *.
  assert (abs this' = abs (marked (VStr (status_name Processing)) VNull now this)) as Habs.
  { apply abs_ext. intros k Hk'. apply Hk; revert Hk'; unfold abs_keys;
      rewrite !elem_of_cons, elem_of_nil; intros [->|[->|[->|[->|[]]]]]; in_list. }
  unfold abs in Ha. destruct (status_of _) as [s|]; [|done]. simpl in Ha.
  destruct (time_of (get "processingStartTime" this)) as [start|] eqn:E1; [|done].
  destruct (time_of (get "processingEndTime" this)) as [stop|] eqn:E2; [|done].
  exists this', w'. rewrite Habs. destruct start as [t|].
  - apply time_of_set in E1 as Ht.
    erewrite abs_marked_fields;
      [|by apply get_marked_start_kept; rewrite Ht|by apply get_marked_end_other].
    rewrite E1, E2. by eexists.
  - erewrite abs_marked_fields;
      [|by apply get_marked_start_set, time_of_unset|by apply get_marked_end_other].
    rewrite E2. by eexists.
Qed.

End refinement.

(** ** The properties at concrete inputs *)

Lemma updateStatus_refines_witness :
  ∃ this' w', run (updateStatus (VStr (status_name Processing)) VNull fresh_instance)
                empty_world = (Returned this', w') ∧
              abs this' = Some (Job Processing (Some 1%Z) None (VObj ∅)) ∧
              sound this' = true.
Proof.
  apply (updateStatus_refines Processing VNull fresh_instance
           (Job Pending None None (VObj ∅)) _ empty_world); try reflexivity.
  by repeat split.
Defined.

Lemma updateStatus_exceeds_witness :
  transition (clock finished_world + elapsed (ticks finished_world)) Processing VNull
    (Job Completed (Some 0%Z) (Some 5000%Z) (VObj ∅)) = None ∧
  ∃ this' w' j', run (updateStatus (VStr "processing") VNull finished_instance)
                   finished_world = (Returned this', w') ∧
                 abs this' = Some j' ∧ job_status j' = Processing.
Proof.
  apply (updateStatus_exceeds finished_instance
           (Job Completed (Some 0%Z) (Some 5000%Z) (VObj ∅)) finished_world);
    vm_compute; reflexivity.
Defined.

End Lifecycle.
