(* ===== verification/Statistics.v ===== *)
(** * Statistics of the record store
    ([getStats], [calculateVehicleStats] and [calculateOcclusionStats] of
    [backend/src/services/dataService.js])

    The counters of [calculateVehicleStats] are the properties of an
    object literal, keyed by [vehicle.type]; a type that names a property
    of [Object.prototype] is outside the model.  The rate of
    [calculateOcclusionStats] is computed exactly and printed by
    [toFixed(2)]. *)

From S2P Require Import Prelude Json Task Http DataService.

Module Statistics.
Import Js Task Http DataService.

Section stats.
Context `{Runtime} `{Coercions}.

(** [detection.vehicles], when it is truthy: the vehicles [forEach]
    visits *)
Definition vehicles_of (detection : value) : task (list value) :=
  vehicles ← property "vehicles" detection;
  if truthy vehicles
  then as_array "detection.vehicles" "forEach" vehicles
  else mret [].

(** [vehicleTypes[vehicle.type] = (vehicleTypes[vehicle.type] || 0) + 1] *)
Definition count_type (vehicleTypes : gmap string value) (vehicle : value)
  : task (gmap string value) :=
  type ← property "type" vehicle;
  let key := to_string type in
  mret (<[key := plus (or_else (default VUndefined (vehicleTypes !! key)) (of_Z 0))
                      (of_Z 1)]> vehicleTypes).

Definition calculateVehicleStats (detections : value) : task value :=
  detections ← as_array "detections" "forEach" detections;
  VObj <$> for_each (λ vehicleTypes detection,
                       vehicles ← vehicles_of detection;
                       for_each count_type vehicleTypes vehicles)
                    ∅ detections.

(** [totalVehicles++; if (vehicle.occluded) occludedVehicles++] *)
Definition count_occluded (counters : Z * Z) (vehicle : value) : task (Z * Z) :=
  occluded ← property "occluded" vehicle;
  mret ((counters.1 + 1)%Z,
        if truthy occluded then (counters.2 + 1)%Z else counters.2).

(** [(occludedVehicles / totalVehicles * 100).toFixed(2)], or [0] *)
Definition occlusionRate (totalVehicles occludedVehicles : Z) : value :=
  if (0 <? totalVehicles)%Z
  then VStr (to_fixed2 (inject_Z occludedVehicles / inject_Z totalVehicles * 100))
  else of_Z 0.

Definition calculateOcclusionStats (detections : value) : task value :=
  detections ← as_array "detections" "forEach" detections;
  counters ← for_each (λ counters detection,
                         vehicles ← vehicles_of detection;
                         for_each count_occluded counters vehicles)
                      (0, 0)%Z detections;
  mret (obj [("totalVehicles", of_Z counters.1);
             ("occludedVehicles", of_Z counters.2);
             ("occlusionRate", occlusionRate counters.1 counters.2)]).

(** [l.slice(-10).reverse()] *)
Definition recent (l : list value) : list value :=
  reverse (drop (length l - 10) l).

(** [userId ? all.filter(x => x.userId === userId) : all] *)
Definition of_user (receiver : string) (userId all : value) : task value :=
  if truthy userId
  then l ← as_array receiver "filter" all; VArr <$> filter_by "userId" userId l
  else mret all.

Definition getStats (userId : value) : task value :=
  let userId := if strict_eq userId VUndefined then VNull else userId in
  uploads ← getUploads;
  detections ← getDetections;
  userUploads ← of_user "uploads" userId uploads;
  userDetections ← of_user "detections" userId detections;
  _ ← property_of "length" userUploads;
  _ ← property_of "length" userDetections;
  recentActivity ← recent <$> as_array "userUploads" "slice" userUploads;
  vehicleStats ← calculateVehicleStats userDetections;
  occlusionStats ← calculateOcclusionStats userDetections;
  mret (obj [("totalUploads", length_of userUploads);
             ("totalDetections", length_of userDetections);
             ("recentActivity", VArr recentActivity);
             ("vehicleStats", vehicleStats);
             ("occlusionStats", occlusionStats)]).

End stats.

(** ** What the properties speak of *)

(** A detection as the models store it: an object whose vehicles, if any,
    are under [results]. *)
Definition flat (detection : value) : Prop :=
  nullish detection = false ∧ truthy (get "vehicles" detection) = false.

Definition no_statistics : value :=
  obj [("totalVehicles", of_Z 0); ("occludedVehicles", of_Z 0);
       ("occlusionRate", of_Z 0)].

(** The records [getStats] counts for [userId]. *)
Definition selected (userId : value) (l : list value) : list value :=
  let userId := if strict_eq userId VUndefined then VNull else userId in
  if truthy userId then filter (λ x, strict_eq (get "userId" x) userId = true) l
  else l.

(** ** Lemmas *)

Section facts.
Context `{Runtime} `{Coercions}.
Implicit Types (w : world) (l : list value).

Lemma filter_by_defined key v l :
  Forall (λ x, nullish x = false) l →
  filter_by key v l = Ret (filter (λ x, strict_eq (get key x) v = true) l).
Proof.
  induction 1 as [|x l Hx _ IH]; [done|]. cbn [filter_by]. rewrite Hx, IH.
  cbn [mbind task_bind bind mret task_ret]. rewrite filter_cons.
  by destruct (strict_eq (get key x) v).
Qed.

Lemma vehicles_of_flat detection : flat detection → vehicles_of detection = Ret [].
Proof.
  intros [Hn Hv]. unfold vehicles_of, property. rewrite Hn.
  cbn [mbind task_bind bind]. by rewrite Hv.
Qed.

(** Detections without top-level vehicles leave the counters alone. *)
Lemma for_each_flat {B} (f : B → value → task B) (b : B) l :
  Forall flat l →
  for_each (λ b detection, vehicles ← vehicles_of detection; for_each f b vehicles)
    b l = Ret b.
Proof.
  induction 1 as [|d l Hd _ IH]; [done|]. cbn [for_each].
  by rewrite vehicles_of_flat.
Qed.

Lemma calculateVehicleStats_flat l :
  Forall flat l → calculateVehicleStats (VArr l) = Ret (obj []).
Proof. intros Hl. unfold calculateVehicleStats. cbn. by rewrite for_each_flat. Qed.

Lemma calculateOcclusionStats_flat l :
  Forall flat l → calculateOcclusionStats (VArr l) = Ret no_statistics.
Proof. intros Hl. unfold calculateOcclusionStats. cbn. by rewrite for_each_flat. Qed.

Lemma of_user_defined receiver userId l :
  Forall (λ x, nullish x = false) l →
  of_user receiver userId (VArr l) =
  Ret (VArr (if truthy userId
             then filter (λ x, strict_eq (get "userId" x) userId = true) l else l)).
Proof.
  intros Hl. unfold of_user. destruct (truthy userId); [|done].
  cbn. by rewrite filter_by_defined.
Qed.

(** C36: the statistics do not see the vehicles.  [getStats] reads the
    vehicles of a detection from [detection.vehicles]; the models store
    them under [detection.results.vehicles].  For a store whose detections
    have no [vehicles] of their own, whatever their results hold,
    [getStats] counts the uploads and detections of the user and answers
    empty vehicle statistics and an occlusion rate of zero. *)
Theorem getStats_ignores_results userId w :
  store_ok uploadsFile w → store_ok detectionsFile w →
  Forall (λ x, nullish x = false) (records uploadsFile w) →
  Forall flat (records detectionsFile w) →
  ∃ stats, run (getStats userId) w = (Returned stats, w) ∧
    get "totalUploads" stats = of_nat (length (selected userId (records uploadsFile w))) ∧
    get "totalDetections" stats =
      of_nat (length (selected userId (records detectionsFile w))) ∧
    get "vehicleStats" stats = obj [] ∧
    get "occlusionStats" stats = no_statistics.
Proof.
  intros Hu Hd Hlu Hld. unfold getStats, getUploads, getDetections, selected.
  do 2 (rewrite run_bind, run_readData; cbv beta iota).
  rewrite (store_ok_elements _ _ Hu), (store_ok_elements _ _ Hd).
  set (uid := if strict_eq userId VUndefined then VNull else userId).
  rewrite !of_user_defined by (done || by eapply Forall_impl; [exact Hld|intros ? []]).
  cbn [run mbind task_bind bind property_of nullish as_array fmap task_fmap].
  assert (Forall flat (if truthy uid
            then filter (λ x, strict_eq (get "userId" x) uid = true)
                   (records detectionsFile w)
            else records detectionsFile w)) as Hflat
    by (destruct (truthy uid); [by apply Forall_filter_keep|done]).
  rewrite calculateVehicleStats_flat, calculateOcclusionStats_flat by done.
  eexists. split; [reflexivity|]. by rewrite !length_of_arr.
Qed.

End facts.

(** ** The properties at concrete inputs *)

(** A store with one detection of one car, as [Detection.save] writes it. *)
Definition one_car : world :=
  set_files <[detectionsFile :=
                Json (VArr [obj [("id", VStr "d1"); ("userId", VStr "u1");
                                 ("results",
                                  obj [("vehicles",
                                        VArr [obj [("type", VStr "car")]])])]])]>
    empty_world.

Lemma getStats_ignores_results_witness :
  ∃ stats, run (getStats (VStr "u1")) one_car = (Returned stats, one_car) ∧
    get "totalUploads" stats =
      of_nat (length (selected (VStr "u1") (records uploadsFile one_car))) ∧
    get "totalDetections" stats =
      of_nat (length (selected (VStr "u1") (records detectionsFile one_car))) ∧
    get "vehicleStats" stats = obj [] ∧
    get "occlusionStats" stats = no_statistics.
Proof.
  apply (getStats_ignores_results (VStr "u1") one_car).
  - reflexivity.
  - reflexivity.
  - constructor.
  - by repeat constructor.
Defined.

End Statistics.
