(* ===== verification/ErrorHandler.v ===== *)
(** * The error middleware ([backend/src/middleware/errorHandler.js])

    [errorHandler] turns the error a handler passed to [next] into a
    response: a sequence of tests on the error, each replacing the working
    copy [error], then the status and the body.  [asyncHandler] wraps a
    handler so that its rejection reaches [next]; [route] is the two
    together, as the server mounts them.

    [{...err}] copies the own enumerable properties of [err].  The model
    keeps no such flag and copies every property: the copy is read for
    [status], [message], [field], [errors] and [retryAfter] only, and
    [message] is assigned from [err] right after, so the difference is not
    observable.  [process.env.NODE_ENV] is the argument [node_env]. *)

From S2P Require Import Prelude Json Task Http.

Module ErrorHandler.
Import Js Task Http.

Section handler.
Context `{Coercions}.

(** [{ message, status }] *)
Definition failure (message : string) (status : Z) : value :=
  obj [("message", VStr message); ("status", of_Z status)].

(** The branch for a duplicate key: the first key of [err.keyValue]. *)
Definition duplicate_key (err : value) : task value :=
  if nullish (get "keyValue" err)
  then Throw (type_error "Cannot convert undefined or null to object")
  else match keys (get "keyValue" err) with
       | field :: _ =>
           Ret (obj [("message", VStr (capitalize field +:+ " already exists"));
                     ("status", of_Z 400);
                     ("field", VStr field)])
       | [] =>
           Throw (type_error "Cannot read properties of undefined (reading 'charAt')")
       end.

(** The branch for a validation error: the messages of [err.errors],
    joined. *)
Definition validation (err : value) : task value :=
  if nullish (get "errors" err)
  then Throw (type_error "Cannot convert undefined or null to object")
  else
    let vals := values (get "errors" err) in
    if existsb nullish vals
    then Throw (type_error "Cannot read properties of undefined (reading 'message')")
    else Ret (obj [("message", VStr (join ", " (get "message" <$> vals)));
                   ("status", of_Z 400);
                   ("errors", get "errors" err)]).

(** [err.message && err.message.includes('Invalid file type')] *)
Definition invalid_file_type (err : value) : task bool :=
  let message := get "message" err in
  if negb (truthy message) then Ret false
  else match message with
       | VStr s => Ret (str_includes "Invalid file type" s)
       | VTime t => Ret (str_includes "Invalid file type" (time_to_string t))
       | VArr l => Ret (includes (VStr "Invalid file type") l)
       | _ => Throw (not_a_function "err.message" "includes")
       end.

(** [let error = { ...err }; error.message = err.message] *)
Definition copy_of (err : value) : value :=
  set "message" (get "message" err) (VObj (props err)).

(** The status and the body, from [err] and the working copy [error]. *)
Definition respond (node_env err error : value) : response :=
  let status :=
    or_else (get "status" error) (or_else (get "statusCode" err) (of_Z 500)) in
  let message := or_else (get "message" error) (VStr "Server Error") in
  let response :=
    VObj (spread {[ "success" := VBool false; "message" := message ]}
            (if strict_eq node_env (VStr "development")
             then {[ "stack" := get "stack" err; "error" := err ]}
             else ∅)) in
  let response :=
    if truthy (get "field" error) then set "field" (get "field" error) response
    else response in
  let response :=
    if truthy (get "errors" error) then set "errors" (get "errors" error) response
    else response in
  let response :=
    if truthy (get "retryAfter" error)
    then set "retryAfter" (get "retryAfter" error) response
    else response in
  Response status response.

Definition errorHandler (node_env : value) (err : value) : task response :=
  if nullish err
  then Throw (type_error "Cannot read properties of undefined (reading 'message')")
  else
  let name := get "name" err in
  let code := get "code" err in
  let error := copy_of err in
  let error :=
    if strict_eq name (VStr "CastError") then failure "Resource not found" 404
    else error in
  error ← (if strict_eq code (of_Z 11000) then duplicate_key err else Ret error);
  error ← (if strict_eq name (VStr "ValidationError") then validation err
           else Ret error);
  let error :=
    if strict_eq name (VStr "JsonWebTokenError") then failure "Invalid token" 401
    else error in
  let error :=
    if strict_eq name (VStr "TokenExpiredError") then failure "Token expired" 401
    else error in
  let error :=
    if strict_eq code (VStr "LIMIT_FILE_SIZE") then failure "File size too large" 400
    else error in
  let error :=
    if strict_eq code (VStr "LIMIT_FILE_COUNT")
    then failure "Too many files uploaded" 400
    else error in
  let error :=
    if strict_eq code (VStr "LIMIT_UNEXPECTED_FILE")
    then failure "Unexpected file field" 400
    else error in
  invalid ← invalid_file_type err;
  let error :=
    if invalid : bool
    then failure "Invalid file type. Only images and videos are allowed" 400
    else error in
  let error :=
    if strict_eq name (VStr "MongoError") || strict_eq name (VStr "MongooseError")
    then failure "Database connection error" 500
    else error in
  let error :=
    if strict_eq code (VStr "ECONNABORTED") || strict_eq code (VStr "ETIMEDOUT")
    then failure "Request timeout" 408
    else error in
  let error :=
    if strict_eq (get "status" err) (of_Z 429)
    then obj [("message", VStr "Too many requests. Please try again later.");
              ("status", of_Z 429);
              ("retryAfter", or_else (get "retryAfter" err) (of_Z 60))]
    else error in
  Ret (respond node_env err error).

(** [notFound]: the error it hands to [next]. *)
Definition notFound (req : value) : passed :=
  NextError (set "status" (of_Z 404)
               (error "Error" ("Not found - " +:+ to_string (get "originalUrl" req)))).

(** [new AppError(message, statusCode)] *)
Definition AppError (message statusCode : value) : value :=
  obj [("name", VStr "Error");
       ("message", VStr (if strict_eq message VUndefined then ""
                         else to_string message));
       ("statusCode", statusCode);
       ("status", VStr (if starts_with "4" (to_string statusCode)
                        then "fail" else "error"));
       ("isOperational", VBool true)].

End handler.

(** [asyncHandler(fn)]: the rejection of [fn] goes to [next]. *)
Definition asyncHandler (fn : value → task response) (req : value) : task passed :=
  try_catch (Answer <$> fn req) (λ err, Ret (NextError err)).

(** A route as the server mounts it: the handler, and [errorHandler] for
    what its wrapper passes to [next]. *)
Definition route `{Coercions} (node_env : value) (fn : value → task response)
    (req : value) : task response :=
  try_catch (fn req) (errorHandler node_env).

(** ** What the properties speak of *)

(** The statuses the branches of [errorHandler] assign. *)
Definition assigned_statuses : list Z := [404; 400; 401; 500; 408; 429]%Z.

(** The names and the codes the tests of [errorHandler] look for, and an
    error none of its tests recognises. *)
Definition known_names : list value :=
  VStr <$> ["CastError"; "ValidationError"; "JsonWebTokenError";
            "TokenExpiredError"; "MongoError"; "MongooseError"].

Definition known_codes : list value :=
  [of_Z 11000; VStr "LIMIT_FILE_SIZE"; VStr "LIMIT_FILE_COUNT";
   VStr "LIMIT_UNEXPECTED_FILE"; VStr "ECONNABORTED"; VStr "ETIMEDOUT"].

Definition unrecognised `{Coercions} (err : value) : Prop :=
  nullish err = false ∧
  includes (get "name" err) known_names = false ∧
  includes (get "code" err) known_codes = false ∧
  strict_eq (get "status" err) (of_Z 429) = false ∧
  invalid_file_type err = Ret false.

(** An error some test recognises, and a working copy whose status is
    one of the assigned ones. *)
Definition recognised `{Coercions} (err : value) : Prop :=
  includes (get "name" err) known_names = true ∨
  includes (get "code" err) known_codes = true ∨
  strict_eq (get "status" err) (of_Z 429) = true ∨
  invalid_file_type err = Ret true.

Definition assigned (error : value) : Prop :=
  ∃ z, z ∈ assigned_statuses ∧ get "status" error = of_Z z.

(** An upload the file filter of the upload routes refuses. *)
Definition too_large : value :=
  set "code" (VStr "LIMIT_FILE_SIZE") (error "MulterError" "File too large").

(** A message no test of [errorHandler] reads anything into. *)
Definition plain_message (msg : string) : Prop :=
  msg ≠ "" ∧ str_includes "Invalid file type" msg = false.

(** ** Lemmas *)

Section facts.
Context `{Runtime} `{Coercions}.
Implicit Types (err req : value) (w : world).

Lemma run_asyncHandler_answer fn req w r w' :
  run (fn req) w = (Returned r, w') →
  run (asyncHandler fn req) w = (Returned (Answer r), w').
Proof.
  intros Hr. unfold asyncHandler. by rewrite run_try_catch, run_fmap, Hr.
Qed.

Lemma run_asyncHandler_throw fn req w e w' :
  run (fn req) w = (Thrown e, w') →
  run (asyncHandler fn req) w = (Returned (NextError e), w').
Proof.
  intros Hr. unfold asyncHandler. by rewrite run_try_catch, run_fmap, Hr.
Qed.

Lemma run_route_answer node_env fn req w r w' :
  run (fn req) w = (Returned r, w') →
  run (route node_env fn req) w = (Returned r, w').
Proof. intros Hr. unfold route. by rewrite run_try_catch, Hr. Qed.

Lemma run_route_throw node_env fn req w e w' :
  run (fn req) w = (Thrown e, w') →
  run (route node_env fn req) w = run (errorHandler node_env e) w'.
Proof. intros Hr. unfold route. by rewrite run_try_catch, Hr. Qed.

(** [route] is the wrapper followed by the error middleware. *)
Lemma run_route_asyncHandler node_env fn req w :
  run (route node_env fn req) w =
  match run (asyncHandler fn req) w with
  | (Returned (Answer r), w') => (Returned r, w')
  | (Returned (NextError e), w') => run (errorHandler node_env e) w'
  | (Returned (Next _), w') => run (route node_env fn req) w
  | (Thrown e, w') => (Thrown e, w')
  end.
Proof.
  unfold route, asyncHandler. rewrite !run_try_catch, run_fmap.
  by destruct (run (fn req) w) as [[] ?].
Qed.

(** An error no test recognises is answered from its own fields. *)
Lemma errorHandler_unrecognised node_env err :
  unrecognised err →
  errorHandler node_env err = Ret (respond node_env err (copy_of err)).
Proof.
  intros (Hn & Hname & Hcode & Hstatus & Hfile). unfold errorHandler.
  unfold includes, known_names, known_codes in Hname, Hcode.
  cbn [existsb fmap list_fmap] in Hname, Hcode.
  rewrite !orb_false_iff in Hname, Hcode. destruct_and!.
  repeat match goal with Heq : _ = false |- _ => rewrite Heq; clear Heq end.
  by rewrite Hfile.
Qed.

Lemma unrecognised_error name msg :
  VStr name ∉ known_names → plain_message msg → unrecognised (error name msg).
Proof.
  intros Hname [Hm Hi]. split; [done|]. split; [|split; [done|split; [done|]]].
  - change (get "name" (error name msg)) with (VStr name).
    unfold includes. apply existsb_false_Forall, Forall_forall.
    intros x Hx. destruct (strict_eq (VStr name) x) eqn:E; [|done].
    destruct x; try done. apply strict_eq_str in E as ->. done.
  - unfold invalid_file_type.
    change (get "message" (error name msg)) with (VStr msg).
    rewrite (proj2 (truthy_str msg) Hm). cbn. by rewrite Hi.
Qed.

(** What a handler throws when it calls something that is not a function
    is answered 500, with the message of the [TypeError]. *)
Lemma errorHandler_type_error node_env msg :
  strict_eq node_env (VStr "development") = false → plain_message msg →
  errorHandler node_env (type_error msg) = Ret (Response (of_Z 500) (refusal msg)).
Proof.
  intros Hdev Hm. rewrite errorHandler_unrecognised.
  - unfold respond. rewrite Hdev. destruct Hm as [Hm _].
    destruct msg; [done|]. reflexivity.
  - apply unrecognised_error; [not_in_list|done].
Qed.

(** A route whose handler throws a [TypeError] answers 500 with its
    message, and the world is as the handler found it. *)
Lemma run_route_type_error node_env fn req w msg :
  strict_eq node_env (VStr "development") = false → plain_message msg →
  fn req = Throw (type_error msg) →
  run (route node_env fn req) w = (Returned (Response (of_Z 500) (refusal msg)), w).
Proof.
  intros Hdev Hm Hthrow. unfold route. rewrite run_try_catch, Hthrow. cbn [run].
  by rewrite errorHandler_type_error.
Qed.

(** *** The statuses of recognised errors *)

Lemma assigned_failure msg z : z ∈ assigned_statuses → assigned (failure msg z).
Proof. intros Hz. by exists z. Qed.

Lemma duplicate_key_assigned err e : duplicate_key err = Ret e → assigned e.
Proof.
  unfold duplicate_key. repeat case_match; try done. intros [= <-].
  exists 400%Z. split; [in_list|done].
Qed.

Lemma validation_assigned err e : validation err = Ret e → assigned e.
Proof.
  unfold validation. repeat case_match; try done. intros [= <-].
  exists 400%Z. split; [in_list|done].
Qed.

Lemma respond_assigned node_env err error :
  assigned error →
  ∃ z, z ∈ assigned_statuses ∧ status (respond node_env err error) = of_Z z.
Proof.
  intros (z & Hz & Hs). exists z. split; [done|]. unfold respond. cbn [status].
  rewrite Hs. apply or_else_truthy. rewrite truthy_of_Z.
  apply bool_decide_eq_true. intros ->. revert Hz. unfold assigned_statuses.
  rewrite !elem_of_cons, elem_of_nil. lia.
Qed.

Lemma assigned_if (c : bool) a b :
  (c = true → assigned a) → (c = false → assigned b) →
  assigned (if c then a else b).
Proof. destruct c; auto. Qed.

Lemma recognised_fired err b :
  recognised err → invalid_file_type err = Ret b →
  includes (get "name" err) known_names = false →
  includes (get "code" err) known_codes = false →
  strict_eq (get "status" err) (of_Z 429) = false → b = true.
Proof. intros [?|[?|[?|Hr]]] Hi ???; congruence. Qed.

(** The branch of a test that fired leaves an assigned status. *)
Ltac fired :=
  first [ by apply assigned_failure; in_list
        | by eexists; split; [|reflexivity]; in_list ].

(** C9: the answer to a recognised error is well formed.  When one of the
    tests of [errorHandler] recognises the error (by its name, its code,
    its status 429 or its message) and the handler answers, the status of
    the answer is one of 400, 401, 404, 408, 429 and 500: the last test
    that fired decides, and what the error itself carries as [status] or
    [statusCode] is not used. *)
Theorem errorHandler_recognised node_env err r :
  recognised err → errorHandler node_env err = Ret r →
  ∃ z, z ∈ assigned_statuses ∧ status r = of_Z z.
Proof.
  intros Hrec. unfold errorHandler. destruct (nullish err); [done|].
  destruct (strict_eq (get "code" err) (of_Z 11000)) eqn:E2;
    [destruct (duplicate_key err) as [e1| |] eqn:Hd; try done|];
  (destruct (strict_eq (get "name" err) (VStr "ValidationError")) eqn:E3;
    [destruct (validation err) as [e2| |] eqn:Hv; try done|]);
  (destruct (invalid_file_type err) as [b| |] eqn:Hi; try done);
  cbn [mbind task_bind bind]; intros [= <-]; apply respond_assigned.
  all: repeat (apply assigned_if; intros ?; [fired|]).
  all: try by eauto using duplicate_key_assigned, validation_assigned.
  exfalso. enough (b = true) by congruence.
  apply (recognised_fired err b Hrec Hi); [| |done];
    unfold includes, known_names, known_codes; cbn [existsb fmap list_fmap];
    repeat match goal with Ho : _ || _ = false |- _ =>
             apply orb_false_iff in Ho as [? ?] end;
    repeat match goal with Heq : _ = false |- _ => rewrite Heq; clear Heq end;
    done.
Qed.

(** C33: an [AppError] is answered with a status that is not a number.
    The constructor of [AppError] keeps the code in [statusCode] and sets
    [status] to the text [fail] or [error]; [errorHandler] reads [status]
    first, so the response status of an [AppError] is that text, whatever
    the code was. *)
Theorem errorHandler_AppError node_env msg code :
  strict_eq node_env (VStr "development") = false → plain_message msg →
  errorHandler node_env (AppError (VStr msg) (of_Z code)) =
  Ret (Response (VStr (if starts_with "4" (pretty code) then "fail" else "error"))
         (refusal msg)).
Proof.
  intros Hdev [Hm Hi]. destruct msg as [|a msg]; [done|].
  rewrite errorHandler_unrecognised.
  - unfold respond, AppError. rewrite Hdev, to_string_int.
    by destruct (starts_with "4" (pretty code)).
  - split; [done|]. split; [done|]. split; [done|]. split; [done|].
    unfold invalid_file_type.
    change (get "message" (AppError _ _)) with (VStr (String a msg)).
    cbn. by rewrite Hi.
Qed.

End facts.

(** ** The properties at concrete inputs *)

Lemma errorHandler_recognised_witness :
  ∃ z, z ∈ assigned_statuses ∧
       status (Response (of_Z 400) (refusal "File size too large")) = of_Z z.
Proof.
  apply (@errorHandler_recognised sample_coercions (VStr "production") too_large).
  - right. left. reflexivity.
  - reflexivity.
Defined.

Lemma errorHandler_AppError_witness :
  @errorHandler sample_coercions (VStr "production")
    (@AppError sample_coercions (VStr "Upload not found") (of_Z 404)) =
  Ret (Response (VStr "fail") (refusal "Upload not found")).
Proof.
  apply (@errorHandler_AppError sample_coercions (VStr "production")
           "Upload not found" 404); [reflexivity|].
  split; [done|reflexivity].
Defined.

End ErrorHandler.
