(* ===== verification/UserModel.v ===== *)
(** * The [User] model class ([backend/src/models/User.js])

    An instance is the object [this], as in [DetectionModel].  Passwords
    are hashed by [bcrypt], which is the runtime's ([Task.GenSalt],
    [Task.Hash], [Task.Compare]).  [create] and [save] assign the hash to
    the [password] of the object they were given; that object is the
    caller's and the callers do not read it again.

    A string is a sequence of code units below 256; the white space of
    the e-mail pattern is the white space among those. *)

From S2P Require Import Prelude Json Task DataService Http.

Module User.
Import Js Task DataService Http.

(** ** The constructor *)

Definition default_preferences : value :=
  obj [("theme", VStr "light");
       ("notifications", obj [("email", VBool true); ("push", VBool true)]);
       ("language", VStr "en")].

Definition default_stats : value :=
  obj [("totalUploads", of_Z 0); ("totalDetections", of_Z 0);
       ("totalProcessingTime", of_Z 0); ("lastUploadDate", VNull)].

Definition constructor (userData : value) : value :=
  obj [("id", get "id" userData);
       ("username", get "username" userData);
       ("email", get "email" userData);
       ("password", get "password" userData);
       ("firstName", get "firstName" userData);
       ("lastName", get "lastName" userData);
       ("role", or_else (get "role" userData) (VStr "user"));
       ("avatar", or_else (get "avatar" userData) VNull);
       ("isActive", if negb (strict_eq (get "isActive" userData) VUndefined)
                    then get "isActive" userData else VBool true);
       ("lastLogin", get "lastLogin" userData);
       ("preferences", or_else (get "preferences" userData) default_preferences);
       ("stats", or_else (get "stats" userData) default_stats);
       ("createdAt", get "createdAt" userData);
       ("updatedAt", get "updatedAt" userData)].

(** [new User(userData)] for any argument *)
Definition construct (userData : value) : task value :=
  if nullish userData
  then Throw (type_error "Cannot read properties of undefined (reading 'id')")
  else Ret (constructor userData).

(** ** Validation *)

(** [\s] among the code units below 256 *)
Definition is_space (c : Ascii.ascii) : bool :=
  let n := Ascii.nat_of_ascii c in
  ((9 <=? n) && (n <=? 13)) || (n =? 32) || (n =? 160).

Definition at_sign : Ascii.ascii := Ascii.ascii_of_nat 64.
Definition dot : Ascii.ascii := Ascii.ascii_of_nat 46.

(** [[^\s@]] *)
Definition plain (c : Ascii.ascii) : bool :=
  negb (is_space c) && negb (Ascii.eqb c at_sign).

(** [[^\s@]+\.[^\s@]+$]: a dot with something on each side, no space and
    no [@] anywhere *)
Fixpoint domain (l : list Ascii.ascii) : bool :=
  match l with
  | b :: ((c :: l') as rest) =>
      plain b &&
      ((Ascii.eqb c dot && negb (bool_decide (l' = [])) && forallb plain l')
       || domain rest)
  | _ => false
  end.

(** [^[^\s@]+@]: a non-empty run of plain characters up to the first [@],
    and what follows it *)
Fixpoint local_part (l : list Ascii.ascii) : option (list Ascii.ascii) :=
  match l with
  | a :: ((c :: l') as rest) =>
      if plain a
      then if Ascii.eqb c at_sign then Some l' else local_part rest
      else None
  | _ => None
  end.

Definition matches_email (s : string) : bool :=
  match local_part (String.list_ascii_of_string s) with
  | Some d => domain d
  | None => false
  end.

Section coercing.
Context `{Coercions}.

(** [emailRegex.test(email)]: the argument is made a string first *)
Definition isValidEmail (email : value) : bool := matches_email (to_string email).

(** [!x || x.length < n] *)
Definition too_short (x : value) (n : Q) : bool :=
  negb (truthy x) || lt (length_of x) n.

Definition validateRegistration (userData : value) : task (list value) :=
  if nullish userData
  then Throw (type_error "Cannot read properties of undefined (reading 'username')")
  else
    let errors := [] in
    let errors :=
      if too_short (get "username" userData) 3
      then errors ++ [VStr "Username must be at least 3 characters long"]
      else errors in
    let errors :=
      if negb (truthy (get "email" userData)) ||
         negb (isValidEmail (get "email" userData))
      then errors ++ [VStr "Valid email is required"]
      else errors in
    let errors :=
      if too_short (get "password" userData) 6
      then errors ++ [VStr "Password must be at least 6 characters long"]
      else errors in
    let errors :=
      if too_short (get "firstName" userData) 1
      then errors ++ [VStr "First name is required"]
      else errors in
    let errors :=
      if too_short (get "lastName" userData) 1
      then errors ++ [VStr "Last name is required"]
      else errors in
    Ret errors.

(** ** Virtual properties *)

Definition fullName (this : value) : value :=
  VStr (to_string (get "firstName" this) +:+ " " +:+ to_string (get "lastName" this)).

End coercing.

(** [{ ...this }] without [password] *)
Definition toJSON (this : value) : value := VObj (delete "password" (props this)).

(** ** Static methods *)

Section statics.
Context `{Runtime}.

Definition findById (id : value) : task value :=
  userData ← getUserById id;
  mret (if truthy userData then constructor userData else VNull).

Definition findByEmail (email : value) : task value :=
  userData ← getUserByEmail email;
  mret (if truthy userData then constructor userData else VNull).

Definition findByUsername (username : value) : task value :=
  users ← getUsers;
  l ← as_array "users" "find" users;
  userData ← find_by "username" username l;
  mret (if truthy userData then constructor userData else VNull).

(** [const salt = await bcrypt.genSalt(12); await bcrypt.hash(p, salt)] *)
Definition hashed (password : value) : task value :=
  salt ← trigger (GenSalt 12);
  VStr <$> trigger (Hash password salt).

Definition create (userData : value) : task value :=
  userData ← property_of "password" userData;
  userData ←
    (if truthy (get "password" userData)
     then h ← hashed (get "password" userData); mret (set "password" h userData)
     else mret userData);
  newUserData ← createUser userData;
  mret (constructor newUserData).

Definition findAll : task value :=
  usersData ← getUsers;
  l ← as_array "usersData" "map" usersData;
  VArr <$> mapM construct l.

(** ** Instance methods *)

(** The fields [save] hands to the record store. *)
Definition data_keys : list string :=
  ["username"; "email"; "password"; "firstName"; "lastName"; "role"; "avatar";
   "isActive"; "lastLogin"; "preferences"; "stats"].

Definition userData_of (this : value) : value :=
  obj ((λ k, (k, get k this)) <$> data_keys).

Definition save (this : value) : task value :=
  let userData := userData_of this in
  if truthy (get "id" this) then
    updatedData ← updateUser (get "id" this) userData;
    mret (if truthy updatedData then assign this updatedData else this)
  else
    userData ←
      (if truthy (get "password" this)
       then h ← hashed (get "password" userData); mret (set "password" h userData)
       else mret userData);
    newUserData ← createUser userData;
    mret (assign this newUserData).

Definition remove (this : value) : task bool :=
  if truthy (get "id" this) then deleteUser (get "id" this) else mret false.

Definition comparePassword (candidatePassword : value) (this : value) : task bool :=
  trigger (Compare candidatePassword (get "password" this)).

Definition updateLastLogin (this : value) : task value :=
  now ← trigger Now;
  save (set "lastLogin" (VTime now) this).

End statics.

Section methods.
Context `{Runtime} `{Coercions}.

(** [this.stats.k = v]: a class body is strict code, where assigning a
    property to a primitive throws; an array takes the property and
    serialises without it. *)
Definition set_stat (k : string) (v : value) (stats : value) : task value :=
  match stats with
  | VObj _ => Ret (set k v stats)
  | VArr _ => Ret stats
  | VUndefined | VNull =>
      Throw (type_error "Cannot set properties of undefined")
  | _ => Throw (type_error "Cannot create property on a primitive")
  end.

Definition incrementUploadStats (this : value) : task value :=
  stats ← set_stat "totalUploads"
             (plus (get "totalUploads" (get "stats" this)) (of_Z 1))
             (get "stats" this);
  now ← trigger Now;
  stats ← set_stat "lastUploadDate" (VTime now) stats;
  save (set "stats" stats this).

End methods.

(** The static methods of the class, by name. *)
Definition statics `{Runtime} `{Coercions} (name : string)
  : option (list value → task value) :=
  if decide (name = "findById") then Some (λ args, findById (arg 0 args))
  else if decide (name = "findByEmail") then Some (λ args, findByEmail (arg 0 args))
  else if decide (name = "findByUsername")
  then Some (λ args, findByUsername (arg 0 args))
  else if decide (name = "create") then Some (λ args, create (arg 0 args))
  else if decide (name = "findAll") then Some (λ _, findAll)
  else if decide (name = "validateRegistration")
  then Some (λ args, VArr <$> validateRegistration (arg 0 args))
  else if decide (name = "isValidEmail")
  then Some (λ args, Ret (VBool (isValidEmail (arg 0 args))))
  else None.

(** ** What the properties speak of *)

(** The pattern of [isValidEmail], read as a language: a local part, an
    [@], a domain, a dot and a suffix, each non-empty and without white
    space or [@]. *)
Definition word (l : list Ascii.ascii) : Prop := l ≠ [] ∧ Forall (λ c, plain c = true) l.

Definition email_shape (l : list Ascii.ascii) : Prop :=
  ∃ a b c, word a ∧ word b ∧ word c ∧ l = a ++ at_sign :: b ++ dot :: c.

(** ** Lemmas *)

Section email.

Lemma eqb_at_plain c : plain c = true → Ascii.eqb c at_sign = false.
Proof. unfold plain. intros [_ Hc%negb_true_iff]%andb_prop. done. Qed.

Lemma word_cons a l : plain a = true → word l → word (a :: l).
Proof. intros Ha [_ Hl]. split; [done|]. by constructor. Qed.

Lemma word_singleton a : plain a = true → word [a].
Proof. intros Ha. split; [done|]. by repeat constructor. Qed.

Lemma local_part_cons a c l :
  local_part (a :: c :: l) =
  if plain a then if Ascii.eqb c at_sign then Some l else local_part (c :: l)
  else None.
Proof. done. Qed.

Lemma domain_cons b c l :
  domain (b :: c :: l) =
  plain b && ((Ascii.eqb c dot && negb (bool_decide (l = [])) && forallb plain l)
              || domain (c :: l)).
Proof. done. Qed.

Lemma local_part_sound l d :
  local_part l = Some d → ∃ a, word a ∧ l = a ++ at_sign :: d.
Proof.
  revert d. induction l as [|a [|c l] IH]; intros d; [done..|].
  rewrite local_part_cons. destruct (plain a) eqn:Ha; [|done].
  destruct (Ascii.eqb c at_sign) eqn:Hc.
  - intros [= <-]. apply Ascii.eqb_eq in Hc as ->.
    exists [a]. split; [by apply word_singleton|done].
  - intros (a' & Hw & ->)%IH. exists (a :: a'). split; [by apply word_cons|done].
Qed.

Lemma local_part_complete a d : word a → local_part (a ++ at_sign :: d) = Some d.
Proof.
  intros [Hne Ha]. induction Ha as [|x a Hx Ha IH]; [done|].
  destruct a as [|y a]; simpl app.
  - by rewrite local_part_cons, Hx, Ascii.eqb_refl.
  - rewrite local_part_cons, Hx.
    rewrite eqb_at_plain by by inversion Ha. by apply IH.
Qed.

Lemma domain_sound l :
  domain l = true → ∃ b c, word b ∧ word c ∧ l = b ++ dot :: c.
Proof.
  induction l as [|b [|c l] IH]; [done..|].
  rewrite domain_cons. intros [Hb [Hd|Hd]%orb_prop]%andb_prop.
  - apply andb_prop in Hd as [[Hc%Ascii.eqb_eq Hl%negb_true_iff]%andb_prop Hp].
    subst c. exists [b], l. split; [by apply word_singleton|]. split; [|done].
    split; [by apply bool_decide_eq_false in Hl|].
    apply Forall_forall. intros x Hx. rewrite forallb_forall in Hp.
    apply Hp. by apply list_elem_of_In.
  - destruct (IH Hd) as (b' & c' & Hb' & Hc' & ->).
    exists (b :: b'), c'. split; [by apply word_cons|done].
Qed.

Lemma domain_complete b c : word b → word c → domain (b ++ dot :: c) = true.
Proof.
  intros [Hne Hb] [Hc Hpc]. induction Hb as [|x b Hx Hb IH]; [done|].
  destruct b as [|y b]; simpl app.
  - rewrite domain_cons, Hx, Ascii.eqb_refl. apply andb_true_intro. split; [done|].
    apply orb_true_intro. left. apply andb_true_intro. split.
    + by rewrite bool_decide_eq_false_2.
    + apply forallb_forall. intros z Hz%list_elem_of_In.
      by apply (proj1 (Forall_forall _ _) Hpc).
  - rewrite domain_cons, Hx.
    change (y :: b ++ dot :: c) with ((y :: b) ++ dot :: c).
    rewrite IH by done. by rewrite orb_true_r.
Qed.

(** C35: the e-mail test is the pattern.  [isValidEmail] accepts a string
    exactly when it is a local part, an [@], a domain, a dot and a suffix,
    each of them non-empty and free of white space and of [@]: the matcher
    decides the language of [/^[^\s@]+@[^\s@]+\.[^\s@]+$/]. *)
Theorem matches_email_shape s :
  matches_email s = true ↔ email_shape (String.list_ascii_of_string s).
Proof.
  unfold matches_email, email_shape. split.
  - destruct (local_part _) as [d|] eqn:Hl; [|done]. intros Hd.
    destruct (local_part_sound _ _ Hl) as (a & Ha & ->).
    destruct (domain_sound _ Hd) as (b & c & Hb & Hc & ->). by exists a, b, c.
  - intros (a & b & c & Ha & Hb & Hc & ->).
    rewrite local_part_complete by done. by apply domain_complete.
Qed.

End email.

Section facts.
Context `{Runtime} `{Coercions}.
Implicit Types (w : world) (userData user : value).

Lemma get_constructor_password userData :
  get "password" (constructor userData) = get "password" userData.
Proof. reflexivity. Qed.

Lemma get_toJSON_password this : get "password" (toJSON this) = VUndefined.
Proof. unfold toJSON, get. simpl. by rewrite lookup_delete_eq. Qed.

Lemma get_toJSON k this : k ≠ "password" → get k (toJSON this) = get k this.
Proof. intros. unfold toJSON, get. simpl. by rewrite lookup_delete_ne. Qed.

Lemma run_hashed p w :
  run (hashed (VStr p)) w =
  (Returned (VStr (bcrypt_hash p (salt_of (drawn w)))), set_drawn (S (drawn w)) w).
Proof. reflexivity. Qed.

Lemma run_comparePassword p h this w :
  get "password" this = VStr h →
  run (comparePassword (VStr p) this) w = (Returned (bcrypt_check p h), w).
Proof. intros Hp. unfold comparePassword. by rewrite run_trigger, Hp. Qed.

Lemma run_findByEmail email w i r :
  store_ok usersFile w →
  list_find (has_field "email" email) (records usersFile w) = Some (i, r) →
  run (findByEmail email) w =
  (Returned (if truthy r then constructor r else VNull), w).
Proof.
  intros Hok%store_ok_elements Hfind. unfold findByEmail.
  rewrite run_bind, getUserByEmail_repo. unfold repo_all.
  run_simpl. rewrite Hok. run_simpl. by rewrite Hfind.
Qed.

Lemma lookup_userData_of k this :
  k ∈ data_keys → props (userData_of this) !! k = Some (get k this).
Proof.
  unfold data_keys. rewrite !elem_of_cons, elem_of_nil.
  intros Hk. repeat (destruct Hk as [->|Hk]; [reflexivity|]). done.
Qed.

(** What [save] assigns back to the instance of a stored user leaves the
    fields it sent as they were. *)
Lemma get_assign_saved k this old t :
  k ∈ data_keys →
  get k (assign this (merged_record old (userData_of this) t)) = get k this.
Proof.
  intros Hk. pose proof (lookup_userData_of k this Hk) as Hd.
  assert (k ≠ "updatedAt") as Hne
    by (intros ->; revert Hk; unfold data_keys; not_in_list).
  pose proof (get_merged_patch k old _ t _ Hne Hd) as Hc.
  rewrite get_assign. unfold get in Hc at 1.
  by destruct (props (merged_record _ _ _) !! k) eqn:E.
Qed.

Lemma run_save_stored this w i old :
  store_ok usersFile w → truthy (get "id" this) = true →
  list_find (has_id (get "id" this)) (records usersFile w) = Some (i, old) →
  let t := (clock w + elapsed (ticks w))%Z in
  let r := merged_record old (userData_of this) t in
  run (save this) w =
  (Returned (assign this r),
   store usersFile (<[i := r]> (records usersFile w)) (set_clock t w)).
Proof.
  intros Hok Hid Hfind t r. unfold save. rewrite Hid, run_bind, updateUser_repo.
  by rewrite (run_repo_update_found usersFile "users" _ _ _ i old).
Qed.

Lemma run_updateLastLogin this w i old :
  store_ok usersFile w → truthy (get "id" this) = true →
  list_find (has_id (get "id" this)) (records usersFile w) = Some (i, old) →
  let t := (clock w + elapsed (ticks w))%Z in
  let this1 := set "lastLogin" (VTime t) this in
  let t' := (t + elapsed (S (ticks w)))%Z in
  let r := merged_record old (userData_of this1) t' in
  run (updateLastLogin this) w =
  (Returned (assign this1 r),
   store usersFile (<[i := r]> (records usersFile w)) (set_clock t' (set_clock t w))).
Proof.
  intros Hok Hid Hfind t this1 t' r. unfold updateLastLogin.
  rewrite run_bind, run_trigger. cbn [handle].
  assert (get "id" this1 = get "id" this) as E by by apply get_set_ne.
  change (run (save this1) (set_clock t w) = (Returned (assign this1 r),
            store usersFile (<[i := r]> (records usersFile w))
              (set_clock t' (set_clock t w)))).
  rewrite (run_save_stored this1 (set_clock t w) i old); [done|done|by rewrite E..].
Qed.

Lemma run_incrementUploadStats this o w i old :
  store_ok usersFile w → truthy (get "id" this) = true →
  list_find (has_id (get "id" this)) (records usersFile w) = Some (i, old) →
  get "stats" this = VObj o →
  let t := (clock w + elapsed (ticks w))%Z in
  let stats := set "lastUploadDate" (VTime t)
                 (set "totalUploads"
                    (plus (get "totalUploads" (VObj o)) (of_Z 1)) (VObj o)) in
  let this1 := set "stats" stats this in
  let t' := (t + elapsed (S (ticks w)))%Z in
  let r := merged_record old (userData_of this1) t' in
  run (incrementUploadStats this) w =
  (Returned (assign this1 r),
   store usersFile (<[i := r]> (records usersFile w)) (set_clock t' (set_clock t w))).
Proof.
  intros Hok Hid Hfind Hs t stats this1 t' r. unfold incrementUploadStats.
  rewrite Hs. cbn [set_stat]. rewrite run_bind, run_ret, run_bind, run_trigger.
  cbn [handle].
  assert (get "id" this1 = get "id" this) as E by by apply get_set_ne.
  change (run (save this1) (set_clock t w) = (Returned (assign this1 r),
            store usersFile (<[i := r]> (records usersFile w))
              (set_clock t' (set_clock t w)))).
  rewrite (run_save_stored this1 (set_clock t w) i old); [done|done|by rewrite E..].
Qed.

(** C13: passwords are stored hashed.  [User.create] of data with a
    non-empty password returns an instance whose password is the bcrypt
    hash of it under the salt drawn, the record appended to the store
    holds the same hash, [comparePassword] of the original password on the
    instance answers true, and [toJSON] of the instance has no password. *)
Theorem create_hashes_password userData p w :
  store_ok usersFile w → usersFile ∉ unwritable w →
  get "password" userData = VStr p → p ≠ "" →
  let h := bcrypt_hash p (salt_of (drawn w)) in
  ∃ user w', run (create userData) w = (Returned user, w') ∧
    get "password" user = VStr h ∧
    (∃ r, last (records usersFile w') = Some r ∧ get "password" r = VStr h) ∧
    run (comparePassword (VStr p) user) w' = (Returned true, w') ∧
    get "password" (toJSON user) = VUndefined.
Proof.
  intros Hok Hw Hp Hne h.
  assert (nullish userData = false) as Hn by (by destruct userData).
  set (w1 := set_drawn (S (drawn w)) w).
  set (data := set "password" (VStr h) userData).
  assert (run (create userData) w =
          (Returned (constructor (created w1 data)),
           store usersFile (records usersFile w1 ++ [created w1 data]) (stamped w1)))
    as Hrun.
  { unfold create, property_of. rewrite Hn. cbn [mbind task_bind bind].
    rewrite Hp, (proj2 (truthy_str p) Hne), !run_bind, run_hashed. cbn [run].
    rewrite run_ret, run_bind, createUser_repo, (run_repo_create usersFile "users")
      by done.
    done. }
  assert (get "password" (created w1 data) = VStr h) as Hc.
  { rewrite get_created_other by done. apply get_set_eq. }
  eexists _, _. split; [exact Hrun|]. split; [done|]. split; [|split].
  - exists (jsonify (created w1 data)). split.
    + rewrite records_store by done. by rewrite fmap_last, last_snoc.
    + by rewrite (get_jsonify _ _ (VStr h)).
  - rewrite (run_comparePassword p h) by done. unfold h. by rewrite bcrypt_check_hash.
  - apply get_toJSON_password.
Qed.

End facts.

(** ** The properties at concrete inputs *)

Definition sample_registration : value :=
  obj [("username", VStr "ada"); ("email", VStr "ada@example.org");
       ("password", VStr "secret1"); ("firstName", VStr "Ada");
       ("lastName", VStr "Lovelace")].

Lemma create_hashes_password_witness :
  let h := bcrypt_hash "secret1" (salt_of (drawn empty_world)) in
  ∃ user w', run (create sample_registration) empty_world = (Returned user, w') ∧
    get "password" user = VStr h ∧
    (∃ r, last (records usersFile w') = Some r ∧ get "password" r = VStr h) ∧
    run (comparePassword (VStr "secret1") user) w' = (Returned true, w') ∧
    get "password" (toJSON user) = VUndefined.
Proof.
  apply (create_hashes_password sample_registration "secret1" empty_world).
  - reflexivity.
  - apply not_elem_of_empty.
  - reflexivity.
  - discriminate.
Defined.

End User.
