(* ===== verification/UploadModel.v ===== *)
(** * The [Upload] model class ([backend/src/models/Upload.js])

    An instance is the object [this], as in [DetectionModel].  The getter
    [sizeFormatted] is left out: it divides two floating-point logarithms
    and takes the floor of the quotient, which rational arithmetic does
    not reproduce at the powers of 1024. *)

From S2P Require Import Prelude Json Task DataService Http.

Module Upload.
Import Js Task DataService Http.

(** ** The constructor *)

Definition constructor (uploadData : value) : value :=
  obj [("id", get "id" uploadData);
       ("userId", get "userId" uploadData);
       ("originalName", get "originalName" uploadData);
       ("filename", get "filename" uploadData);
       ("mimetype", get "mimetype" uploadData);
       ("size", get "size" uploadData);
       ("path", get "path" uploadData);
       ("url", get "url" uploadData);
       ("fileType", get "fileType" uploadData);
       ("metadata", or_else (get "metadata" uploadData) (obj []));
       ("thumbnailPath", or_else (get "thumbnailPath" uploadData) VNull);
       ("thumbnailUrl", or_else (get "thumbnailUrl" uploadData) VNull);
       ("status", or_else (get "status" uploadData) (VStr "uploaded"));
       ("tags", or_else (get "tags" uploadData) (VArr []));
       ("description", or_else (get "description" uploadData) (VStr ""));
       ("isPublic", or_else (get "isPublic" uploadData) (VBool false));
       ("uploadSource", or_else (get "uploadSource" uploadData) (VStr "web"));
       ("processingHistory", or_else (get "processingHistory" uploadData) (VArr []));
       ("downloadCount", or_else (get "downloadCount" uploadData) (of_Z 0));
       ("lastAccessed", get "lastAccessed" uploadData);
       ("expiresAt", or_else (get "expiresAt" uploadData) VNull);
       ("checksum", get "checksum" uploadData);
       ("createdAt", get "createdAt" uploadData);
       ("updatedAt", get "updatedAt" uploadData)].

(** [new Upload(uploadData)] for any argument *)
Definition construct (uploadData : value) : task value :=
  if nullish uploadData
  then Throw (type_error "Cannot read properties of undefined (reading 'id')")
  else Ret (constructor uploadData).

(** ** Virtual properties *)

(** [s.split('.').pop()] *)
Definition last_segment (s : string) : string :=
  default EmptyString (last (split_on (Ascii.ascii_of_nat 46) s)).

Section coercing.
Context `{Coercions}.

(** A string method called on [v.k]. *)
Definition string_of (k method : string) (v : value) : task string :=
  match get k v with
  | VStr s => Ret s
  | VTime t => Ret (time_to_string t)
  | VUndefined | VNull =>
      Throw (type_error ("Cannot read properties of undefined (reading '"
                         +:+ method +:+ "')"))
  | _ => Throw (not_a_function k method)
  end.

Definition extension (this : value) : task value :=
  originalName ← string_of "originalName" "split" this;
  mret (VStr (map_string lower (last_segment originalName))).

(** The branches of [ageFormatted] on the number of days. *)
Definition age_of_days (diffDays : Z) : string :=
  if (diffDays =? 1)%Z then "1 day ago"
  else if (diffDays <? 30)%Z then pretty diffDays +:+ " days ago"
  else if (diffDays <? 365)%Z then pretty (diffDays / 30)%Z +:+ " months ago"
  else pretty (diffDays / 365)%Z +:+ " years ago".

Definition ms_per_day : Z := 1000 * 60 * 60 * 24.

Definition ageFormatted `{Runtime} (this : value) : task value :=
  now ← trigger Now;
  mret (VStr (match date_diff (VTime now) (get "createdAt" this) with
              | VNum diffTime =>
                  age_of_days (ceil (Qabs diffTime / inject_Z ms_per_day))
              | _ => "NaN years ago"
              end)).

(** [new Date() > new Date(this.expiresAt)] *)
Definition isExpired `{Runtime} (this : value) : task bool :=
  if negb (truthy (get "expiresAt" this)) then mret false
  else
    now ← trigger Now;
    mret (match to_date (get "expiresAt" this) with
          | Some expires => bool_decide (expires < now)%Z
          | None => false
          end).

End coercing.

(** ** Static methods *)

Section statics.
Context `{Runtime} `{Coercions}.

Definition findById (id : value) : task value :=
  uploadData ← getUploadById id;
  mret (if truthy uploadData then constructor uploadData else VNull).

(** [uploadsData.map(uploadData => new Upload(uploadData))] *)
Definition instances (uploadsData : value) : task value :=
  l ← as_array "uploadsData" "map" uploadsData;
  VArr <$> mapM construct l.

Definition findByUserId (userId : value) : task value :=
  uploadsData ← getUploadsByUserId userId;
  instances uploadsData.

Definition findAll : task value :=
  uploadsData ← getUploads;
  instances uploadsData.

Definition create (uploadData : value) : task value :=
  uploadData ← property_of "mimetype" uploadData;
  mimetype ← string_of "mimetype" "startsWith" uploadData;
  let uploadData :=
    if starts_with "image/" mimetype then set "fileType" (VStr "image") uploadData
    else if starts_with "video/" mimetype then set "fileType" (VStr "video") uploadData
    else uploadData in
  newUploadData ← createUpload uploadData;
  mret (constructor newUploadData).

(** ** Instance methods *)

(** The fields [save] hands to the record store. *)
Definition data_keys : list string :=
  ["userId"; "originalName"; "filename"; "mimetype"; "size"; "path"; "url";
   "fileType"; "metadata"; "thumbnailPath"; "thumbnailUrl"; "status"; "tags";
   "description"; "isPublic"; "uploadSource"; "processingHistory";
   "downloadCount"; "lastAccessed"; "expiresAt"; "checksum"].

Definition uploadData_of (this : value) : value :=
  obj ((λ k, (k, get k this)) <$> data_keys).

Definition save (this : value) : task value :=
  let uploadData := uploadData_of this in
  if truthy (get "id" this) then
    updatedData ← updateUpload (get "id" this) uploadData;
    mret (if truthy updatedData then assign this updatedData else this)
  else
    newUploadData ← createUpload uploadData;
    mret (assign this newUploadData).

Definition remove (this : value) : task bool :=
  if truthy (get "id" this) then deleteUpload (get "id" this) else mret false.

Definition addProcessingHistory (action details userId : value) (this : value)
  : task value :=
  _ ← property_of "push" (get "processingHistory" this);
  timestamp ← trigger Now;
  processingHistory ←
    as_array "this.processingHistory" "push" (get "processingHistory" this);
  let entry := obj [("action", action); ("details", details); ("user", userId);
                    ("timestamp", VTime timestamp)] in
  save (set "processingHistory" (VArr (processingHistory ++ [entry])) this).

Definition incrementDownloadCount (this : value) : task value :=
  let this := set "downloadCount" (plus (get "downloadCount" this) (of_Z 1)) this in
  now ← trigger Now;
  save (set "lastAccessed" (VTime now) this).

End statics.

(** The static methods of the class, by name. *)
Definition statics `{Runtime} `{Coercions} (name : string)
  : option (list value → task value) :=
  if decide (name = "findById") then Some (λ args, findById (arg 0 args))
  else if decide (name = "findByUserId") then Some (λ args, findByUserId (arg 0 args))
  else if decide (name = "findAll") then Some (λ _, findAll)
  else if decide (name = "create") then Some (λ args, create (arg 0 args))
  else None.

(** ** Lemmas *)

Section facts.
Context `{Runtime} `{Coercions}.
Implicit Types (w : world) (this : value).

Lemma get_uploadData_of k this :
  k ∈ data_keys → get k (uploadData_of this) = get k this.
Proof.
  unfold data_keys. rewrite !elem_of_cons, elem_of_nil.
  intros Hk. repeat (destruct Hk as [->|Hk]; [reflexivity|]). done.
Qed.

(** [save] of an instance without an id creates its record. *)
Lemma run_save_fresh this w :
  store_ok uploadsFile w → get "id" this = VUndefined →
  let r := created w (uploadData_of this) in
  run (save this) w =
  (Returned (assign this r),
   store uploadsFile (records uploadsFile w ++ [r]) (stamped w)).
Proof.
  intros Hok Hid r. unfold save. rewrite Hid. cbn [truthy].
  by rewrite run_bind, createUpload_repo, (run_repo_create uploadsFile "uploads").
Qed.

End facts.

End Upload.
