(* ===== verification/DetectionRoutes.v ===== *)
(** * The detection routes ([backend/src/routes/detectionRoutes.js])

    A handler is a function from the request to a program that answers;
    the server mounts it inside [asyncHandler], so what it throws reaches
    the error middleware ([ErrorHandler.route]).  The handlers are named
    after their routes.

    The handlers call static methods by name ([Detection.findOne],
    [Upload.findOne], ...): the call goes through the table of the statics
    the class defines ([Http.call]), and is a [TypeError] when the class
    has no such static.  A query chain ([.populate(...)], [.select(...)])
    is a method call on what the static returned, which has no methods.

    An instance is the object [this] of [DetectionModel]; [await
    detection.save()] continues with the instance [save] returns.
    [console.log] and [console.error] are not state and are left out. *)

From S2P Require Import Prelude Json Task Http DataService Concurrency.
From S2P Require Import DetectionModel ErrorHandler UploadModel.

Module DetectionRoutes.
Import Js Task Http DataService.

Section routes.
Context `{Runtime} `{Coercions}.

(** [{ _id: id, user: req.user._id }] *)
Definition owned (id : value) (req : value) : task value :=
  user ← property "_id" (get "user" req);
  mret (obj [("_id", id); ("user", user)]).

(** The results the mock analysis reports. *)
Definition mock_vehicle (id type : string) (confidence : value)
    (x y width height : Z) (occlusion : value) (color size : string)
    (orientation : Z) : value :=
  obj [("id", VStr id); ("type", VStr type); ("confidence", confidence);
       ("boundingBox", obj [("x", of_Z x); ("y", of_Z y);
                            ("width", of_Z width); ("height", of_Z height)]);
       ("occlusion", occlusion);
       ("features", obj [("color", VStr color); ("size", VStr size);
                         ("orientation", of_Z orientation)])].

Definition not_occluded : value :=
  obj [("isOccluded", VBool false); ("occlusionLevel", VStr "none");
       ("occlusionPercentage", of_Z 0)].

Definition mockResults : value :=
  obj [("totalVehicles", of_Z 3);
       ("occludedVehicles", of_Z 1);
       ("occlusionPercentage", Detection.dec 3333 100);
       ("vehicles", VArr [
          mock_vehicle "vehicle_1" "car" (Detection.dec 95 100) 100 150 200 150
            not_occluded "blue" "medium" 0;
          mock_vehicle "vehicle_2" "truck" (Detection.dec 88 100) 350 120 300 200
            (obj [("isOccluded", VBool true); ("occlusionLevel", VStr "partial");
                  ("occlusionPercentage", of_Z 35);
                  ("occludedBy", VArr [VStr "vehicle_3"])])
            "white" "large" 15;
          mock_vehicle "vehicle_3" "car" (Detection.dec 92 100) 500 180 180 140
            not_occluded "red" "medium" (-10)]);
       ("processingMetadata",
          obj [("modelVersion", VStr "v1.0.0");
               ("algorithm", VStr "YOLO + Custom Occlusion Analysis");
               ("computeTime", of_Z 4850); ("memoryUsage", of_Z 1024)])].

(** The [catch] of [processVehicleDetection]. *)
Definition processing_failed (detectionId error : value) : task unit :=
  detection ← Detection.findById detectionId;
  if truthy detection then
    let detection := set "status" (VStr "failed") detection in
    now ← trigger Now;
    let detection := set "processingEndTime" (VTime now) detection in
    let detection :=
      set "errorDetails" (obj [("code", VStr "PROCESSING_ERROR");
                               ("message", get "message" error)]) detection in
    _ ← Detection.save detection;
    mret ()
  else mret ().

Definition processVehicleDetection (detectionId : value) : task unit :=
  try_catch
    (detection ← Detection.findById detectionId;
     if negb (truthy detection) then mret ()
     else
       let detection := set "status" (VStr "processing") detection in
       now ← trigger Now;
       let detection := set "processingStartTime" (VTime now) detection in
       detection ← Detection.save detection;
       _ ← trigger (Sleep 5000);
       let detection := set "status" (VStr "completed") detection in
       now ← trigger Now;
       let detection := set "processingEndTime" (VTime now) detection in
       let detection :=
         set "results" (VObj (spread (props (get "results" detection))
                                     (props mockResults))) detection in
       _ ← Detection.save detection;
       mret ())
    (processing_failed detectionId).

(** The callback [analyze] hands to [setTimeout]. *)
Definition processing_job (detectionId : value) : task unit :=
  try_catch (processVehicleDetection detectionId) (λ _, mret ()).

(** [POST /api/detection/analyze] *)
Definition analyze (req : value) : task response :=
  body ← destructure (get "body" req);
  let uploadId := get "uploadId" body in
  let parameters := get "parameters" body in
  if negb (truthy uploadId)
  then mret (status_json 400 (refusal "Upload ID is required"))
  else
    query ← owned uploadId req;
    upload ← call "Upload" Upload.statics "findOne" [query];
    if negb (truthy upload)
    then mret (status_json 404 (refusal "Upload not found"))
    else
      existingDetection ←
        call "Detection" Detection.statics "findOne"
          [obj [("uploadedFile", uploadId)]];
      if truthy existingDetection
      then mret (status_json 400
                   (obj [("success", VBool false);
                         ("message", VStr "Detection already exists for this upload");
                         ("data", obj [("detectionId",
                                        get "_id" existingDetection)])]))
      else
        user ← property "_id" (get "user" req);
        let detection :=
          Detection.constructor
            (obj [("user", user); ("uploadedFile", uploadId);
                  ("status", VStr "pending");
                  ("results",
                   obj [("processingMetadata",
                         obj [("parameters", or_else parameters (obj []))])])]) in
        detection ← Detection.save detection;
        _ ← trigger (SetTimeout 100 "processVehicleDetection" (get "_id" detection));
        mret (status_json 201
                (obj [("success", VBool true);
                      ("message", VStr "Detection analysis started");
                      ("data", obj [("detectionId", get "_id" detection);
                                    ("status", get "status" detection)])])).

(** [Detection.findOne({ _id: req.params.id, user: req.user._id })] *)
Definition find_owned (req : value) : task value :=
  id ← property "id" (get "params" req);
  query ← owned id req;
  call "Detection" Detection.statics "findOne" [query].

(** [GET /api/detection/:id] *)
Definition get_detection (req : value) : task response :=
  found ← find_owned req;
  detection ← call_method "Detection.findOne(...)" "populate" found;
  if negb (truthy detection)
  then mret (status_json 404 (refusal "Detection not found"))
  else mret (json (obj [("success", VBool true);
                        ("data", obj [("detection", detection)])])).

(** [GET /api/detection/status/:id] *)
Definition get_status (req : value) : task response :=
  found ← find_owned req;
  detection ← call_method "Detection.findOne(...)" "select" found;
  if negb (truthy detection)
  then mret (status_json 404 (refusal "Detection not found"))
  else mret (json (obj [("success", VBool true);
                        ("data",
                         obj [("id", get "_id" detection);
                              ("status", get "status" detection);
                              ("processingStartTime",
                               get "processingStartTime" detection);
                              ("processingEndTime",
                               get "processingEndTime" detection);
                              ("processingDuration",
                               get "processingDuration" detection)])])).

(** [GET /api/detection] *)
Definition get_history (req : value) : task response :=
  page ← property "page" (get "query" req);
  let page := or_else (parseInt page) (of_Z 1) in
  let limit := or_else (parseInt (get "limit" (get "query" req))) (of_Z 10) in
  let skip := times (minus page (of_Z 1)) limit in
  let status := get "status" (get "query" req) in
  user ← property "_id" (get "user" req);
  let query := obj [("user", user)] in
  let query := if truthy status then set "status" status query else query in
  found ← call "Detection" Detection.statics "find" [query];
  detections ← call_method "Detection.find(...)" "populate" found;
  total ← call "Detection" Detection.statics "countDocuments" [query];
  mret (json (obj [("success", VBool true);
                   ("data",
                    obj [("detections", detections);
                         ("pagination",
                          obj [("page", page); ("limit", limit); ("total", total);
                               ("pages", math_ceil (divide total limit))])])])).

(** [DELETE /api/detection/:id] *)
Definition delete_detection (req : value) : task response :=
  detection ← find_owned req;
  if negb (truthy detection)
  then mret (status_json 404 (refusal "Detection not found"))
  else
    _ ← call "Detection" Detection.statics "findByIdAndDelete"
          [get "id" (get "params" req)];
    mret (json (obj [("success", VBool true);
                     ("message", VStr "Detection deleted successfully")])).

(** [POST /api/detection/:id/annotate] *)
Definition annotate (req : value) : task response :=
  body ← destructure (get "body" req);
  detection ← find_owned req;
  if negb (truthy detection)
  then mret (status_json 404 (refusal "Detection not found"))
  else
    user ← property "_id" (get "user" req);
    let annotation :=
      obj [("user", user);
           ("vehicleId", get "vehicleId" body);
           ("correctedType", get "correctedType" body);
           ("correctedOcclusion", get "correctedOcclusion" body);
           ("notes", get "notes" body)] in
    annotations ←
      as_array "detection.annotations" "push"
        (get "annotations" detection);
    _ ← Detection.save
          (set "annotations" (VArr (annotations ++ [annotation])) detection);
    mret (json (obj [("success", VBool true);
                     ("message", VStr "Annotation added successfully");
                     ("data", obj [("annotation", annotation)])])).

(** ** What the properties speak of *)

(** The handlers of the router. *)
Definition handlers : list (value → task response) :=
  [analyze; get_detection; get_status; get_history; delete_detection; annotate].

(** A request as the routes expect it: parsed, and with the user
    [authenticateToken] put there; its body names an upload. *)
Definition expected (req : value) : Prop :=
  nullish (get "body" req) = false ∧ nullish (get "params" req) = false ∧
  nullish (get "query" req) = false ∧ nullish (get "user" req) = false ∧
  truthy (get "uploadId" (get "body" req)) = true.

(** The statics the handlers call first. *)
Definition missing_statics : list string :=
  ["Upload.findOne"; "Detection.findOne"; "Detection.find"].

End routes.

(** The vehicles of the mock results, the instance
    [processVehicleDetection] saves first, and the one it saves last. *)
Definition mock_vehicles : list value := elements (get "vehicles" mockResults).

Definition started (now : Z) (this : value) : value :=
  set "processingStartTime" (VTime now) (set "status" (VStr "processing") this).

Definition completed (now : Z) (this : value) : value :=
  set "results" (VObj (spread (props (get "results" this)) (props mockResults)))
    (set "processingEndTime" (VTime now) (set "status" (VStr "completed") this)).

(** ** Lemmas *)

Section facts.
Context `{Runtime} `{Coercions}.
Implicit Types (req : value) (w : world).

Lemma owned_user id req :
  nullish (get "user" req) = false →
  owned id req = Ret (obj [("_id", id); ("user", get "_id" (get "user" req))]).
Proof. unfold owned, property. by intros ->. Qed.

Lemma find_owned_throws req :
  nullish (get "params" req) = false → nullish (get "user" req) = false →
  find_owned req = Throw (not_a_function "Detection" "findOne").
Proof.
  intros Hp Hu. unfold find_owned, property. rewrite Hp. cbn [mbind task_bind bind].
  by rewrite owned_user.
Qed.

Lemma analyze_throws req :
  expected req → analyze req = Throw (not_a_function "Upload" "findOne").
Proof.
  intros (Hb & _ & _ & Hu & Hid). unfold analyze, destructure. rewrite Hb.
  cbn [mbind task_bind bind]. rewrite Hid. cbn [negb]. by rewrite owned_user.
Qed.

Lemma get_history_throws req :
  expected req → get_history req = Throw (not_a_function "Detection" "find").
Proof.
  intros (_ & _ & Hq & Hu & _). unfold get_history, property. by rewrite Hq, Hu.
Qed.

(** Each handler throws at its first call of a static. *)
Lemma handlers_throw req h :
  expected req → h ∈ handlers →
  ∃ m, m ∈ missing_statics ∧ h req = Throw (type_error (m +:+ " is not a function")).
Proof.
  intros Hreq Hh. pose proof Hreq as (Hb & Hp & _ & Hu & _).
  unfold handlers in Hh. rewrite !elem_of_cons, elem_of_nil in Hh.
  destruct Hh as [->|[->|[->|[->|[->|[->|[]]]]]]].
  - exists "Upload.findOne". split; [in_list|]. by apply analyze_throws.
  - exists "Detection.findOne". split; [in_list|].
    unfold get_detection. by rewrite find_owned_throws.
  - exists "Detection.findOne". split; [in_list|].
    unfold get_status. by rewrite find_owned_throws.
  - exists "Detection.find". split; [in_list|]. by apply get_history_throws.
  - exists "Detection.findOne". split; [in_list|].
    unfold delete_detection. by rewrite find_owned_throws.
  - exists "Detection.findOne". split; [in_list|].
    unfold annotate, destructure. rewrite Hb. cbn [mbind task_bind bind].
    by rewrite find_owned_throws.
Qed.

Lemma missing_statics_plain m :
  m ∈ missing_statics → ErrorHandler.plain_message (m +:+ " is not a function").
Proof.
  unfold missing_statics. rewrite !elem_of_cons, elem_of_nil.
  intros [->|[->|[->|[]]]]; by split.
Qed.

(** C3: no detection route serves a request.  For every handler of the
    router and every request of a signed-in user that names an upload,
    the route answers 500 with the message of a [TypeError], and the
    store is untouched: the handlers start by calling [Upload.findOne],
    [Detection.findOne] or [Detection.find], and the model classes define
    no such static method. *)
Theorem detection_routes_unavailable node_env req w h :
  strict_eq node_env (VStr "development") = false →
  expected req → h ∈ handlers →
  ∃ m, m ∈ missing_statics ∧
    run (ErrorHandler.route node_env h req) w =
    (Returned (Response (of_Z 500) (refusal (m +:+ " is not a function"))), w).
Proof.
  intros Hdev Hreq Hh. destruct (handlers_throw req h Hreq Hh) as (m & Hm & Hthrow).
  exists m. split; [done|].
  by apply ErrorHandler.run_route_type_error; [|apply missing_statics_plain|].
Qed.

(** *** The mock analysis *)

Lemma get_results_completed k now this :
  props mockResults !! k ≠ None →
  get k (get "results" (completed now this)) = get k mockResults.
Proof.
  intros Hk. unfold completed. rewrite get_set_eq. unfold get at 1 3. cbn [props].
  destruct (props mockResults !! k) as [v|] eqn:E; [|done].
  by rewrite (spread_lookup_r _ _ _ v).
Qed.

Lemma sound_completed now this : Detection.sound (completed now this) = true.
Proof. unfold Detection.sound. by rewrite get_results_completed. Qed.

Lemma run_processVehicleDetection s w i r0 :
  store_ok detectionsFile w →
  list_find (has_id (VStr s)) (records detectionsFile w) = Some (i, r0) →
  let t1 := (clock w + elapsed (ticks w))%Z in
  ∀ this1 w1,
    run (Detection.save (started t1 (Detection.constructor r0))) (set_clock t1 w) =
      (Returned this1, w1) →
    let w2 := set_clock (clock w1 + 5000 + elapsed (ticks w1)) w1 in
    let t2 := (clock w2 + elapsed (ticks w2))%Z in
    ∀ this2 w3,
      run (Detection.save (completed t2 this1)) (set_clock t2 w2) = (Returned this2, w3) →
      run (processVehicleDetection (VStr s)) w = (Returned (), w3).
Proof.
  intros Hok Hfind t1 this1 w1 Hs1 w2 t2 this2 w3 Hs2.
  unfold processVehicleDetection.
  rewrite run_try_catch, run_bind, Detection.run_findById, Hfind by done.
  assert (truthy r0 = true) as ->.
  { eapply (get_truthy "id"); [by apply has_id_str, (list_find_holds _ _ _ _ Hfind)|done]. }
  cbn [truthy negb Detection.constructor obj].
  rewrite run_bind, run_trigger. cbn [handle]. fold t1.
  rewrite run_bind. unfold started in Hs1. rewrite Hs1.
  rewrite run_bind, run_trigger. cbn [handle]. change (Z.max 0 5000) with 5000%Z.
  rewrite run_bind, run_trigger. cbn [handle]. fold w2. fold t2.
  rewrite !(get_set_ne _ "results") by done.
  rewrite run_bind. unfold completed in Hs2. by rewrite Hs2.
Qed.
Lemma sound_started now this :
  Detection.sound (started now this) = Detection.sound this.
Proof. unfold started. by rewrite !Detection.sound_set. Qed.

(** What [save] derives from the instance saved last. *)
Lemma derived_completed now this t1 :
  get "processingStartTime" this = VTime t1 →
  let this' := Detection.derived (completed now this) in
  get "status" this' = VStr "completed" ∧
  get "processingDuration" this' = of_Z (now - t1) ∧
  get "results" this' =
    Detection.counted mock_vehicles (get "results" (completed now this)).
Proof.
  intros Hstart this'. pose proof (sound_completed now this) as Hs.
  split; [|split].
  - unfold this'. rewrite Detection.get_derived by done. unfold completed.
    by autorewrite with vo_rw.
  - unfold this'. rewrite Detection.get_derived_duration by done.
    apply Detection.with_duration_times; unfold completed; by autorewrite with vo_rw.
  - apply Detection.get_derived_results; [|done|by repeat constructor].
    by rewrite get_results_completed.
Qed.

(** The counters of the record stored last. *)
Lemma counted_completed now this :
  let results := Detection.counted mock_vehicles (get "results" (completed now this)) in
  get "totalVehicles" results = of_Z 3 ∧
  get "occludedVehicles" results = of_Z 1 ∧
  get "occlusionPercentage" results = VNum (100 # 3).
Proof.
  intros results. unfold results, Detection.counted. cbn zeta.
  autorewrite with vo_rw. rewrite get_results_completed by done. by repeat split.
Qed.

(** C12: the mock analysis completes a stored detection.  For a detection
    that is in the store under a string id, with a vehicle list without
    holes, [processVehicleDetection] returns, and the record is then
    [completed], with a processing time of at least the five seconds of
    the simulated analysis and the three vehicles of the mock results, of
    which one is occluded; the percentage stored is the one [save]
    recomputes, a third of 100, not the 33.33 of the mock results. *)
Theorem processVehicleDetection_completes s w i r0 :
  store_ok detectionsFile w → detectionsFile ∉ unwritable w → s ≠ "" →
  list_find (has_id (VStr s)) (records detectionsFile w) = Some (i, r0) →
  Detection.sound (Detection.constructor r0) = true →
  ∃ w' r t1 t2,
    run (processVehicleDetection (VStr s)) w = (Returned (), w') ∧
    list_find (has_id (VStr s)) (records detectionsFile w') = Some (i, r) ∧
    get "status" r = VStr "completed" ∧
    (t1 + 5000 ≤ t2)%Z ∧ get "processingDuration" r = of_Z (t2 - t1) ∧
    get "totalVehicles" (get "results" r) = of_Z 3 ∧
    get "occludedVehicles" (get "results" r) = of_Z 1 ∧
    get "occlusionPercentage" (get "results" r) = VNum (100 # 3).
Proof.
  intros Hok Hw Hs Hfind Hsound.
  assert (get "id" r0 = VStr s) as Hid0
    by by apply has_id_str, (list_find_holds _ _ _ _ Hfind).
  remember (clock w + elapsed (ticks w))%Z as t1 eqn:Ht1.
  destruct (Detection.save_found (started t1 (Detection.constructor r0))
              (set_clock t1 w) s i r0)
    as (this1 & w1 & r1 & Hrun1 & (Hok1 & Hw1 & Hc1) & Hfind1 & [Hid1 Hsound1] & Hk1 & _);
    [done|done|by rewrite sound_started|done|done|done|].
  remember (set_clock (clock w1 + 5000 + elapsed (ticks w1)) w1) as w2 eqn:Hw2.
  remember (clock w2 + elapsed (ticks w2))%Z as t2 eqn:Ht2.
  destruct (Detection.save_found (completed t2 this1) (set_clock t2 w2) s i r1)
    as (this2 & w3 & r2 & Hrun2 & _ & Hfind2 & _ & _ & Hr2);
    [by subst w2|by subst w2|apply sound_completed
    |unfold completed; by autorewrite with vo_rw|done|by subst w2|].
  assert (get "processingStartTime" this1 = VTime t1) as Hstart.
  { rewrite Hk1 by in_list. rewrite Detection.get_derived by
      (done || by rewrite sound_started). unfold started. by autorewrite with vo_rw. }
  destruct (derived_completed t2 this1 t1 Hstart) as (Hst & Hdur & Hres).
  destruct (counted_completed t2 this1) as (Htot & Hocc & Hpct).
  exists w3, r2, t1, t2. split.
  { subst t1 w2 t2. by eapply run_processVehicleDetection. }
  split; [done|]. split; [by rewrite Hr2, Hst by (in_list || by rewrite Hst)|].
  split.
  { pose proof (elapsed_nonneg (ticks w)). pose proof (elapsed_nonneg (ticks w1)).
    pose proof (elapsed_nonneg (ticks w2)).
    assert (clock w2 = clock w1 + 5000 + elapsed (ticks w1))%Z by by subst w2.
    change (t1 ≤ clock w1)%Z in Hc1. lia. }
  split; [by rewrite Hr2, Hdur by (in_list || by rewrite Hdur)|].
  rewrite Hr2, Hres by (in_list || by rewrite Hres).
  by rewrite !(get_jsonify _ _ _ eq_refl), Htot, Hocc, Hpct
    by (rewrite ?Htot, ?Hocc, ?Hpct; done).
Qed.


End facts.

(** ** The properties at concrete inputs *)

Definition sample_request : value :=
  obj [("body", obj [("uploadId", VStr "upload-1")]);
       ("params", obj [("id", VStr "detection-1")]);
       ("query", obj []);
       ("user", obj [("id", VStr "user-1"); ("role", VStr "user")])].

Lemma detection_routes_unavailable_witness :
  ∃ m, m ∈ missing_statics ∧
    @run counting_runtime _
      (@ErrorHandler.route sample_coercions (VStr "production")
         (@analyze counting_runtime sample_coercions) sample_request) empty_world =
    (Returned (Response (of_Z 500) (refusal (m +:+ " is not a function"))),
     empty_world).
Proof.
  apply (@detection_routes_unavailable counting_runtime sample_coercions
           (VStr "production") sample_request empty_world).
  - reflexivity.
  - by repeat split.
  - unfold handlers. in_list.
Defined.

Lemma processVehicleDetection_completes_witness :
  ∃ w' r t1 t2,
    run (processVehicleDetection (VStr "u0")) sample_world = (Returned (), w') ∧
    list_find (has_id (VStr "u0")) (records detectionsFile w') = Some (0, r) ∧
    get "status" r = VStr "completed" ∧
    (t1 + 5000 ≤ t2)%Z ∧ get "processingDuration" r = of_Z (t2 - t1) ∧
    get "totalVehicles" (get "results" r) = of_Z 3 ∧
    get "occludedVehicles" (get "results" r) = of_Z 1 ∧
    get "occlusionPercentage" (get "results" r) = VNum (100 # 3).
Proof.
  apply (processVehicleDetection_completes "u0" sample_world 0
           (jsonify (created empty_world sample_draft))).
  - reflexivity.
  - apply not_elem_of_empty.
  - discriminate.
  - reflexivity.
  - reflexivity.
Defined.

End DetectionRoutes.
