(* ===== verification/Auth.v ===== *)
(** * The authentication middleware ([backend/src/middleware/auth.js])

    A middleware answers, or passes the request on ([Http.passed]).
    [process.env.JWT_SECRET] and [process.env.JWT_EXPIRE] are arguments;
    [jwt.verify] and [jwt.sign] are the runtime's.  The requests
    [userRateLimit] has seen are the [Map] of its closure: the middleware
    takes that map and returns it. *)

From S2P Require Import Prelude Json Task Http DataService UserModel.

Module Auth.
Import Js Task Http.

(** The request times [userRateLimit] keeps, by user. *)
Notation requests_log := (gmap string (list Z)).

Section middleware.
Context `{Runtime} `{Coercions}.

Definition space : Ascii.ascii := Ascii.ascii_of_nat 32.

(** [authHeader && authHeader.split(' ')[1]] *)
Definition bearer (authHeader : value) : task value :=
  if negb (truthy authHeader) then Ret authHeader
  else match authHeader with
       | VStr s => Ret (from_option VStr VUndefined (split_on space s !! 1))
       | VTime t =>
           Ret (from_option VStr VUndefined (split_on space (time_to_string t) !! 1))
       | _ => Throw (not_a_function "authHeader" "split")
       end.

(** The [catch] of [authenticateToken]. *)
Definition authentication_failed (error : value) : task passed :=
  name ← property "name" error;
  if strict_eq name (VStr "JsonWebTokenError")
  then mret (Answer (status_json 401 (refusal "Invalid token")))
  else if strict_eq name (VStr "TokenExpiredError")
  then mret (Answer (status_json 401 (refusal "Token expired")))
  else mret (Answer (status_json 500 (refusal "Internal server error"))).

Definition authenticateToken (jwt_secret req : value) : task passed :=
  try_catch
    (authHeader ← property "authorization" (get "headers" req);
     token ← bearer authHeader;
     if negb (truthy token)
     then mret (Answer (status_json 401 (refusal "Access token required")))
     else
       decoded ← trigger (JwtVerify token jwt_secret);
       userId ← property "userId" decoded;
       user ← User.findById userId;
       if negb (truthy user)
       then mret (Answer (status_json 401 (refusal "Invalid token - user not found")))
       else if negb (truthy (get "isActive" user))
       then mret (Answer (status_json 401 (refusal "Account is deactivated")))
       else mret (Next (set "user" user req)))
    authentication_failed.

Definition authorizeRoles (roles : list value) (req : value) : passed :=
  if negb (truthy (get "user" req))
  then Answer (status_json 401 (refusal "Authentication required"))
  else if negb (includes (get "role" (get "user" req)) roles)
  then Answer (status_json 403 (refusal "Insufficient permissions"))
  else Next req.

(** [x.toString()] *)
Definition toString (receiver : string) (x : value) : task string :=
  if nullish x
  then Throw (type_error ("Cannot read properties of undefined (reading 'toString')"))
  else Ret (to_string x).

Definition checkResourceOwnership (resourceIdParam : string) (req : value)
  : task passed :=
  try_catch
    (resourceId ← property resourceIdParam (get "params" req);
     userId ← property "_id" (get "user" req);
     if strict_eq (get "role" (get "user" req)) (VStr "admin") then mret (Next req)
     else
       resource ← toString "resourceId" resourceId;
       user ← toString "userId" userId;
       mret (Next (set "isOwner" (VBool (String.eqb resource user)) req)))
    (λ _, mret (Answer (status_json 500 (refusal "Internal server error")))).

(** The log with the requests of [userId] up to [windowStart] dropped. *)
Definition cleaned (windowStart : Z) (userId : string) (userRequests : requests_log)
  : requests_log :=
  match userRequests !! userId with
  | Some requests =>
      <[userId := filter (λ time, windowStart < time)%Z requests]> userRequests
  | None => userRequests
  end.

Definition too_many_requests (windowMs : Z) : response :=
  status_json 429
    (obj [("success", VBool false);
          ("message", VStr "Too many requests. Please try again later.");
          ("retryAfter", of_Z (ceil (inject_Z windowMs / 1000)))]).

Definition userRateLimit (maxRequests windowMs : Z) (userRequests : requests_log)
    (req : value) : task (passed * requests_log) :=
  if negb (truthy (get "user" req)) then mret (Next req, userRequests)
  else
    userId ← toString "req.user._id" (get "_id" (get "user" req));
    now ← trigger Now;
    let windowStart := (now - windowMs)%Z in
    let userRequests := cleaned windowStart userId userRequests in
    let currentRequests := default [] (userRequests !! userId) in
    if bool_decide (maxRequests ≤ Z.of_nat (length currentRequests))%Z
    then mret (Answer (too_many_requests windowMs), userRequests)
    else mret (Next req, <[userId := currentRequests ++ [now]]> userRequests).

Definition generateToken (jwt_secret jwt_expire userId : value) : task value :=
  VStr <$> trigger (JwtSign (obj [("userId", userId)]) jwt_secret
                      (obj [("expiresIn", or_else jwt_expire (VStr "7d"))])).

Definition optionalAuth (jwt_secret req : value) : task passed :=
  try_catch
    (authHeader ← property "authorization" (get "headers" req);
     token ← bearer authHeader;
     if truthy token then
       decoded ← trigger (JwtVerify token jwt_secret);
       userId ← property "userId" decoded;
       found ← User.findById userId;
       user ← call_method "User.findById(...)" "select" found;
       mret (Next (if truthy user && truthy (get "isActive" user)
                   then set "user" user req else req))
     else mret (Next req))
    (λ _, mret (Next req)).

End middleware.

(** ** What the properties speak of *)

(** No user has more than [maxRequests] requests in the log. *)
Definition bounded (maxRequests : Z) (log : requests_log) : Prop :=
  ∀ userId requests, log !! userId = Some requests →
    (Z.of_nat (length requests) ≤ Z.max 0 maxRequests)%Z.

(** A request the limiter can key: no user, or a user with an [_id]. *)
Definition keyed (req : value) : Prop :=
  truthy (get "user" req) = true → nullish (get "_id" (get "user" req)) = false.

(** The request carries a token that verifies and names a stored, active
    user, whose instance is [user]. *)
Definition signed_in `{Runtime} `{Coercions} (jwt_secret req : value) (w : world)
    (user : value) : Prop :=
  ∃ token decoded,
    nullish (get "headers" req) = false ∧
    bearer (get "authorization" (get "headers" req)) = Ret token ∧
    truthy token = true ∧
    jwt_verify token jwt_secret (clock w) = Returned decoded ∧
    nullish decoded = false ∧
    run (User.findById (get "userId" decoded)) w = (Returned user, w) ∧
    truthy user = true ∧ truthy (get "isActive" user) = true.

(** ** Lemmas *)

Section facts.
Context `{Runtime} `{Coercions}.
Implicit Types (req : value) (w : world) (log : requests_log).

Lemma authentication_failed_answers e w req' w' :
  run (authentication_failed e) w ≠ (Returned (Next req'), w').
Proof.
  unfold authentication_failed, property.
  destruct (nullish e); [done|]. cbn [mbind task_bind bind].
  by repeat case_match.
Qed.

Lemma run_authenticateToken jwt_secret req w user :
  signed_in jwt_secret req w user →
  run (authenticateToken jwt_secret req) w =
  (Returned (Next (set "user" user req)), w).
Proof.
  intros (token & decoded & Hh & Hb & Ht & Hv & Hd & Hf & Hu & Ha).
  unfold authenticateToken. rewrite run_try_catch, run_bind, run_property by done.
  rewrite Hb. cbn [mbind task_bind bind]. rewrite Ht. cbn [negb].
  rewrite run_bind, run_trigger. cbn [handle]. rewrite Hv.
  rewrite run_bind, run_property by done. rewrite run_bind, Hf.
  by rewrite Hu, Ha.
Qed.

Lemma run_generateToken jwt_secret jwt_expire userId w token :
  jwt_sign (obj [("userId", userId)]) jwt_secret
    (obj [("expiresIn", or_else jwt_expire (VStr "7d"))]) (clock w)
    = Returned token →
  run (generateToken jwt_secret jwt_expire userId) w = (Returned (VStr token), w).
Proof.
  intros Hs. unfold generateToken. rewrite run_fmap, run_trigger. cbn [handle].
  by rewrite Hs.
Qed.

Lemma findById_world id w : (run (User.findById id) w).2 = w.
Proof.
  unfold User.findById, DataService.getUserById, DataService.getUsers.
  rewrite !run_bind, DataService.run_readData.
  by destruct (DataService.contents _ w).
Qed.

(** What follows the test of the token in [optionalAuth] throws: the
    query chain on what [User.findById] returned is a [TypeError], when
    nothing has thrown before. *)
Lemma optionalAuth_throws jwt_secret w (k : value → passed) token :
  ∃ e, run (decoded ← trigger (JwtVerify token jwt_secret);
            userId ← property "userId" decoded;
            found ← User.findById userId;
            user ← call_method "User.findById(...)" "select" found;
            mret (k user)) w = (Thrown e, w).
Proof.
  rewrite run_bind, run_trigger. cbn [handle].
  destruct (jwt_verify token jwt_secret (clock w)) as [decoded|e]; [|by eexists].
  rewrite run_bind. unfold property at 1.
  destruct (nullish decoded); [by eexists|]. cbn [run].
  rewrite run_bind. pose proof (findById_world (get "userId" decoded) w) as Hw.
  destruct (run (User.findById _) w) as [[found|e] w']; simpl in Hw; subst w';
    [|by eexists].
  unfold call_method. destruct (nullish found); by eexists.
Qed.

(** C32: [optionalAuth] never signs anyone in.  Whatever the request and
    the token, the middleware passes the request on as it came, without a
    user: with a valid token the query chain [.select('-password')] on
    what [User.findById] returned throws, and the [catch] calls [next()]. *)
Theorem optionalAuth_never_authenticates jwt_secret req w :
  run (optionalAuth jwt_secret req) w = (Returned (Next req), w).
Proof.
  unfold optionalAuth. rewrite run_try_catch, run_bind. unfold property at 1.
  destruct (nullish (get "headers" req)); [done|]. cbn [run].
  rewrite run_bind.
  destruct (bearer _) as [token|e|] eqn:Hb; cbn [run]; [|done|].
  - destruct (truthy token) eqn:Ht; [|done].
    by destruct (optionalAuth_throws jwt_secret w
                   (λ user, Next (if truthy user && truthy (get "isActive" user)
                                  then set "user" user req else req)) token)
      as [e ->].
  - unfold bearer in Hb. by repeat case_match.
Qed.

(** C7: authentication is sound.  When [authenticateToken] passes a
    request on, the request carried a token that [jwt.verify] accepted
    and that names a user of the store who is active; the request goes on
    with the instance of that user as [req.user], and nothing was
    written. *)
Theorem authenticateToken_sound jwt_secret req req' w w' :
  run (authenticateToken jwt_secret req) w = (Returned (Next req'), w') →
  ∃ user, signed_in jwt_secret req w user ∧ req' = set "user" user req ∧ w' = w.
Proof.
  unfold authenticateToken. rewrite run_try_catch, run_bind. unfold property at 1.
  destruct (nullish (get "headers" req)) eqn:Hh;
    [intros Hr; by apply authentication_failed_answers in Hr|].
  cbn [run]. rewrite run_bind.
  destruct (bearer _) as [token|e|] eqn:Hb; cbn [run];
    [|intros Hr; by apply authentication_failed_answers in Hr
     |unfold bearer in Hb; by repeat case_match].
  destruct (truthy token) eqn:Ht; [|done]. cbn [negb].
  rewrite run_bind, run_trigger. cbn [handle].
  destruct (jwt_verify token jwt_secret (clock w)) as [decoded|e] eqn:Hv;
    [|intros Hr; by apply authentication_failed_answers in Hr].
  rewrite run_bind. unfold property at 1.
  destruct (nullish decoded) eqn:Hd;
    [intros Hr; by apply authentication_failed_answers in Hr|].
  cbn [run]. rewrite run_bind.
  pose proof (findById_world (get "userId" decoded) w) as Hw.
  destruct (run (User.findById _) w) as [[user|e] w1] eqn:Hf; simpl in Hw; subst w1;
    [|intros Hr; by apply authentication_failed_answers in Hr].
  destruct (truthy user) eqn:Hu; [|done].
  destruct (truthy (get "isActive" user)) eqn:Ha; [|done].
  intros [= <- <-]. exists user. split; [|done]. by exists token, decoded.
Qed.

Lemma bounded_cleaned maxRequests windowStart userId log :
  bounded maxRequests log → bounded maxRequests (cleaned windowStart userId log).
Proof.
  intros Hb. unfold cleaned. destruct (log !! userId) as [requests|] eqn:Hu; [|done].
  intros u l. destruct (decide (u = userId)) as [->|].
  - rewrite lookup_insert_eq. intros [= <-]. specialize (Hb _ _ Hu).
    pose proof (length_filter (λ time, windowStart < time)%Z requests). lia.
  - rewrite lookup_insert_ne by done. apply Hb.
Qed.

Lemma bounded_push maxRequests userId now log :
  bounded maxRequests log →
  ¬ (maxRequests ≤ Z.of_nat (length (default [] (log !! userId))))%Z →
  bounded maxRequests (<[userId := default [] (log !! userId) ++ [now]]> log).
Proof.
  intros Hb Hlt u l. destruct (decide (u = userId)) as [->|].
  - rewrite lookup_insert_eq. intros [= <-]. rewrite length_app. simpl. lia.
  - rewrite lookup_insert_ne by done. apply Hb.
Qed.

Lemma run_userRateLimit maxRequests windowMs log req w :
  truthy (get "user" req) = true → nullish (get "_id" (get "user" req)) = false →
  let now := (clock w + elapsed (ticks w))%Z in
  let userId := to_string (get "_id" (get "user" req)) in
  let log1 := cleaned (now - windowMs) userId log in
  run (userRateLimit maxRequests windowMs log req) w =
  (Returned
     (if bool_decide (maxRequests ≤ Z.of_nat (length (default [] (log1 !! userId))))%Z
      then (Answer (too_many_requests windowMs), log1)
      else (Next req, <[userId := default [] (log1 !! userId) ++ [now]]> log1)),
   set_clock now w).
Proof.
  intros Hu Hid now userId log1. unfold userRateLimit, toString. rewrite Hu, Hid.
  cbn [negb mbind task_bind bind run handle trigger settle].
  fold now userId log1. by destruct (bool_decide _).
Qed.

(** C8: the log of the rate limiter is bounded.  When no user has more
    than [maxRequests] requests in the log, the limiter answers a request
    it can key with 429 or passes it on, and no user has more than
    [maxRequests] requests in the log it leaves. *)
Theorem userRateLimit_bounded maxRequests windowMs log req w :
  bounded maxRequests log → keyed req →
  ∃ p log' w', run (userRateLimit maxRequests windowMs log req) w =
                 (Returned (p, log'), w') ∧
               (p = Answer (too_many_requests windowMs) ∨ p = Next req) ∧
               bounded maxRequests log'.
Proof.
  intros Hb Hk. destruct (truthy (get "user" req)) eqn:Hu.
  - rewrite (run_userRateLimit maxRequests windowMs log req w Hu (Hk Hu)).
    cbv zeta. case_bool_decide; do 3 eexists; (split; [done|]).
    + split; [by left|]. by apply bounded_cleaned.
    + split; [by right|]. apply bounded_push; [by apply bounded_cleaned|lia].
  - unfold userRateLimit. rewrite Hu. exists (Next req), log, w.
    split; [done|]. split; [by right|done].
Qed.

(** C34: the rate limiter fails for the users of the application.  An
    instance of [User] has an [id] and no [_id]: for a request whose user
    is such an instance, [userRateLimit] throws a [TypeError] before it
    reads its log. *)
Theorem userRateLimit_throws maxRequests windowMs log req userData w :
  run (userRateLimit maxRequests windowMs log
         (set "user" (User.constructor userData) req)) w =
  (Thrown (type_error "Cannot read properties of undefined (reading 'toString')"),
   w).
Proof.
  unfold userRateLimit. rewrite get_set_eq.
  change (truthy (User.constructor userData)) with true.
  change (get "_id" (User.constructor userData)) with VUndefined.
  reflexivity.
Qed.

End facts.

(** ** The properties at concrete inputs *)

(** A store with one active user, and a request with a token for them. *)
Definition one_user : world :=
  set_files <[DataService.usersFile :=
                Json (VArr [obj [("id", VStr "u1"); ("username", VStr "ada");
                                 ("isActive", VBool true)]])]> empty_world.

Definition bearer_request : value :=
  obj [("headers", obj [("authorization", VStr "Bearer token:u1")])].

Lemma authenticateToken_sound_witness :
  ∃ user, @signed_in counting_runtime sample_coercions
            (VStr "secret") bearer_request one_user user ∧
          set "user" (User.constructor
                        (obj [("id", VStr "u1"); ("username", VStr "ada");
                              ("isActive", VBool true)])) bearer_request =
          set "user" user bearer_request ∧
          one_user = one_user.
Proof.
  apply (@authenticateToken_sound counting_runtime sample_coercions
           (VStr "secret") bearer_request). reflexivity.
Defined.

Definition keyed_request : value :=
  obj [("user", obj [("_id", VStr "user-1")])].

Lemma userRateLimit_bounded_witness :
  ∃ p log' w',
    @run counting_runtime _
      (@userRateLimit sample_coercions 2 1000 ∅ keyed_request)
      empty_world = (Returned (p, log'), w') ∧
    (p = Answer (too_many_requests 1000) ∨ p = Next keyed_request) ∧
    bounded 2 log'.
Proof.
  apply (@userRateLimit_bounded counting_runtime sample_coercions
           2 1000 ∅ keyed_request empty_world).
  - intros userId requests Hl. by rewrite lookup_empty in Hl.
  - intros _. reflexivity.
Defined.

End Auth.
