(* ===== verification/AuthRoutes.v ===== *)
(** * The authentication routes ([backend/src/routes/authRoutes.js])

    The handlers of [/api/auth], named after their routes.  The schemas
    are Joi's: what [registerSchema.validate] and [loginSchema.validate]
    make of a body is the interface [Http.Joi].  The secret and the expiry
    of the tokens are arguments, as in [Auth]. *)

From S2P Require Import Prelude Json Task Http DataService UserModel Auth.

Module AuthRoutes.
Import Js Task Http DataService.

Section routes.
Context `{Runtime} `{Coercions} `{Joi}.

(** The fields of the user that [register] answers with. *)
Definition registered (user : value) : list (string * value) :=
  [("id", get "id" user);
   ("username", get "username" user);
   ("email", get "email" user);
   ("firstName", get "firstName" user);
   ("lastName", get "lastName" user);
   ("fullName", User.fullName user);
   ("role", get "role" user)].

(** The fields of the user that [login] and [verify] answer with. *)
Definition signed (user : value) : list (string * value) :=
  registered user ++
  [("lastLogin", get "lastLogin" user); ("stats", get "stats" user)].

(** [POST /api/auth/register] *)
Definition register (jwt_secret jwt_expire req : value) : task response :=
  match joi_validate "registerSchema" (get "body" req) with
  | Some message => mret (status_json 400 (obj [("success", VBool false);
                                                ("message", message)]))
  | None =>
      body ← destructure (get "body" req);
      existingUserByEmail ← User.findByEmail (get "email" body);
      existingUserByUsername ← User.findByUsername (get "username" body);
      if truthy existingUserByEmail
      then mret (status_json 400 (refusal "User with this email already exists"))
      else if truthy existingUserByUsername
      then mret (status_json 400 (refusal "User with this username already exists"))
      else
        user ← User.create (obj [("username", get "username" body);
                                 ("email", get "email" body);
                                 ("password", get "password" body);
                                 ("firstName", get "firstName" body);
                                 ("lastName", get "lastName" body)]);
        token ← Auth.generateToken jwt_secret jwt_expire (get "id" user);
        user ← User.updateLastLogin user;
        mret (status_json 201
                (obj [("success", VBool true);
                      ("message", VStr "User registered successfully");
                      ("data", obj [("user", obj (registered user));
                                    ("token", token)])]))
  end.

(** [POST /api/auth/login] *)
Definition login (jwt_secret jwt_expire req : value) : task response :=
  match joi_validate "loginSchema" (get "body" req) with
  | Some message => mret (status_json 400 (obj [("success", VBool false);
                                                ("message", message)]))
  | None =>
      body ← destructure (get "body" req);
      user ← User.findByEmail (get "email" body);
      if negb (truthy user)
      then mret (status_json 401 (refusal "Invalid email or password"))
      else if negb (truthy (get "isActive" user))
      then mret (status_json 401
                   (refusal "Account is deactivated. Please contact support."))
      else
        isMatch ← User.comparePassword (get "password" body) user;
        if negb isMatch
        then mret (status_json 401 (refusal "Invalid email or password"))
        else
          token ← Auth.generateToken jwt_secret jwt_expire (get "id" user);
          user ← User.updateLastLogin user;
          mret (json (obj [("success", VBool true);
                           ("message", VStr "Login successful");
                           ("data", obj [("user", obj (signed user));
                                         ("token", token)])]))
  end.

(** [POST /api/auth/logout] *)
Definition logout : response :=
  json (obj [("success", VBool true); ("message", VStr "Logout successful")]).

(** [POST /api/auth/forgot-password] *)
Definition forgot_password (req : value) : task response :=
  body ← destructure (get "body" req);
  if negb (truthy (get "email" body))
  then mret (status_json 400 (refusal "Email is required"))
  else
    user ← User.findByEmail (get "email" body);
    if negb (truthy user)
    then mret (status_json 404 (refusal "User with this email does not exist"))
    else mret (json (obj [("success", VBool true);
                          ("message",
                           VStr "Password reset instructions sent to your email")])).

(** [POST /api/auth/reset-password] *)
Definition reset_password (req : value) : task response :=
  body ← destructure (get "body" req);
  let token := get "token" body in
  let newPassword := get "newPassword" body in
  if negb (truthy token) || negb (truthy newPassword)
  then mret (status_json 400 (refusal "Token and new password are required"))
  else if lt (length_of newPassword) 6
  then mret (status_json 400 (refusal "Password must be at least 6 characters long"))
  else mret (json (obj [("success", VBool true);
                        ("message", VStr "Password reset successful")])).

(** The handler of [GET /api/auth/verify], behind [authenticateToken]. *)
Definition verified (req : value) : task response :=
  user ← property_of "id" (get "user" req);
  mret (json (obj [("success", VBool true);
                   ("message", VStr "Token is valid");
                   ("data", obj [("user", obj (signed user))])])).

(** [GET /api/auth/verify] *)
Definition verify (jwt_secret req : value) : task response :=
  p ← Auth.authenticateToken jwt_secret req;
  match p with
  | Answer r => mret r
  | Next req => verified req
  | NextError err => Throw err
  end.

(** ** What the properties speak of *)

(** A request to log in that the store can answer: its body passes the
    schema, names by its email the record [r] at index [i], an active user
    with the id [s], and carries the password [p] that the stored hash [h]
    was made of. *)
Definition known (req : value) (w : world) (i : nat) (r : value)
    (p h s : string) : Prop :=
  joi_validate "loginSchema" (get "body" req) = None ∧
  get "password" (get "body" req) = VStr p ∧
  list_find (has_field "email" (get "email" (get "body" req)))
    (records usersFile w) = Some (i, r) ∧
  list_find (has_id (VStr s)) (records usersFile w) = Some (i, r) ∧
  get "id" r = VStr s ∧ s ≠ "" ∧ get "isActive" r = VBool true ∧
  get "password" r = VStr h ∧ bcrypt_check p h = true.

(** ** Lemmas *)

Implicit Types (w : world) (req r : value).

Lemma get_signed_id user : get "id" (obj (signed user)) = get "id" user.
Proof. reflexivity. Qed.

Lemma get_signed_password user : get "password" (obj (signed user)) = VUndefined.
Proof. reflexivity. Qed.

(** The user [login] answers with has the id of its record. *)
Lemma login_user_id r s t t' :
  get "id" r = VStr s →
  get "id" (assign (set "lastLogin" (VTime t) (User.constructor r))
              (merged_record r
                 (User.userData_of (set "lastLogin" (VTime t) (User.constructor r)))
                 t')) = VStr s.
Proof.
  intros Hid. rewrite get_assign_defined; rewrite get_merged_old by done;
    by rewrite Hid.
Qed.

(** What [login] does for a known user, step by step. *)
Lemma run_login secret expire req w i r p h s tok :
  store_ok usersFile w → known req w i r p h s →
  jwt_sign (obj [("userId", VStr s)]) secret
    (obj [("expiresIn", or_else expire (VStr "7d"))]) (clock w) = Returned tok →
  let t := (clock w + elapsed (ticks w))%Z in
  let this := set "lastLogin" (VTime t) (User.constructor r) in
  let t' := (t + elapsed (S (ticks w)))%Z in
  let r' := merged_record r (User.userData_of this) t' in
  run (login secret expire req) w =
  (Returned (json (obj [("success", VBool true);
                        ("message", VStr "Login successful");
                        ("data", obj [("user", obj (signed (assign this r')));
                                      ("token", VStr tok)])])),
   store usersFile (<[i := r']> (records usersFile w)) (set_clock t' (set_clock t w))).
Proof.
  intros Hok (Hj & Hp & He & Hi & Hid & Hs & Ha & Hh & Hc) Htok t this t' r'.
  assert (nullish (get "body" req) = false) as Hb.
  { destruct (get "body" req); done. }
  pose (user0 := User.constructor r).
  assert (get "id" user0 = VStr s) as Hid0 by done.
  assert (get "isActive" user0 = VBool true) as Ha0.
  { unfold user0, User.constructor. rewrite Ha. reflexivity. }
  unfold login. rewrite Hj, run_bind, run_destructure by done.
  rewrite run_bind, (User.run_findByEmail _ _ i r) by done.
  rewrite (get_defined_truthy "id" r) by (by rewrite Hid).
  fold user0. cbn [negb run truthy]. rewrite Ha0. cbn [truthy negb].
  change (truthy user0) with true. cbn [negb].
  rewrite run_bind, Hp, (User.run_comparePassword p h) by done.
  rewrite Hc. cbn [negb].
  rewrite run_bind, Hid0, (Auth.run_generateToken _ _ _ _ tok) by done.
  rewrite run_bind, (User.run_updateLastLogin user0 w i r).
  - reflexivity.
  - done.
  - rewrite Hid0. by apply truthy_str.
  - by rewrite Hid0.
Qed.

(** C18: logging in.  For a request whose body passes the schema and
    names by its email a stored, active user with the password its hash
    was made of, [login] answers 200 with the token [jwt.sign] made for
    the id of the user and with the user as [updateLastLogin] left it:
    its last login is the time of the call, and the answer carries no
    password.  The record of the user is where it was in the store, with
    that last login and the hash unchanged. *)
Theorem login_succeeds secret expire req w i r p h s tok :
  store_ok usersFile w → usersFile ∉ unwritable w →
  known req w i r p h s →
  jwt_sign (obj [("userId", VStr s)]) secret
    (obj [("expiresIn", or_else expire (VStr "7d"))]) (clock w) = Returned tok →
  let t := (clock w + elapsed (ticks w))%Z in
  ∃ user w',
    run (login secret expire req) w =
    (Returned (json (obj [("success", VBool true);
                          ("message", VStr "Login successful");
                          ("data", obj [("user", obj (signed user));
                                        ("token", VStr tok)])])), w') ∧
    get "id" user = VStr s ∧ get "lastLogin" user = VTime t ∧
    get "password" (obj (signed user)) = VUndefined ∧
    ∃ r', list_find (has_id (VStr s)) (records usersFile w') = Some (i, r') ∧
          get "lastLogin" r' = VTime t ∧ get "password" r' = VStr h.
Proof.
  intros Hok Hw Hk Htok t. pose proof Hk as (_ & _ & _ & Hi & Hid & _ & _ & Hh & _).
  eexists _, _. split; [by eapply run_login|].
  set (this := set "lastLogin" (VTime t) (User.constructor r)).
  split; [|split; [|split; [done|]]].
  - by apply login_user_id.
  - rewrite User.get_assign_saved; [apply get_set_eq|unfold User.data_keys; in_list].
  - eexists. split; [|split].
    + rewrite records_store, list_find_has_id_jsonify by done.
      erewrite list_find_insert_same; [reflexivity|exact Hi|].
      apply Is_true_true, has_id_merged; done.
    + rewrite (get_jsonify _ _ (VTime t)); [done| |done]. cbn [snd].
      rewrite (get_merged_patch _ _ _ _ (VTime t)); [done..|].
      rewrite User.lookup_userData_of; [by rewrite get_set_eq|].
      unfold User.data_keys; in_list.
    + rewrite (get_jsonify _ _ (VStr h)); [done| |done]. cbn [snd].
      rewrite (get_merged_patch _ _ _ _ (VStr h)); [done..|].
      rewrite User.lookup_userData_of; [|unfold User.data_keys; in_list].
      rewrite get_set_ne by done. by rewrite User.get_constructor_password, Hh.
Qed.

End routes.

(** ** The properties at concrete inputs *)

Definition ada : value :=
  obj [("id", VStr "u1"); ("username", VStr "ada");
       ("email", VStr "ada@example.org"); ("password", VStr "$secret1");
       ("isActive", VBool true)].

Definition one_member : world :=
  set_files <[usersFile := Json (VArr [ada])]> empty_world.

Definition login_request : value :=
  obj [("body", obj [("email", VStr "ada@example.org");
                     ("password", VStr "secret1")])].

Lemma login_succeeds_witness :
  ∃ user w',
    @run counting_runtime _
      (@login sample_coercions accepting
         (VStr "secret") VUndefined login_request) one_member =
    (Returned (json (obj [("success", VBool true);
                          ("message", VStr "Login successful");
                          ("data", obj [("user", obj (@signed sample_coercions user));
                                        ("token", VStr "token:u1")])])), w') ∧
    get "id" user = VStr "u1" ∧ get "lastLogin" user = VTime 1 ∧
    get "password" (obj (@signed sample_coercions user)) = VUndefined ∧
    ∃ r', list_find (has_id (VStr "u1")) (records usersFile w') = Some (0, r') ∧
          get "lastLogin" r' = VTime 1 ∧ get "password" r' = VStr "$secret1".
Proof.
  apply (@login_succeeds counting_runtime sample_coercions accepting
           (VStr "secret") VUndefined login_request one_member 0 ada
           "secret1" "$secret1" "u1" "token:u1").
  - reflexivity.
  - apply not_elem_of_empty.
  - by repeat split.
  - reflexivity.
Defined.

End AuthRoutes.
