(* ===== verification/UserRoutes.v ===== *)
(** * The user routes ([backend/src/routes/userRoutes.js])

    The handlers of [/api/users], named after their routes; the server
    mounts them behind [authenticateToken].  [res.json] serialises its
    argument: an instance of [User] in it goes through its [toJSON], which
    is where [get_profile] loses the password.  The schema of
    [put_profile] is Joi's ([Http.Joi]). *)

From S2P Require Import Prelude Json Task Http DataService UserModel.
From S2P Require Import DetectionModel UploadModel Auth ErrorHandler.

Module UserRoutes.
Import Js Task Http.

Section routes.
Context `{Runtime} `{Coercions} `{Joi}.

(** An instance of [User] as [res.json] sends it. *)
Definition sent (user : value) : value :=
  if nullish user then user else User.toJSON user.

(** [GET /api/users/profile] *)
Definition get_profile (req : value) : response :=
  json (obj [("success", VBool true);
             ("data", obj [("user", sent (get "user" req))])]).










(** ** What the properties speak of *)




(** ** Lemmas *)

Implicit Types (req : value) (w : world).










End routes.

(** ** The properties at concrete inputs *)



End UserRoutes.
