(* ===== verification/UploadRoutes.v ===== *)
(** * The upload routes ([backend/src/routes/uploadRoutes.js])

    The file filter that multer is configured with and the handlers of
    [/api/upload], named after their routes.  multer has run when a
    handler starts: [req.file] or [req.files] describe the files it wrote.
    The server mounts the router behind [authenticateToken], so [req.user]
    is the instance of [User] that the middleware stored, and its methods
    are those of the class.

    The storage callback of multer (the name a file is written under) is
    not here: it is [path.extname] and string concatenation. *)

From S2P Require Import Prelude Json Task Http DataService ErrorHandler.
From S2P Require Import UserModel UploadModel.

Module UploadRoutes.
Import Js Task Http DataService.

Definition allowedTypes : list value :=
  [VStr "image/jpeg"; VStr "image/png"; VStr "image/jpg";
   VStr "video/mp4"; VStr "video/avi"].

Definition invalid_type_error : value :=
  error "Error"
    "Invalid file type. Only images (JPEG, PNG) and videos (MP4, AVI) are allowed".

(** [fileFilter(req, file, cb)]: the arguments [cb] is called with, the
    error and whether the file is accepted. *)
Definition fileFilter (file : value) : task (value * bool) :=
  mimetype ← property "mimetype" file;
  mret (if includes mimetype allowedTypes then (VNull, true)
        else (invalid_type_error, false)).

Section routes.
Context `{Runtime} `{Coercions}.

(** [new Upload({ user: req.user._id, originalName: file.originalname, ... })] *)
Definition record_of (user file : value) : task value :=
  id ← property "_id" user;
  file ← property_of "originalname" file;
  mret (Upload.constructor
          (obj [("user", id);
                ("originalName", get "originalname" file);
                ("filename", get "filename" file);
                ("mimetype", get "mimetype" file);
                ("size", get "size" file);
                ("path", get "path" file);
                ("url", VStr ("/uploads/" +:+ to_string (get "filename" file)));
                ("checksum", get "filename" file)])).

(** [POST /api/upload/single] *)
Definition single (req : value) : task response :=
  if negb (truthy (get "file" req))
  then mret (status_json 400 (refusal "No file uploaded"))
  else
    uploadRecord ← record_of (get "user" req) (get "file" req);
    uploadRecord ← Upload.save uploadRecord;
    _ ← User.incrementUploadStats (get "user" req);
    mret (status_json 201
            (obj [("success", VBool true);
                  ("message", VStr "File uploaded successfully");
                  ("data", obj [("upload", uploadRecord)])])).

(** [for (const file of files)]: the elements of an array, the characters
    of a string; nothing else that is truthy can be iterated. *)
Definition iterated (files : value) : task (list value) :=
  match files with
  | VArr _ | VStr _ | VTime _ => Ret (values files)
  | _ => Throw (type_error "req.files is not iterable")
  end.

(** The body of the loop of [multiple]: the record of one file, saved. *)
Definition saved (user file : value) : task value :=
  uploadRecord ← record_of user file;
  Upload.save uploadRecord.

(** [POST /api/upload/multiple] *)
Definition multiple (req : value) : task response :=
  let files := get "files" req in
  if negb (truthy files) || strict_eq (length_of files) (of_Z 0)
  then mret (status_json 400 (refusal "No files uploaded"))
  else
    l ← iterated files;
    uploadRecords ← mapM (saved (get "user" req)) l;
    _ ← User.incrementUploadStats (get "user" req);
    mret (status_json 201
            (obj [("success", VBool true);
                  ("message", VStr (to_string (length_of files)
                                    +:+ " files uploaded successfully"));
                  ("data", obj [("uploads", VArr uploadRecords)])])).

(** [GET /api/upload/history] *)
Definition history (req : value) : task response :=
  page ← property "page" (get "query" req);
  let page := or_else (parseInt page) (of_Z 1) in
  let limit := or_else (parseInt (get "limit" (get "query" req))) (of_Z 10) in
  let skip := times (minus page (of_Z 1)) limit in
  id ← property "_id" (get "user" req);
  found ← call "Upload" Upload.statics "find" [obj [("user", id)]];
  uploads ← call_method "Upload.find(...)" "sort" found;
  total ← call "Upload" Upload.statics "countDocuments" [obj [("user", id)]];
  mret (json (obj [("success", VBool true);
                   ("data",
                    obj [("uploads", uploads);
                         ("pagination",
                          obj [("page", page); ("limit", limit); ("total", total);
                               ("pages", math_ceil (divide total limit))])])])).

(** [Upload.findOne({ _id: req.params.id, user: req.user._id })] *)
Definition find_owned (req : value) : task value :=
  id ← property "id" (get "params" req);
  user ← property "_id" (get "user" req);
  call "Upload" Upload.statics "findOne" [obj [("_id", id); ("user", user)]].

(** [GET /api/upload/:id] *)
Definition get_upload (req : value) : task response :=
  upload ← find_owned req;
  if negb (truthy upload)
  then mret (status_json 404 (refusal "Upload not found"))
  else mret (json (obj [("success", VBool true);
                        ("data", obj [("upload", upload)])])).

(** [DELETE /api/upload/:id] *)
Definition delete_upload (req : value) : task response :=
  upload ← find_owned req;
  if negb (truthy upload)
  then mret (status_json 404 (refusal "Upload not found"))
  else
    _ ← try_catch (trigger (Unlink (get "path" upload))) (λ _, mret ());
    id ← property "id" (get "params" req);
    _ ← call "Upload" Upload.statics "findByIdAndDelete" [id];
    mret (json (obj [("success", VBool true);
                     ("message", VStr "Upload deleted successfully")])).

(** ** What the properties speak of *)

(** A request as [single] gets it: multer has stored a file, and the user
    is an instance whose record is [old], at index [i] of the users, and
    whose [stats] are an object. *)
Definition uploading (req : value) (w : world) (i : nat) (old : value) : Prop :=
  truthy (get "file" req) = true ∧
  truthy (get "id" (get "user" req)) = true ∧
  list_find (has_id (get "id" (get "user" req))) (records usersFile w)
    = Some (i, old) ∧
  ∃ o, get "stats" (get "user" req) = VObj o.

(** The routes that look uploads up, and the statics they call first. *)
Definition lookups : list (value → task response) :=
  [history; get_upload; delete_upload].

Definition missing_statics : list string := ["Upload.find"; "Upload.findOne"].

(** ** Lemmas *)

Implicit Types (w : world) (req user file : value).

(** The instance [single] builds has no id, no owner and no kind: the
    constructor reads [userId], the route names the owner [user], and
    only [Upload.create] derives [fileType]. *)
Lemma run_record_of user file w :
  nullish user = false → nullish file = false →
  ∃ this, run (record_of user file) w = (Returned this, w) ∧
    get "id" this = VUndefined ∧ get "userId" this = VUndefined ∧
    get "fileType" this = VUndefined.
Proof.
  intros Hu Hf. unfold record_of, property, property_of. rewrite Hu, Hf.
  eexists. split; [reflexivity|]. by repeat split.
Qed.

(** What [single] does for such a request, step by step. *)
Lemma run_single req w i old o :
  store_ok uploadsFile w → store_ok usersFile w → uploading req w i old →
  get "stats" (get "user" req) = VObj o →
  ∃ this,
    get "id" this = VUndefined ∧ get "userId" this = VUndefined ∧
    get "fileType" this = VUndefined ∧
    let r := created w (Upload.uploadData_of this) in
    let w1 := store uploadsFile (records uploadsFile w ++ [r]) (stamped w) in
    let t := (clock w1 + elapsed (ticks w1))%Z in
    let stats := set "lastUploadDate" (VTime t)
                   (set "totalUploads"
                      (plus (get "totalUploads" (VObj o)) (of_Z 1)) (VObj o)) in
    let t' := (t + elapsed (S (ticks w1)))%Z in
    let r' := merged_record old
                (User.userData_of (set "stats" stats (get "user" req))) t' in
    run (single req) w =
    (Returned (status_json 201
                 (obj [("success", VBool true);
                       ("message", VStr "File uploaded successfully");
                       ("data", obj [("upload", assign this r)])])),
     store usersFile (<[i := r']> (records usersFile w))
       (set_clock t' (set_clock t w1))).
Proof.
  intros Hup Hus (Hf & Hid & Hfind & _) Hs.
  assert (nullish (get "user" req) = false) as Hu.
  { apply truthy_not_nullish, (get_defined_truthy "id").
    by intros E; rewrite E in Hid. }
  destruct (run_record_of (get "user" req) (get "file" req) w Hu
              (truthy_not_nullish _ Hf)) as (this & Hrun & Hi & Ho & Hk).
  exists this. split; [done|]. split; [done|]. split; [done|].
  intros r w1 t stats t' r'.
  unfold single. rewrite Hf. cbn [negb].
  rewrite run_bind, Hrun, run_bind, Upload.run_save_fresh by done.
  rewrite run_bind, (User.run_incrementUploadStats (get "user" req) o _ i old).
  - cbn [run]. by rewrite (records_store_other uploadsFile usersFile).
  - by apply store_ok_store_other.
  - done.
  - by rewrite records_store_other.
  - done.
Qed.

(** C15: an upload is stored without its owner.  For a request with a
    file, of a user whose record is in the store, [single] answers 201
    with the new upload and appends its record to the uploads; the upload
    and its record carry the uuid drawn, no [userId] and no [fileType],
    so the uploads of the user, as [getUploadsByUserId] selects them by
    [userId], are the same after the upload as before. *)
Theorem single_forgets_owner req w i old :
  clean w → store_ok uploadsFile w → store_ok usersFile w →
  uploadsFile ∉ unwritable w → uploading req w i old →
  ∃ upload r w',
    run (single req) w =
    (Returned (status_json 201
                 (obj [("success", VBool true);
                       ("message", VStr "File uploaded successfully");
                       ("data", obj [("upload", upload)])])), w') ∧
    get "id" upload = VStr (uuid_of (drawn w)) ∧ get "userId" upload = VUndefined ∧
    records uploadsFile w' = records uploadsFile w ++ [r] ∧
    get "id" r = VStr (uuid_of (drawn w)) ∧ get "userId" r = VUndefined ∧
    get "fileType" r = VUndefined ∧
    filter (λ r, has_field "userId" (get "id" (get "user" req)) r)
      (records uploadsFile w')
    = filter (λ r, has_field "userId" (get "id" (get "user" req)) r)
        (records uploadsFile w).
Proof.
  intros Hc Hup Hus Hw Hreq. pose proof Hreq as (_ & Hid & _ & o & Hs).
  destruct (run_single req w i old o Hup Hus Hreq Hs)
    as (this & Hi & Ho & Hk & Hrun).
  cbv zeta in Hrun. set (r := created w (Upload.uploadData_of this)) in *.
  assert (get "id" r = VStr (uuid_of (drawn w))) as Hri
    by by apply get_id_created_fresh.
  assert (∀ k, k ∈ Upload.data_keys → get k this = VUndefined →
               get k (jsonify r) = VUndefined) as Hr.
  { intros k Hd Hu. apply get_jsonify_undefined. unfold r.
    rewrite get_created_other by (intros ->; revert Hd; unfold Upload.data_keys;
                                  not_in_list).
    by rewrite Upload.get_uploadData_of. }
  assert (get "userId" r = VUndefined) as Hro.
  { unfold r. rewrite get_created_other by done.
    rewrite Upload.get_uploadData_of; [done|unfold Upload.data_keys; in_list]. }
  eexists (assign this r), (jsonify r), _. split; [exact Hrun|].
  rewrite (records_store_other usersFile uploadsFile), !records_set_clock by done.
  rewrite records_store_append by done.
  split; [by rewrite get_assign_defined by by rewrite Hri|].
  split; [by apply get_assign_undefined|]. split; [done|].
  split; [by apply get_jsonify_str|]. split; [by apply get_jsonify_undefined|].
  split; [apply Hr; [unfold Upload.data_keys; in_list|done]|].
  rewrite filter_app, filter_cons_False, filter_nil, app_nil_r; [done|].
  rewrite has_field_undefined; [by intros []|done|].
  by apply get_jsonify_undefined.
Qed.

(** *** The file filter *)

Lemma fileFilter_accepts file :
  nullish file = false → includes (get "mimetype" file) allowedTypes = true →
  fileFilter file = Ret (VNull, true).
Proof.
  intros Hf Hm. unfold fileFilter, property. rewrite Hf.
  cbn [mbind task_bind bind]. by rewrite Hm.
Qed.

(** A file of another type is refused with 400.  For a file whose
    mimetype is none of the five allowed, [fileFilter] hands multer an
    error and [false], and [errorHandler] answers that error with 400 and
    the message of its own branch for a wrong file type. *)
Theorem fileFilter_rejects node_env file w :
  strict_eq node_env (VStr "development") = false →
  nullish file = false → includes (get "mimetype" file) allowedTypes = false →
  run (fileFilter file) w = (Returned (invalid_type_error, false), w) ∧
  run (ErrorHandler.errorHandler node_env invalid_type_error) w =
  (Returned (Response (of_Z 400)
               (refusal "Invalid file type. Only images and videos are allowed")), w).
Proof.
  intros Hdev Hf Hm. split.
  - unfold fileFilter, property. rewrite Hf.
    cbn [mbind task_bind bind]. by rewrite Hm.
  - unfold ErrorHandler.errorHandler, ErrorHandler.respond. cbn. by rewrite Hdev.
Qed.

(** *** The routes that look uploads up *)

Lemma lookup_throws req :
  nullish (get "params" req) = false → nullish (get "user" req) = false →
  find_owned req = Throw (not_a_function "Upload" "findOne").
Proof. intros Hp Hu. unfold find_owned, property. by rewrite Hp, Hu. Qed.

Lemma lookups_throw req h :
  nullish (get "params" req) = false → nullish (get "query" req) = false →
  nullish (get "user" req) = false → h ∈ lookups →
  ∃ m, m ∈ missing_statics ∧ h req = Throw (type_error (m +:+ " is not a function")).
Proof.
  intros Hp Hq Hu Hh. unfold lookups in Hh. rewrite !elem_of_cons, elem_of_nil in Hh.
  destruct Hh as [->|[->|[->|[]]]].
  - exists "Upload.find". split; [in_list|]. unfold history, property.
    by rewrite Hq, Hu.
  - exists "Upload.findOne". split; [in_list|].
    unfold get_upload. by rewrite lookup_throws.
  - exists "Upload.findOne". split; [in_list|].
    unfold delete_upload. by rewrite lookup_throws.
Qed.

End routes.

(** ** The properties at concrete inputs *)

Definition member_world : world :=
  (run (_ ← initializeDataFiles; createUser (obj [("username", VStr "ada")]))
     empty_world).2.

Definition upload_request : value :=
  obj [("file", obj [("originalname", VStr "car.png"); ("filename", VStr "f1.png");
                     ("mimetype", VStr "image/png")]);
       ("user", User.constructor (obj [("id", VStr "u0"); ("username", VStr "ada")]))].

Lemma single_forgets_owner_witness :
  ∃ upload r w',
    @run counting_runtime _ (@single sample_coercions upload_request) member_world =
    (Returned (status_json 201
                 (obj [("success", VBool true);
                       ("message", VStr "File uploaded successfully");
                       ("data", obj [("upload", upload)])])), w') ∧
    get "id" upload = VStr (uuid_of (drawn member_world)) ∧
    get "userId" upload = VUndefined ∧
    records uploadsFile w' = records uploadsFile member_world ++ [r] ∧
    get "id" r = VStr (uuid_of (drawn member_world)) ∧ get "userId" r = VUndefined ∧
    get "fileType" r = VUndefined ∧
    filter (λ r, has_field "userId" (get "id" (get "user" upload_request)) r)
      (records uploadsFile w')
    = filter (λ r, has_field "userId" (get "id" (get "user" upload_request)) r)
        (records uploadsFile member_world).
Proof.
  apply (@single_forgets_owner counting_runtime sample_coercions upload_request
           member_world 0 (default VNull (head (records usersFile member_world)))).
  - apply run_clean, empty_world_clean.
  - vm_compute. reflexivity.
  - vm_compute. reflexivity.
  - apply not_elem_of_empty.
  - split; [reflexivity|]. split; [reflexivity|]. split; [|by eexists].
    vm_compute. reflexivity.
Defined.

Lemma fileFilter_rejects_witness :
  run (fileFilter (obj [("mimetype", VStr "application/pdf")])) empty_world =
    (Returned (invalid_type_error, false), empty_world) ∧
  run (@ErrorHandler.errorHandler sample_coercions (VStr "production")
         invalid_type_error) empty_world =
  (Returned (Response (of_Z 400)
               (refusal "Invalid file type. Only images and videos are allowed")),
   empty_world).
Proof.
  apply (@fileFilter_rejects counting_runtime sample_coercions (VStr "production")
           (obj [("mimetype", VStr "application/pdf")]) empty_world); reflexivity.
Defined.

End UploadRoutes.
