(* ===== verification/Server.v ===== *)
(** * The application ([server.js], the first part of [src/unnamed/part_000])

    The order in which the application mounts what the other files
    define: a router of the API behind [authenticateToken], the error
    middleware after the routers, the answer to a path nothing matched
    last; and the two endpoints the file defines itself.

    A program that throws here is a request the code does not answer:
    [authenticateToken] is not wrapped, and nothing is mounted behind
    [errorHandler]. *)

From S2P Require Import Prelude Json Task Http ErrorHandler Auth DetectionRoutes.

Module Server.
Import Js Task Http UserModel.

Section app.
Context `{Runtime} `{Coercions}.

(** [app.use(path, authenticateToken, router)], then
    [app.use(errorHandler)] *)
Definition protected (node_env jwt_secret : value)
    (handler : value → task response) (req : value) : task response :=
  p ← Auth.authenticateToken jwt_secret req;
  match p with
  | Answer r => mret r
  | Next req => ErrorHandler.route node_env handler req
  | NextError err => ErrorHandler.errorHandler node_env err
  end.

(** [GET /api/health]; [uptime] is the reading of [process.uptime()] *)
Definition health (uptime : value) : task response :=
  timestamp ← trigger Now;
  mret (status_json 200
          (obj [("status", VStr "OK");
                ("message", VStr "Vehicle Occlusion API is running");
                ("timestamp", VTime timestamp);
                ("uptime", uptime);
                ("storage", VStr "Local file system")])).

(** [GET /] *)
Definition root : response :=
  json (obj [("message", VStr "Vehicle Occlusion Detection API");
             ("version", VStr "1.0.0");
             ("documentation", VStr "/api/docs");
             ("endpoints",
              obj [("auth", VStr "/api/auth"); ("users", VStr "/api/users");
                   ("detection", VStr "/api/detection");
                   ("upload", VStr "/api/upload");
                   ("health", VStr "/api/health")])]).

(** [app.use('*', ...)] *)
Definition endpoint_not_found : response :=
  status_json 404 (refusal "Endpoint not found").

End app.

(** ** Lemmas *)

Section facts.
Context `{Runtime} `{Coercions}.
Implicit Types (req : value) (w : world).

(** A request that is not signed in is answered by [authenticateToken]:
    the handler does not run. *)
Lemma protected_refused node_env jwt_secret handler req r w w' :
  run (Auth.authenticateToken jwt_secret req) w = (Returned (Answer r), w') →
  run (protected node_env jwt_secret handler req) w = (Returned r, w').
Proof. intros Hr. unfold protected. by rewrite run_bind, Hr. Qed.

Lemma protected_signed_in node_env jwt_secret handler req user w :
  Auth.signed_in jwt_secret req w user →
  run (protected node_env jwt_secret handler req) w =
  run (ErrorHandler.route node_env handler (set "user" user req)) w.
Proof.
  intros Hs. unfold protected. by rewrite run_bind, (Auth.run_authenticateToken _ _ _ user).
Qed.

(** C11: the detection API answers 500 to its users.  A request with a
    valid token of an active user, to any handler of the detection
    router, passes [authenticateToken], fails in the handler at the first
    call of a static the model classes do not define, and is answered by
    [errorHandler]: status 500, the message of the [TypeError], and a
    store that is as it was. *)
Theorem detection_api_unavailable node_env jwt_secret req user w h :
  strict_eq node_env (VStr "development") = false →
  Auth.signed_in jwt_secret req w user →
  DetectionRoutes.expected (set "user" user req) →
  h ∈ DetectionRoutes.handlers →
  ∃ m, m ∈ DetectionRoutes.missing_statics ∧
    run (protected node_env jwt_secret h req) w =
    (Returned (Response (of_Z 500) (refusal (m +:+ " is not a function"))), w).
Proof.
  intros Hdev Hs Hreq Hh. rewrite (protected_signed_in _ _ _ _ user) by done.
  destruct (DetectionRoutes.handlers_throw _ h Hreq Hh) as (m & Hm & Hthrow).
  exists m. split; [done|].
  by apply ErrorHandler.run_route_type_error;
    [|apply DetectionRoutes.missing_statics_plain|].
Qed.

End facts.

(** ** The properties at concrete inputs *)

Definition analyze_request : value :=
  obj [("headers", obj [("authorization", VStr "Bearer token:u1")]);
       ("body", obj [("uploadId", VStr "upload-1")]);
       ("params", obj []); ("query", obj [])].

Lemma detection_api_unavailable_witness :
  ∃ m, m ∈ DetectionRoutes.missing_statics ∧
    run (protected (VStr "production") (VStr "secret") DetectionRoutes.analyze
           analyze_request) Auth.one_user =
    (Returned (Response (of_Z 500) (refusal (m +:+ " is not a function"))),
     Auth.one_user).
Proof.
  apply (detection_api_unavailable (VStr "production") (VStr "secret")
           analyze_request
           (User.constructor (obj [("id", VStr "u1"); ("username", VStr "ada");
                                   ("isActive", VBool true)]))).
  - reflexivity.
  - exists (VStr "token:u1"), (obj [("userId", VStr "u1")]). by repeat split.
  - by repeat split.
  - unfold DetectionRoutes.handlers. in_list.
Defined.

End Server.
