(* ===== verification/AuthContext.v ===== *)
(** * The authentication context of the front end
    ([frontend/src/context/AuthContext.js])

    The provider keeps the state of [useReducer] and, beside it, the
    token item of [localStorage] and the [Authorization] header of the
    API client.  A [client] is these three and the toasts shown.  The
    actions are the objects the file dispatches, one constructor for
    each type with its payload; the [default] branch of the reducer is
    for a type the file never dispatches.

    What the server answers is an argument: [api method url data
    authorization] is what the promise of the API client settles to, for
    the request and the header it is sent with.  The functions of the
    provider are run to their end: a second call that starts while one
    waits for its answer is not considered. *)

From S2P Require Import Prelude Json Task Http.

Module AuthContext.
Import Js Task Http.

(** ** State and actions *)

Record client : Type := Client {
  state : value;
  storage : value;
  authorization : value;
  toasts : list (string * value);
}.

#[export] Instance client_eq_dec : EqDecision client.
Proof. solve_decision. Defined.

Definition set_state (s : value) (c : client) : client :=
  Client s (storage c) (authorization c) (toasts c).

(** [toast.success], [toast.error], [toast.info] *)
Definition toast (kind : string) (message : value) (c : client) : client :=
  Client (state c) (storage c) (authorization c) (toasts c ++ [(kind, message)]).

(** [localStorage.setItem('token', ...)], [removeItem] and the header of
    the API client, together. *)
Definition keep (item header : value) (c : client) : client :=
  Client (state c) item header (toasts c).

(** [initialState], for the item [localStorage.getItem('token')] returned *)
Definition initialState (token : value) : value :=
  obj [("user", VNull); ("token", token); ("loading", VBool true); ("error", VNull)].

Inductive action : Type :=
| LOGIN_START
| LOGIN_SUCCESS (user token : value)
| LOGIN_FAILURE (payload : value)
| LOGOUT
| SET_LOADING (payload : value)
| CLEAR_ERROR
| UPDATE_USER (payload : value)
| GUEST_LOGIN.

Definition guest : value :=
  obj [("id", VStr "guest"); ("username", VStr "Guest User");
       ("email", VStr "guest@example.com"); ("firstName", VStr "Guest");
       ("lastName", VStr "User"); ("role", VStr "guest"); ("isGuest", VBool true)].

(** [{ ...state, user, token, loading, error }] *)
Definition settled (user token loading error : value) (state : value) : value :=
  set "error" error (set "loading" loading (set "token" token (set "user" user state))).

Definition authReducer (state : value) (a : action) : value :=
  match a with
  | LOGIN_START => set "error" VNull (set "loading" (VBool true) state)
  | LOGIN_SUCCESS user token => settled user token (VBool false) VNull state
  | LOGIN_FAILURE payload => settled VNull VNull (VBool false) payload state
  | LOGOUT => settled VNull VNull (VBool false) VNull state
  | SET_LOADING payload => set "loading" payload state
  | CLEAR_ERROR => set "error" VNull state
  | UPDATE_USER payload => set "user" payload state
  | GUEST_LOGIN => settled guest (VStr "guest-token") (VBool false) VNull state
  end.

Section provider.
Context `{Coercions}.

(** The effect on [state.token]: the header and the stored item follow
    the token. *)
Definition sync (c : client) : client :=
  let token := get "token" (state c) in
  if truthy token && negb (strict_eq token (VStr "guest-token"))
  then keep (VStr (to_string token)) (VStr ("Bearer " +:+ to_string token)) c
  else if strict_eq token (VStr "guest-token")
  then keep (VStr (to_string token)) VUndefined c
  else keep VNull VUndefined c.

(** [dispatch(action)]: the reducer, and the effect when the token is
    another one. *)
Definition dispatch (a : action) (c : client) : client :=
  let c' := set_state (authReducer (state c) a) c in
  if bool_decide (get "token" (state c') = get "token" (state c)) then c'
  else sync c'.

(** [v.k1.k2...]: reading a property of [null] or [undefined] throws. *)
Fixpoint path (ks : list string) (v : value) : outcome value :=
  match ks with
  | [] => Returned v
  | k :: ks =>
      if nullish v
      then Thrown (type_error ("Cannot read properties of undefined (reading '"
                               +:+ k +:+ "')"))
      else path ks (get k v)
  end.

(** [v?.k] *)
Definition optional (k : string) (v : value) : value :=
  if nullish v then VUndefined else get k v.

(** [error.response?.data?.message || fallback] *)
Definition message_of (fallback : string) (error : value) : outcome value :=
  response ← path ["response"] error;
  mret (or_else (optional "message" (optional "data" response)) (VStr fallback)).

(** [const { user, token } = response.data.data] *)
Definition session_of (response : value) : outcome value :=
  d ← path ["data"; "data"] response;
  if nullish d then Thrown (type_error "Cannot destructure property 'user'")
  else mret d.

Section server.
Variable api : string → string → value → value → outcome value.

(** The calls of [login] and [register]: the request, then the session
    of the answer or the message of the failure. *)
Definition sign_in (url : string) (data : value) (welcome fallback : string)
    (c : client) : outcome value * client :=
  let c := dispatch LOGIN_START c in
  match api "POST" url data (authorization c) ≫= session_of with
  | Returned d =>
      let c := dispatch (LOGIN_SUCCESS (get "user" d) (get "token" d)) c in
      (Returned (obj [("success", VBool true)]), toast "success" (VStr welcome) c)
  | Thrown error =>
      match message_of fallback error with
      | Returned message =>
          let c := dispatch (LOGIN_FAILURE message) c in
          (Returned (obj [("success", VBool false); ("error", message)]),
           toast "error" message c)
      | Thrown e => (Thrown e, c)
      end
  end.

Definition login (email password : value) : client → outcome value * client :=
  sign_in "/auth/login" (obj [("email", email); ("password", password)])
    "Login successful!" "Login failed".

Definition register (userData : value) : client → outcome value * client :=
  sign_in "/auth/register" userData "Registration successful!" "Registration failed".

Definition logout (c : client) : client :=
  let _ := api "POST" "/auth/logout" VUndefined (authorization c) in
  toast "info" (VStr "Logged out successfully") (dispatch LOGOUT c).

Definition updateUser (userData : value) (c : client) : outcome value * client :=
  match api "PUT" "/users/profile" userData (authorization c)
        ≫= path ["data"; "data"; "user"] with
  | Returned updatedUser =>
      let c := dispatch (UPDATE_USER updatedUser) c in
      (Returned (obj [("success", VBool true); ("user", updatedUser)]),
       toast "success" (VStr "Profile updated successfully!") c)
  | Thrown error =>
      match message_of "Update failed" error with
      | Returned message =>
          (Returned (obj [("success", VBool false); ("error", message)]),
           toast "error" message c)
      | Thrown e => (Thrown e, c)
      end
  end.

Definition clearError (c : client) : client := dispatch CLEAR_ERROR c.

Definition continueAsGuest (c : client) : client :=
  toast "info" (VStr "Continuing as guest user") (dispatch GUEST_LOGIN c).

(** The effect that checks the stored token when the provider mounts. *)
Definition checkAuth (c : client) : client :=
  let token := storage c in
  if negb (truthy token) then dispatch (SET_LOADING (VBool false)) c
  else if strict_eq token (VStr "guest-token") then dispatch GUEST_LOGIN c
  else
    let c := keep (storage c) (VStr ("Bearer " +:+ to_string token)) c in
    let c :=
      match api "GET" "/auth/verify" VUndefined (authorization c)
            ≫= path ["data"; "data"; "user"] with
      | Returned user => dispatch (LOGIN_SUCCESS user token) c
      | Thrown _ => dispatch LOGOUT (keep VNull VUndefined c)
      end in
    dispatch (SET_LOADING (VBool false)) c.

(** The provider once it has mounted: the state [useReducer] starts
    from, the effect on the token, then [checkAuth]. *)
Definition mount (stored : value) : client :=
  checkAuth (sync (Client (initialState stored) stored VUndefined [])).

End server.

(** [useAuth], for what [useContext] returned *)
Definition useAuth (context : value) : outcome value :=
  if negb (truthy context)
  then Thrown (error "Error" "useAuth must be used within an AuthProvider")
  else Returned context.

(** ** What the properties speak of *)

(** The stored item and the header that belong to a token. *)
Definition item_of (token : value) : value :=
  if truthy token then VStr (to_string token) else VNull.

Definition header_of (token : value) : value :=
  if truthy token && negb (strict_eq token (VStr "guest-token"))
  then VStr ("Bearer " +:+ to_string token) else VUndefined.

(** The stored item and the header are those of the token of the state. *)
Definition synced (c : client) : Prop :=
  storage c = item_of (get "token" (state c)) ∧
  authorization c = header_of (get "token" (state c)).

(** What a user of the context can do, whatever the server answers. *)
Inductive step : client → client → Prop :=
| step_login api email password c : step c (login api email password c).2
| step_register api userData c : step c (register api userData c).2
| step_logout api c : step c (logout api c)
| step_updateUser api userData c : step c (updateUser api userData c).2
| step_clearError c : step c (clearError c)
| step_continueAsGuest c : step c (continueAsGuest c).

(** ** Lemmas *)

Implicit Types (c : client) (a : action) (token : value).

Lemma sync_keep c :
  sync c = keep (item_of (get "token" (state c))) (header_of (get "token" (state c))) c.
Proof.
  unfold sync, item_of, header_of.
  destruct (get "token" (state c)) as [| |b|q| |s|t|l|o] eqn:E;
    cbn [truthy strict_eq]; try done.
  - by destruct b.
  - by destruct (Qeq_bool q 0).
  - destruct (String.eqb s "guest-token") eqn:Hg; [|by destruct (String.eqb s "")].
    by apply String.eqb_eq in Hg as ->.
Qed.

Lemma synced_sync c : synced (sync c).
Proof. by rewrite sync_keep. Qed.

Lemma get_token_settled user token loading error s :
  get "token" (settled user token loading error s) = token.
Proof. unfold settled. by rewrite !get_set_ne, get_set_eq by done. Qed.

Lemma get_user_settled user token loading error s :
  get "user" (settled user token loading error s) = user.
Proof. unfold settled. by rewrite !get_set_ne, get_set_eq by done. Qed.

Lemma item_of_token tok : tok ≠ "" → item_of (VStr tok) = VStr tok.
Proof. intros Hne. unfold item_of. by rewrite (proj2 (truthy_str tok) Hne). Qed.

Lemma header_of_token tok :
  tok ≠ "" → tok ≠ "guest-token" → header_of (VStr tok) = VStr ("Bearer " +:+ tok).
Proof.
  intros Hne Hg. unfold header_of.
  by rewrite (proj2 (truthy_str tok) Hne), strict_eq_str_ne.
Qed.

(** An item that was stored and reads as truthy is its own item. *)
Lemma item_of_stored token :
  truthy (item_of token) = true → item_of (item_of token) = item_of token.
Proof.
  unfold item_of. destruct (truthy token); [|done]. cbv iota.
  by intros ->.
Qed.

(** A dispatch to a token the item and the header already belong to. *)
Lemma dispatch_to a c :
  storage c = item_of (get "token" (authReducer (state c) a)) →
  authorization c = header_of (get "token" (authReducer (state c) a)) →
  synced (dispatch a c).
Proof.
  intros Hs Ha. unfold dispatch. case_bool_decide; [done|apply synced_sync].
Qed.

Lemma dispatch_synced a c : synced c → synced (dispatch a c).
Proof.
  intros [Hs Ha]. unfold dispatch. case_bool_decide as E; [|apply synced_sync].
  split; simpl in *; by rewrite E.
Qed.

Lemma toast_synced kind message c : synced c → synced (toast kind message c).
Proof. done. Qed.

Lemma dispatch_same a c :
  get "token" (authReducer (state c) a) = get "token" (state c) →
  dispatch a c = set_state (authReducer (state c) a) c.
Proof.
  intros E. unfold dispatch. cbn [state set_state]. by rewrite bool_decide_eq_true_2.
Qed.

Lemma dispatch_LOGIN_START c :
  dispatch LOGIN_START c =
  set_state (set "error" VNull (set "loading" (VBool true) (state c))) c.
Proof. apply dispatch_same. cbn [authReducer]. by rewrite !get_set_ne. Qed.

(** Where a dispatch leaves a client whose item and header follow its
    token. *)
Lemma dispatch_settled a c :
  synced c →
  let s := authReducer (state c) a in
  dispatch a c =
  Client s (item_of (get "token" s)) (header_of (get "token" s)) (toasts c).
Proof.
  intros [Hs Ha] s. unfold dispatch. fold s. cbn [state set_state].
  case_bool_decide as E.
  - unfold set_state. by rewrite Hs, Ha, E.
  - by rewrite sync_keep.
Qed.

Section calls.
Variable api : string → string → value → value → outcome value.

Lemma sign_in_synced url data welcome fallback c :
  synced c → synced (sign_in api url data welcome fallback c).2.
Proof.
  intros Hc. unfold sign_in. repeat case_match; cbn [snd];
    auto using dispatch_synced, toast_synced.
Qed.

Lemma updateUser_synced userData c :
  synced c → synced (updateUser api userData c).2.
Proof.
  intros Hc. unfold updateUser. repeat case_match; cbn [snd];
    auto using dispatch_synced, toast_synced.
Qed.

Lemma checkAuth_synced c : synced c → synced (checkAuth api c).
Proof.
  intros Hc. unfold checkAuth.
  destruct (truthy (storage c)) eqn:Ht; cbn [negb]; [|by apply dispatch_synced].
  destruct (strict_eq (storage c) _) eqn:Hg; [by apply dispatch_synced|].
  apply dispatch_synced. case_match; apply dispatch_to; cbn [authReducer];
    rewrite get_token_settled; cbn [storage authorization keep]; try done.
  - destruct Hc as [Hs _]. rewrite Hs in Ht |- *. by rewrite item_of_stored.
  - unfold header_of. by rewrite Ht, Hg.
Qed.

Lemma mount_synced stored : synced (mount api stored).
Proof. apply checkAuth_synced, synced_sync. Qed.

(** What [sign_in] does for an answer with a session, and for a failure
    with a message. *)
Lemma sign_in_accepted url data welcome fallback c response d :
  synced c →
  api "POST" url data (authorization c) = Returned response →
  session_of response = Returned d →
  sign_in api url data welcome fallback c =
  (Returned (obj [("success", VBool true)]),
   Client (settled (get "user" d) (get "token" d) (VBool false) VNull
             (set "error" VNull (set "loading" (VBool true) (state c))))
     (item_of (get "token" d)) (header_of (get "token" d))
     (toasts c ++ [("success", VStr welcome)])).
Proof.
  intros Hc Hapi Hd. unfold sign_in.
  pose proof (dispatch_synced LOGIN_START c Hc) as Hc1.
  rewrite dispatch_LOGIN_START in Hc1 |- *.
  cbn [authorization set_state]. rewrite Hapi. cbn [mbind outcome_bind]. rewrite Hd.
  rewrite dispatch_settled by exact Hc1. cbn [authReducer state set_state].
  by rewrite get_token_settled.
Qed.

Lemma sign_in_refused url data welcome fallback c e m :
  synced c →
  api "POST" url data (authorization c) = Thrown e →
  message_of fallback e = Returned m →
  sign_in api url data welcome fallback c =
  (Returned (obj [("success", VBool false); ("error", m)]),
   Client (settled VNull VNull (VBool false) m
             (set "error" VNull (set "loading" (VBool true) (state c))))
     VNull VUndefined (toasts c ++ [("error", m)])).
Proof.
  intros Hc Hapi Hm. unfold sign_in.
  pose proof (dispatch_synced LOGIN_START c Hc) as Hc1.
  rewrite dispatch_LOGIN_START in Hc1 |- *.
  cbn [authorization set_state]. rewrite Hapi. cbn [mbind outcome_bind]. rewrite Hm.
  rewrite dispatch_settled by exact Hc1. cbn [authReducer state set_state].
  by rewrite get_token_settled.
Qed.

(** A login the server accepts.  When the server answers the login
    with a session, [login] reports success, the state holds the user and
    the token of the session with no error, the token is stored, and the
    header of the API client is [Bearer] and the token. *)
Theorem login_accepted email password c response d :
  synced c →
  api "POST" "/auth/login" (obj [("email", email); ("password", password)])
    (authorization c) = Returned response →
  session_of response = Returned d →
  login api email password c =
  (Returned (obj [("success", VBool true)]),
   Client (settled (get "user" d) (get "token" d) (VBool false) VNull
             (set "error" VNull (set "loading" (VBool true) (state c))))
     (item_of (get "token" d)) (header_of (get "token" d))
     (toasts c ++ [("success", VStr "Login successful!")])).
Proof. apply sign_in_accepted. Qed.

(** C40: a login the server refuses.  When the request fails with an
    error that carries a message, [login] reports the message, the state
    has no user and no token and holds the message as its error, nothing
    is stored and the API client has no header: whoever was signed in
    before is signed out. *)
Theorem login_refused email password c e m :
  synced c →
  api "POST" "/auth/login" (obj [("email", email); ("password", password)])
    (authorization c) = Thrown e →
  message_of "Login failed" e = Returned m →
  login api email password c =
  (Returned (obj [("success", VBool false); ("error", m)]),
   Client (settled VNull VNull (VBool false) m
             (set "error" VNull (set "loading" (VBool true) (state c))))
     VNull VUndefined (toasts c ++ [("error", m)])).
Proof. apply sign_in_refused. Qed.

End calls.

Lemma step_synced c c' : step c c' → synced c → synced c'.
Proof.
  destruct 1; intros Hc; unfold login, register, logout, clearError, continueAsGuest;
    auto using sign_in_synced, updateUser_synced, dispatch_synced, toast_synced.
Qed.

(** C16: the stored token and the header follow the state.  In every
    state the provider reaches from its mount, through logins,
    registrations, logouts, updates of the profile and guest sessions,
    whatever the server answers, the item of [localStorage] and the
    [Authorization] header are those of [state.token]: the token as a
    string and [Bearer] before it, only the item for the token of a guest,
    neither without a token. *)
Theorem synced_reachable api stored c : rtc step (mount api stored) c → synced c.
Proof.
  revert c. apply rtc_ind_r; [apply mount_synced|].
  intros c c' _ Hstep IH. by eapply step_synced.
Qed.

End provider.

(** ** The properties at concrete inputs *)

(** A server that is down, and one that accepts every login as Ada's. *)
Definition down : string → string → value → value → outcome value :=
  λ _ _ _ _, Thrown (error "Error" "Network Error").

Definition refusing : string → string → value → value → outcome value :=
  λ _ _ _ _, Thrown (obj [("response",
                           obj [("status", of_Z 401);
                                ("data", refusal "Invalid email or password")])]).

Definition ada_session : value :=
  obj [("status", of_Z 200);
       ("data", obj [("success", VBool true);
                     ("data", obj [("user", obj [("id", VStr "u1")]);
                                   ("token", VStr "token:u1")])])].

Definition accepting_ada : string → string → value → value → outcome value :=
  λ _ _ _ _, Returned ada_session.

Lemma synced_reachable_witness :
  @synced sample_coercions
    (continueAsGuest (@mount sample_coercions down (VStr "token:u1"))).
Proof.
  apply (@synced_reachable sample_coercions down (VStr "token:u1")).
  apply rtc_once, step_continueAsGuest.
Defined.

Lemma login_accepted_witness :
  let c := @mount sample_coercions down VNull in
  @login sample_coercions accepting_ada (VStr "ada@example.org") (VStr "secret1") c =
  (Returned (obj [("success", VBool true)]),
   Client (settled (obj [("id", VStr "u1")]) (VStr "token:u1") (VBool false) VNull
             (set "error" VNull (set "loading" (VBool true) (state c))))
     (VStr "token:u1") (VStr "Bearer token:u1")
     (toasts c ++ [("success", VStr "Login successful!")])).
Proof.
  apply (@login_accepted sample_coercions accepting_ada (VStr "ada@example.org")
           (VStr "secret1") (@mount sample_coercions down VNull) ada_session
           (obj [("user", obj [("id", VStr "u1")]); ("token", VStr "token:u1")])).
  - apply mount_synced.
  - reflexivity.
  - reflexivity.
Defined.

Lemma login_refused_witness :
  let c := @mount sample_coercions down VNull in
  @login sample_coercions refusing (VStr "ada@example.org") (VStr "wrong") c =
  (Returned (obj [("success", VBool false);
                  ("error", VStr "Invalid email or password")]),
   Client (settled VNull VNull (VBool false) (VStr "Invalid email or password")
             (set "error" VNull (set "loading" (VBool true) (state c))))
     VNull VUndefined (toasts c ++ [("error", VStr "Invalid email or password")])).
Proof.
  apply (@login_refused sample_coercions refusing (VStr "ada@example.org")
           (VStr "wrong") (@mount sample_coercions down VNull)
           (obj [("response",
                  obj [("status", of_Z 401);
                       ("data", refusal "Invalid email or password")])])).
  - apply mount_synced.
  - reflexivity.
  - reflexivity.
Defined.

End AuthContext.
