(* ===== verification/Pages.v ===== *)
(** * The pages of the front end

    What the pages do beside rendering: the effects that load their data
    and the handlers of their forms, each as a function on the state the
    page keeps with [useState].  The user is the one of the
    authentication context, the server is the function [api] of
    [AuthContext], called with the header the API client sends.

    - [Dashboard]: the second part of [frontend/src/context/AuthContext.js]
    - [History]: [frontend/src/pages/History.js]
    - [DetectionResults]: [src/unnamed/part_002]
    - [Profile]: [frontend/src/pages/Profile.js]
    - [UploadPage]: [frontend/src/pages/Upload.js]

    An effect whose [catch] throws rejects a promise nothing waits for:
    the functions here return the state the page is left in. *)

From S2P Require Import Prelude Json Task Http AuthContext.
From Stdlib Require Import QArith.
#[local] Close Scope Q_scope.

(** [Promise.all] of two requests, and [user?.isGuest] *)
Module Calls.
Import Js Task.

Definition both (a b : outcome value) : outcome (value * value) :=
  match a, b with
  | Returned x, Returned y => Returned (x, y)
  | Thrown e, _ => Thrown e
  | _, Thrown e => Thrown e
  end.

Definition isGuest (user : value) : bool :=
  truthy (AuthContext.optional "isGuest" user).

End Calls.

Module Dashboard.
Import Js Task Http AuthContext Calls.

Record page : Type := Page { stats : value; loading : value; error : value }.

Definition no_stats : value :=
  obj [("totalUploads", of_Z 0); ("totalDetections", of_Z 0);
       ("recentUploads", VArr [])].

Definition initial : page := Page no_stats (VBool true) (VStr "").

Section page.
Context `{Coercions}.

(** [res.data.data.length] *)
Definition count (res : value) : outcome value :=
  d ← path ["data"; "data"] res;
  if nullish d
  then Thrown (type_error "Cannot read properties of undefined (reading 'length')")
  else mret (length_of d).

(** [res.data.data.slice(0, 5)] *)
Definition first5 (res : value) : outcome value :=
  d ← path ["data"; "data"] res;
  match d with
  | VArr l => mret (VArr (take 5 l))
  | VStr s => mret (VStr (String.substring 0 5 s))
  | VTime t => mret (VStr (String.substring 0 5 (time_to_string t)))
  | VUndefined | VNull =>
      Thrown (type_error "Cannot read properties of undefined (reading 'slice')")
  | _ => Thrown (not_a_function "uploadsRes.data.data" "slice")
  end.

(** The stats of the two answers. *)
Definition loaded (res : value * value) : outcome value :=
  totalUploads ← count res.1;
  totalDetections ← count res.2;
  recentUploads ← first5 res.1;
  mret (obj [("totalUploads", totalUploads); ("totalDetections", totalDetections);
             ("recentUploads", recentUploads)]).

Definition fetchStats (user : value)
    (api : string → string → value → value → outcome value) (header : value)
    (p : page) : page :=
  if isGuest user then Page no_stats (VBool false) (error p)
  else
    match both (api "GET" "/uploads" VUndefined header)
               (api "GET" "/detections" VUndefined header) ≫= loaded with
    | Returned s => Page s (VBool false) (error p)
    | Thrown _ => Page (stats p) (VBool false) (VStr "Failed to load dashboard data")
    end.

(** The success rate the page shows, in percent. *)
Definition successRate (p : page) : value :=
  if gt (get "totalUploads" (stats p)) 0
  then math_round (times (divide (get "totalDetections" (stats p))
                            (get "totalUploads" (stats p))) (of_Z 100))
  else of_Z 0.

End page.
End Dashboard.

Module History.
Import Js Task Http AuthContext Calls.

Record page : Type := Page { uploads : value; loading : value; error : value }.

Definition initial : page := Page (VArr []) (VBool true) (VStr "").

Definition fetchHistory `{Coercions} (user : value)
    (api : string → string → value → value → outcome value) (header : value)
    (p : page) : page :=
  if isGuest user then Page (VArr []) (VBool false) (error p)
  else
    match api "GET" "/uploads" VUndefined header ≫= path ["data"; "data"] with
    | Returned d => Page (or_else d (VArr [])) (VBool false) (error p)
    | Thrown err =>
        match message_of "Failed to load upload history" err with
        | Returned message => Page (uploads p) (VBool false) message
        | Thrown _ => Page (uploads p) (VBool false) (error p)
        end
    end.

End History.

Module DetectionResults.
Import Js Task Http AuthContext Calls.

Record page : Type := Page { detection : value; loading : value; error : value }.

Definition initial : page := Page VNull (VBool true) (VStr "").

Definition fetchDetection `{Coercions} (id user : value)
    (api : string → string → value → value → outcome value) (header : value)
    (p : page) : page :=
  if isGuest user
  then Page (detection p) (VBool false)
         (VStr "Guest users cannot view detection results")
  else
    match api "GET" ("/detections/" +:+ to_string id) VUndefined header
          ≫= path ["data"; "data"] with
    | Returned d => Page d (VBool false) (error p)
    | Thrown err =>
        match message_of "Failed to load detection results" err with
        | Returned message => Page (detection p) (VBool false) message
        | Thrown _ => Page (detection p) (VBool false) (error p)
        end
    end.

End DetectionResults.

Module Profile.
Import Js Task Http AuthContext Calls.

Record page : Type := Page { formData : value; loading : value; message : value }.

Definition initial : page :=
  Page (obj [("firstName", VStr ""); ("lastName", VStr ""); ("email", VStr "");
             ("username", VStr "")])
       (VBool false) (VStr "").

(** The effect on [user]: the form shows the user. *)
Definition shown (user : value) (p : page) : page :=
  if truthy user
  then Page (obj [("firstName", or_else (get "firstName" user) (VStr ""));
                  ("lastName", or_else (get "lastName" user) (VStr ""));
                  ("email", or_else (get "email" user) (VStr ""));
                  ("username", or_else (get "username" user) (VStr ""))])
            (loading p) (message p)
  else p.

Section page.
Context `{Coercions}.

(** [handleChange], for the [name] and the [value] of [e.target] *)
Definition handleChange (name value : value) (p : page) : page :=
  Page (set (to_string name) value (formData p)) (loading p) (message p).

(** What [handleSubmit] shows for the result of [updateUser]. *)
Definition reported (result : outcome value) : value :=
  match result with
  | Returned result =>
      if nullish result then VStr "Failed to update profile"
      else if truthy (get "success" result) then VStr "Profile updated successfully!"
      else or_else (get "error" result) (VStr "Failed to update profile")
  | Thrown _ => VStr "Failed to update profile"
  end.

Definition handleSubmit (user : value)
    (api : string → string → value → value → outcome value)
    (c : client) (p : page) : page * client :=
  if isGuest user
  then (Page (formData p) (loading p)
          (VStr "Guest users cannot update profile information"), c)
  else
    let '(result, c) := updateUser api (formData p) c in
    (Page (formData p) (VBool false) (reported result), c).

End page.
End Profile.

Module UploadPage.
Import Js Task Http AuthContext Calls.

Record page : Type := Page {
  selectedFile : value;
  preview : value;
  uploading : value;
  uploadResult : value;
  error : value;
  navigation : option string;
}.

Definition initial : page := Page VNull VNull (VBool false) VNull (VStr "") None.

Definition set_error (e : value) (p : page) : page :=
  Page (selectedFile p) (preview p) (uploading p) (uploadResult p) e (navigation p).

Section page.
Context `{Coercions}.

(** [event.target.files[0]] *)
Definition chosen (event : value) : outcome value :=
  files ← path ["target"; "files"] event;
  match files with
  | VArr l => mret (default VUndefined (l !! 0))
  | VUndefined | VNull =>
      Thrown (type_error "Cannot read properties of undefined (reading '0')")
  | _ => mret (get "0" files)
  end.

(** [file.type.startsWith('image/')] *)
Definition is_image (file : value) : outcome bool :=
  match get "type" file with
  | VStr s => mret (starts_with "image/" s)
  | VTime t => mret (starts_with "image/" (time_to_string t))
  | VUndefined | VNull =>
      Thrown (type_error "Cannot read properties of undefined (reading 'startsWith')")
  | _ => Thrown (not_a_function "file.type" "startsWith")
  end.

(** [handleFileSelect]; [read] is what the [FileReader] loads. *)
Definition handleFileSelect (event read : value) (p : page) : outcome page :=
  file ← chosen event;
  if truthy file then
    image ← is_image file;
    if negb image then mret (set_error (VStr "Please select a valid image file") p)
    else if gt (get "size" file) (10 * 1024 * 1024)
    then mret (set_error (VStr "File size must be less than 10MB") p)
    else mret (Page file read (uploading p) (uploadResult p) (VStr "") (navigation p))
  else mret p.

(** The result a guest is shown when the upload fails: [now] and [date]
    are the two readings of the clock, [r1] to [r4] the numbers
    [Math.random] returned. *)
Definition demoResult (file : value) (now date : Z) (r1 r2 r3 r4 : Q) : value :=
  obj [("id", VStr ("guest-" +:+ to_string (of_Z now)));
       ("filename", get "name" file);
       ("uploadDate", VTime date);
       ("status", VStr "processed");
       ("occlusionPercentage", of_Z (floor (r1 * 50) + 10));
       ("confidenceScore", of_Z (floor (r2 * 30) + 70));
       ("processingTime",
        VStr (to_string (of_Z (floor (r3 * 5) + 1)) +:+ "." +:+
              to_string (of_Z (floor (r4 * 9))) +:+ "s"));
       ("isDemo", VBool true)].

(** The form the page posts. *)
Definition formData (user file : value) : value :=
  if isGuest user then obj [("image", file); ("guestUpload", VStr "true")]
  else obj [("image", file)].

(** What follows the answer inside the [try]: the result, and where the
    page goes next. *)
Definition received (user response : value) : outcome (value * option string) :=
  result ← path ["data"; "data"] response;
  if isGuest user then mret (result, None)
  else if nullish result
  then Thrown (type_error
                 "Cannot read properties of undefined (reading 'detectionId')")
  else if truthy (get "detectionId" result)
  then mret (result, Some ("/detection/" +:+ to_string (get "detectionId" result)))
  else mret (result, None).

Definition handleUpload (user : value)
    (api : string → string → value → value → outcome value) (header : value)
    (now date : Z) (r1 r2 r3 r4 : Q) (p : page) : page :=
  if negb (truthy (selectedFile p))
  then set_error (VStr "Please select an image first") p
  else
    let file := selectedFile p in
    let response := api "POST" "/uploads" (formData user file) header in
    match response ≫= received user with
    | Returned (result, next) =>
        Page file (preview p) (VBool false) result (VStr "")
          (if next is Some url then Some url else navigation p)
    | Thrown err =>
        let result :=
          match response ≫= path ["data"; "data"] with
          | Returned result => result
          | Thrown _ => VNull
          end in
        if isGuest user
        then Page file (preview p) (VBool false)
               (demoResult file now date r1 r2 r3 r4) (VStr "") (navigation p)
        else
          match message_of "Upload failed" err with
          | Returned message =>
              Page file (preview p) (VBool false) result message (navigation p)
          | Thrown _ =>
              Page file (preview p) (VBool false) result (VStr "") (navigation p)
          end
    end.

Definition handleReset (p : page) : page :=
  Page VNull VNull (uploading p) VNull (VStr "") (navigation p).

(** C39: the demo result of a guest is within its ranges.  When a guest
    uploads a file and the request fails, the page shows a demo result
    whose occlusion percentage is between 10 and 59 and whose confidence
    score is between 70 and 99, for every pair of numbers [Math.random]
    can return, with no error and the upload over. *)
Theorem demoResult_bounds user api header now date r1 r2 r3 r4 p e :
  isGuest user = true → truthy (selectedFile p) = true →
  api "POST" "/uploads" (formData user (selectedFile p)) header = Thrown e →
  (0 <= r1)%Q → (r1 < 1)%Q → (0 <= r2)%Q → (r2 < 1)%Q →
  let p' := handleUpload user api header now date r1 r2 r3 r4 p in
  ∃ n m : Z,
    get "occlusionPercentage" (uploadResult p') = of_Z n ∧ (10 ≤ n ≤ 59)%Z ∧
    get "confidenceScore" (uploadResult p') = of_Z m ∧ (70 ≤ m ≤ 99)%Z ∧
    get "isDemo" (uploadResult p') = VBool true ∧
    error p' = VStr "" ∧ uploading p' = VBool false.
Proof.
  intros Hg Hf Hapi H1 H1' H2 H2' p'. unfold p', handleUpload.
  rewrite Hf, Hapi. cbn [negb mbind outcome_bind]. rewrite Hg.
  cbn [uploadResult error uploading].
  exists (floor (r1 * 50) + 10)%Z, (floor (r2 * 30) + 70)%Z.
  pose proof (floor_draw r1 50 H1 H1' ltac:(lia)) as Hn.
  pose proof (floor_draw r2 30 H2 H2' ltac:(lia)) as Hm.
  change (inject_Z 50) with 50%Q in Hn. change (inject_Z 30) with 30%Q in Hm.
  repeat split; try reflexivity; lia.
Qed.

End page.

(** ** The property at a concrete input *)

Definition picked : page :=
  Page (obj [("name", VStr "car.png"); ("type", VStr "image/png");
             ("size", of_Z 2048)])
       VNull (VBool false) VNull (VStr "") None.

Lemma demoResult_bounds_witness :
  let p' := @handleUpload sample_coercions AuthContext.guest AuthContext.down
              VUndefined 1000 1000 (1 # 2) (99 # 100) 0 0 picked in
  ∃ n m : Z,
    get "occlusionPercentage" (uploadResult p') = of_Z n ∧ (10 ≤ n ≤ 59)%Z ∧
    get "confidenceScore" (uploadResult p') = of_Z m ∧ (70 ≤ m ≤ 99)%Z ∧
    get "isDemo" (uploadResult p') = VBool true ∧
    error p' = VStr "" ∧ uploading p' = VBool false.
Proof.
  apply (@demoResult_bounds sample_coercions AuthContext.guest AuthContext.down
           VUndefined 1000 1000 (1 # 2) (99 # 100) 0 0 picked
           (Js.error "Error" "Network Error")); done.
Defined.

End UploadPage.
