(* ===== verification/EndToEnd.v ===== *)
(** * The front end against the server

    The authentication context of the front end ([AuthContext]) with the
    routes and the middleware of the server as what answers its requests.
    A request of the API client reaches a handler as the body it carries
    and the [Authorization] header of the client; the answer comes back
    through [res.json], which serialises it, and through the API client,
    which rejects an answer whose status is not a 2xx. *)

From S2P Require Import Prelude Json Task Http DataService ErrorHandler.
From S2P Require Import UserModel Auth AuthRoutes UserRoutes Server.
From S2P Require Import AuthContext Pages.

Module EndToEnd.
Import Js Task Http DataService.

Section wire.
Context `{Runtime} `{Coercions} `{Joi}.

(** The request a handler sees, for the data and the header sent. *)
Definition request_of (data header : value) : value :=
  obj [("body", data); ("headers", obj [("authorization", header)]);
       ("params", obj []); ("query", obj [])].

(** What the promise of the API client settles to, for an answer. *)
Definition axios (r : response) : outcome value :=
  let answer := obj [("data", jsonify (body r)); ("status", status r)] in
  if ge (status r) 200 && lt (status r) 300 then Returned answer
  else Thrown (obj [("name", VStr "AxiosError");
                    ("message", VStr ("Request failed with status code "
                                      +:+ to_string (status r)));
                    ("response", answer)]).

(** The server in the world [w], as the front end calls it to log in. *)
Definition login_server (node_env jwt_secret jwt_expire : value) (w : world)
  : string → string → value → value → outcome value :=
  λ _ _ data header,
    match run (ErrorHandler.route node_env (AuthRoutes.login jwt_secret jwt_expire)
                 (request_of data header)) w with
    | (Returned r, _) => axios r
    | (Thrown e, _) => Thrown e
    end.


(** ** Lemmas *)

Implicit Types (w : world) (c : AuthContext.client).

Lemma guest_header c :
  AuthContext.synced c →
  AuthContext.authorization (AuthContext.continueAsGuest c) = VUndefined.
Proof.
  intros Hc. unfold AuthContext.continueAsGuest.
  rewrite AuthContext.dispatch_settled by done.
  cbn [AuthContext.authReducer AuthContext.toast AuthContext.authorization].
  by rewrite AuthContext.get_token_settled.
Qed.

(** The session in the answer of a login, as the API client delivers it. *)
Lemma session_of_login user tok :
  AuthContext.session_of
    (obj [("data", jsonify (obj [("success", VBool true);
                                 ("message", VStr "Login successful");
                                 ("data", obj [("user", user); ("token", VStr tok)])]));
          ("status", of_Z 200)])
  = Returned (jsonify (obj [("user", user); ("token", VStr tok)])).
Proof.
  set (d := obj [("user", user); ("token", VStr tok)]).
  set (body := obj [("success", _); _; _]).
  assert (get "data" (jsonify body) = jsonify d) as Hd
    by (apply get_jsonify; [reflexivity|unfold d, obj; discriminate]).
  unfold AuthContext.session_of. cbn [AuthContext.path nullish obj].
  change (get "data" (obj [("data", jsonify body); _])) with (jsonify body).
  change (nullish (jsonify body)) with false. cbv iota. rewrite Hd.
  reflexivity.
Qed.


(** C20: a guest is refused by the server.  After [continueAsGuest] the
    API client has no [Authorization] header, so every request of a guest
    to a router behind [authenticateToken] is answered 401 with
    [Access token required], whatever it carries. *)
Theorem guest_refused jwt_secret data c w :
  AuthContext.synced c →
  let c' := AuthContext.continueAsGuest c in
  run (Auth.authenticateToken jwt_secret
         (request_of data (AuthContext.authorization c'))) w =
  (Returned (Answer (status_json 401 (refusal "Access token required"))), w).
Proof. intros Hc c'. unfold c'. by rewrite guest_header. Qed.

(** C14: logging in, end to end.  When the front end logs in with the
    email and the password of a stored, active user, against the login
    route of the server behind its error middleware, [login] reports
    success and the state of the context holds the token the server
    signed and the user of that id, without a password; the token is
    stored and the API client sends it as [Bearer] from then on. *)
Theorem login_end_to_end node_env secret expire email p c w i r h s tok :
  AuthContext.synced c →
  store_ok usersFile w →
  AuthRoutes.known
    (request_of (obj [("email", email); ("password", VStr p)])
       (AuthContext.authorization c)) w i r p h s →
  jwt_sign (obj [("userId", VStr s)]) secret
    (obj [("expiresIn", or_else expire (VStr "7d"))]) (clock w) = Returned tok →
  tok ≠ "" → tok ≠ "guest-token" →
  ∃ c', AuthContext.login (login_server node_env secret expire w) email (VStr p) c
        = (Returned (obj [("success", VBool true)]), c') ∧
    get "token" (AuthContext.state c') = VStr tok ∧
    get "id" (get "user" (AuthContext.state c')) = VStr s ∧
    get "password" (get "user" (AuthContext.state c')) = VUndefined ∧
    AuthContext.storage c' = VStr tok ∧
    AuthContext.authorization c' = VStr ("Bearer " +:+ tok).
Proof.
  intros Hc Hok Hk Htok Hne Hg.
  pose proof (AuthRoutes.run_login secret expire _ w i r p h s tok Hok Hk Htok) as Hrun.
  cbv zeta in Hrun. eexists. split.
  - eapply AuthContext.login_accepted; [done| |apply session_of_login].
    unfold login_server. by rewrite (ErrorHandler.run_route_answer _ _ _ _ _ _ Hrun).
  - cbn [AuthContext.state AuthContext.storage AuthContext.authorization].
    rewrite AuthContext.get_token_settled, AuthContext.get_user_settled.
    set (U := assign _ _).
    assert (get "token" (jsonify (obj [("user", obj (AuthRoutes.signed U));
                                       ("token", VStr tok)])) = VStr tok) as ->
      by by apply get_jsonify_str.
    assert (get "user" (jsonify (obj [("user", obj (AuthRoutes.signed U));
                                      ("token", VStr tok)]))
            = jsonify (obj (AuthRoutes.signed U))) as ->
      by (apply get_jsonify; [reflexivity|unfold obj; discriminate]).
    destruct Hk as (_ & _ & _ & _ & Hid & _).
    split; [done|]. split.
    { apply get_jsonify_str. rewrite AuthRoutes.get_signed_id.
      by apply AuthRoutes.login_user_id. }
    split; [apply get_jsonify_undefined, AuthRoutes.get_signed_password|].
    by rewrite AuthContext.item_of_token, AuthContext.header_of_token.
Qed.


End wire.

(** ** The properties at concrete inputs *)

Definition fresh_client : AuthContext.client :=
  @AuthContext.mount sample_coercions AuthContext.down VNull.

Lemma guest_refused_witness :
  @run counting_runtime _
    (@Auth.authenticateToken sample_coercions (VStr "secret")
       (request_of VUndefined
          (AuthContext.authorization
             (@AuthContext.continueAsGuest sample_coercions fresh_client))))
    empty_world =
  (Returned (Answer (status_json 401 (refusal "Access token required"))), empty_world).
Proof.
  apply (@guest_refused counting_runtime sample_coercions (VStr "secret") VUndefined
           fresh_client empty_world).
  apply AuthContext.mount_synced.
Defined.

Lemma login_end_to_end_witness :
  ∃ c', @AuthContext.login sample_coercions
          (@login_server counting_runtime sample_coercions accepting
             (VStr "production") (VStr "secret") VUndefined AuthRoutes.one_member)
          (VStr "ada@example.org") (VStr "secret1") fresh_client
        = (Returned (obj [("success", VBool true)]), c') ∧
    get "token" (AuthContext.state c') = VStr "token:u1" ∧
    get "id" (get "user" (AuthContext.state c')) = VStr "u1" ∧
    get "password" (get "user" (AuthContext.state c')) = VUndefined ∧
    AuthContext.storage c' = VStr "token:u1" ∧
    AuthContext.authorization c' = VStr "Bearer token:u1".
Proof.
  apply (@login_end_to_end counting_runtime sample_coercions accepting
           (VStr "production") (VStr "secret") VUndefined (VStr "ada@example.org")
           "secret1" fresh_client AuthRoutes.one_member 0 AuthRoutes.ada
           "$secret1" "u1" "token:u1").
  - apply AuthContext.mount_synced.
  - reflexivity.
  - by repeat split.
  - reflexivity.
  - discriminate.
  - discriminate.
Defined.



End EndToEnd.
